(** * PSPSchool-StudentMS: a student management system on SQLite

    A shallow embedding of the C++ sources
      - [include/models.hpp]   (Student, Course, Grade and [Grade::weighted]),
      - [include/services.hpp] (the in-memory [DataStore] and its helpers),
      - [helpers.cpp]          (existence checks, in-place updates, removals),
      - [db.cpp]               (the SQLite persistence layer),
      - [validation.hpp]       ([trim], the validators and the prompts),
      - [PSPSchool-StudentMS.cpp] ([main]: the start, the menu loop and its
        branches),
    followed by the properties of the store-then-mirror protocol, of the two
    layers, of the validators and of the program as a whole.

    Conventions of the embedding.
      - [std::string] is [string]; [==] on strings is [String.eqb].
      - [double] is the kernel's binary64 [float]; [<], [>], [>=] are
        [PrimFloat.ltb] and [PrimFloat.leb] (false on NaN, as in C++).
      - [std::vector<T>] is [list T]; [push_back] appends at the end; an
        iterator is an index, [end()] being the length of the list.
      - a function taking [DataStore&] and returning [bool] becomes a function
        returning [bool * DataStore].
      - counters of type [int] are [Z]; signed overflow (undefined in C++)
        is not modelled, the vectors never reach 2^31 elements.
      - [std::cin] is the list of the characters still to be read, and
        [std::regex] a datatype of patterns with a matcher; what is written
        to [std::cout] by the prompts and the menu is left out. *)

From Stdlib Require Import List String Ascii Bool ZArith QArith Qabs Lia.
From Stdlib Require Import Floats Uint63.
Import ListNotations.

Set Warnings "-inexact-float".

Close Scope Q_scope.
Local Open Scope string_scope.
Local Open Scope list_scope.

(* ================================================================== *)
(** ** models.hpp *)

Module Student.
Record t : Type := mk
  { roll_no : string;
    name : string;
    address : string;
    contact : string }.
End Student.

Module Course.
Record t : Type := mk
  { code : string;
    title : string;
    description : string;
    teacher : string }.
End Course.

Module Grade.
Record t : Type := mk
  { roll_no : string;
    course_code : string;
    internal_mark : float;
    final_mark : float }.

(** [double weighted() const { return 0.3 * internal_mark + 0.7 * final_mark; }] *)
Definition weighted (g : t) : float :=
  (0.3 * internal_mark g + 0.7 * final_mark g)%float.
End Grade.

(* ================================================================== *)
(** ** The fragments of <algorithm> and <vector> the sources use *)

Section Vector.
Context {A : Type}.

(** [std::find_if(v.begin(), v.end(), p)]: the index of the first element
    satisfying [p], or [List.length v] (the position of [v.end()]). *)
Fixpoint find_if (p : A -> bool) (v : list A) : nat :=
  match v with
  | [] => 0
  | x :: rest => if p x then 0 else S (find_if p rest)
  end.

(** [it != v.end()] for an iterator at index [it]. *)
Definition not_end (it : nat) (v : list A) : bool := Nat.ltb it (List.length v).

(** [v.push_back(x)]. *)
Definition push_back (v : list A) (x : A) : list A := v ++ [x].

(** Writing through an iterator: the element at [it] becomes [f] of it. *)
Fixpoint assign_at (it : nat) (f : A -> A) (v : list A) : list A :=
  match v, it with
  | [], _ => []
  | x :: rest, O => f x :: rest
  | x :: rest, S it' => x :: assign_at it' f rest
  end.

(** [v.erase(std::remove_if(v.begin(), v.end(), p), v.end())]: the elements
    not satisfying [p] are moved to the front in their order, and the
    tail is cut off. *)
Fixpoint erase_remove_if (p : A -> bool) (v : list A) : list A :=
  match v with
  | [] => []
  | x :: rest =>
      if p x then erase_remove_if p rest else x :: erase_remove_if p rest
  end.
End Vector.

(* ================================================================== *)
(** ** services.hpp *)

Record DataStore : Type := mkDataStore
  { all_students : list Student.t;
    all_courses : list Course.t;
    all_grades : list Grade.t }.

Definition with_students (d : DataStore) (v : list Student.t) : DataStore :=
  mkDataStore v (all_courses d) (all_grades d).
Definition with_courses (d : DataStore) (v : list Course.t) : DataStore :=
  mkDataStore (all_students d) v (all_grades d).
Definition with_grades (d : DataStore) (v : list Grade.t) : DataStore :=
  mkDataStore (all_students d) (all_courses d) v.

(** The lambdas passed to [find_if] and [remove_if]. *)
Definition student_is (roll : string) (x : Student.t) : bool :=
  Student.roll_no x =? roll.
Definition course_is (code : string) (x : Course.t) : bool :=
  Course.code x =? code.
Definition grade_is (roll code : string) (g : Grade.t) : bool :=
  (Grade.roll_no g =? roll) && (Grade.course_code g =? code).
Definition grade_of_student (roll : string) (g : Grade.t) : bool :=
  Grade.roll_no g =? roll.
Definition grade_of_course (code : string) (g : Grade.t) : bool :=
  Grade.course_code g =? code.

(** [add_student]: add a student if roll_no is unique. *)
Definition add_student (data : DataStore) (s : Student.t) : bool * DataStore :=
  let it := find_if (student_is (Student.roll_no s)) (all_students data) in
  if not_end it (all_students data) then (false, data)
  else (true, with_students data (push_back (all_students data) s)).

(** [add_course]: add a course if code is unique. *)
Definition add_course (data : DataStore) (c : Course.t) : bool * DataStore :=
  let it := find_if (course_is (Course.code c)) (all_courses data) in
  if not_end it (all_courses data) then (false, data)
  else (true, with_courses data (push_back (all_courses data) c)).

(** [enroll_student]: three look-ups, each with an early [return false],
    then the [push_back] of a Grade with 0 marks. *)
Definition enroll_student (data : DataStore) (roll_no course_code : string)
  : bool * DataStore :=
  let s := find_if (student_is roll_no) (all_students data) in
  if negb (not_end s (all_students data)) then (false, data) else
  let c := find_if (course_is course_code) (all_courses data) in
  if negb (not_end c (all_courses data)) then (false, data) else
  let dup := find_if (grade_is roll_no course_code) (all_grades data) in
  if not_end dup (all_grades data) then (false, data) else
  (true,
   with_grades data
     (push_back (all_grades data) (Grade.mk roll_no course_code 0%float 0%float))).

(** The first line of [enter_marks]:
    [internal < 0 || internal > 100 || final < 0 || final > 100]. *)
Definition marks_rejected (internal final : float) : bool :=
  (internal <? 0)%float || (100 <? internal)%float
  || (final <? 0)%float || (100 <? final)%float.

(** [enter_marks]: enter or replace marks for an existing enrollment. *)
Definition enter_marks (data : DataStore) (roll_no course_code : string)
    (internal final : float) : bool * DataStore :=
  if marks_rejected internal final then (false, data) else
  let it := find_if (grade_is roll_no course_code) (all_grades data) in
  if negb (not_end it (all_grades data)) then (false, data) else
  (true,
   with_grades data
     (assign_at it
        (fun g => Grade.mk (Grade.roll_no g) (Grade.course_code g) internal final)
        (all_grades data))).

(** [student_report] writes to [std::cout]; the embedding returns what is
    written as a value: the header, one line per listed grade, the
    "Overall average" line when it is printed, and whether the
    "No courses enrolled." line is printed. *)
Record ReportLine : Type := mkReportLine
  { line_title : string;
    line_internal : float;
    line_final : float;
    line_grade : float }.

Record Overall : Type := mkOverall
  { overall_average : float;
    overall_courses : Z;
    overall_passed : Z }.

Inductive ReportOutput : Type :=
| StudentNotFound
| StudentReport (name roll_no : string) (lines : list ReportLine)
    (overall : option Overall) (no_courses : bool).

(** The conversion of the [int] counter [n] in [total / n]. *)
Definition double_of_int (n : Z) : float := PrimFloat.of_uint63 (Uint63.of_Z n).

(** Body of the first loop of [student_report] for a grade that is not
    skipped: the course title, or the course code when the course is unknown. *)
Definition report_line (data : DataStore) (g : Grade.t) : ReportLine :=
  let c := find_if (course_is (Grade.course_code g)) (all_courses data) in
  let title :=
    match nth_error (all_courses data) c with
    | None => Grade.course_code g
    | Some x => Course.title x
    end in
  mkReportLine title (Grade.internal_mark g) (Grade.final_mark g) (Grade.weighted g).

(** One iteration of the first loop; the state is [(any, lines printed)]. *)
Definition listing_step (data : DataStore) (roll_no : string)
    (acc : bool * list ReportLine) (g : Grade.t) : bool * list ReportLine :=
  if negb (Grade.roll_no g =? roll_no) then acc
  else (true, snd acc ++ [report_line data g]).

(** One iteration of the second loop; the state is [(total, n, passed)]. *)
Definition totals_step (roll_no : string) (acc : float * Z * Z) (g : Grade.t)
  : float * Z * Z :=
  if negb (Grade.roll_no g =? roll_no) then acc
  else
    let w := Grade.weighted g in
    let '(total, n, passed) := acc in
    ((total + w)%float, (n + 1)%Z, if (50 <=? w)%float then (passed + 1)%Z else passed).

Definition student_report (data : DataStore) (roll_no : string) : ReportOutput :=
  let s := find_if (student_is roll_no) (all_students data) in
  match nth_error (all_students data) s with
  | None => StudentNotFound
  | Some st =>
      let '(any, lines) :=
        fold_left (listing_step data roll_no) (all_grades data) (false, []) in
      let '(total, n, passed) :=
        fold_left (totals_step roll_no) (all_grades data) (0%float, 0%Z, 0%Z) in
      StudentReport (Student.name st) (Student.roll_no st) lines
        (if (0 <? n)%Z
         then Some (mkOverall (total / double_of_int n)%float n passed)
         else None)
        (negb any)
  end.

(* ================================================================== *)
(** ** helpers.cpp *)

(** [exists_student]: a range-for returning true at the first match. *)
Definition exists_student (d : DataStore) (roll : string) : bool :=
  existsb (fun s => Student.roll_no s =? roll) (all_students d).

Definition exists_course (d : DataStore) (code : string) : bool :=
  existsb (fun c => Course.code c =? code) (all_courses d).

Definition already_enrolled (d : DataStore) (roll code : string) : bool :=
  existsb (fun g => (Grade.roll_no g =? roll) && (Grade.course_code g =? code))
    (all_grades d).

(** The loop of [apply_student_update] and [apply_course_update]:
    the first element satisfying [p] is overwritten and the loop returns. *)
Fixpoint replace_first {A : Type} (p : A -> bool) (v : A) (l : list A)
  : bool * list A :=
  match l with
  | [] => (false, [])
  | x :: rest =>
      if p x then (true, v :: rest)
      else let (ok, rest') := replace_first p v rest in (ok, x :: rest')
  end.

Definition apply_student_update (d : DataStore) (s : Student.t) : bool * DataStore :=
  let (ok, v) := replace_first (student_is (Student.roll_no s)) s (all_students d) in
  (ok, with_students d v).

Definition apply_course_update (d : DataStore) (c : Course.t) : bool * DataStore :=
  let (ok, v) := replace_first (course_is (Course.code c)) c (all_courses d) in
  (ok, with_courses d v).

(** [remove_student]: erase the student, erase that student's grades, and
    report whether the size of [all_students] changed. *)
Definition remove_student (d : DataStore) (roll : string) : bool * DataStore :=
  let s0 := List.length (all_students d) in
  let d1 := with_students d (erase_remove_if (student_is roll) (all_students d)) in
  let d2 := with_grades d1 (erase_remove_if (grade_of_student roll) (all_grades d1)) in
  (negb (Nat.eqb (List.length (all_students d2)) s0), d2).

(** [remove_course]: the same for a course and the grades of that course. *)
Definition remove_course (d : DataStore) (code : string) : bool * DataStore :=
  let c0 := List.length (all_courses d) in
  let d1 := with_courses d (erase_remove_if (course_is code) (all_courses d)) in
  let d2 := with_grades d1 (erase_remove_if (grade_of_course code) (all_grades d1)) in
  (negb (Nat.eqb (List.length (all_courses d2)) c0), d2).

(** [remove_enrollment]: erase the grade rows of the pair. *)
Definition remove_enrollment (d : DataStore) (roll code : string)
  : bool * DataStore :=
  let g0 := List.length (all_grades d) in
  let d1 := with_grades d (erase_remove_if (grade_is roll code) (all_grades d)) in
  (negb (Nat.eqb (List.length (all_grades d1)) g0), d1).

(* ================================================================== *)
(** ** The SQLite engine, as far as db.cpp drives it

    [db.cpp] talks to SQLite through [sqlite3_exec], [sqlite3_prepare_v2],
    [sqlite3_step] and [sqlite3_changes].  The engine itself is not part of
    the repository; this module fixes the meaning of the SQL statements that
    occur in [db.cpp] over the schema that [db_init_and_seed] creates:

      - [students(roll_no PRIMARY KEY, ...)], [courses(code PRIMARY KEY, ...)],
        [grades(..., PRIMARY KEY (roll_no, course_code),
                FOREIGN KEY (roll_no) REFERENCES students ON DELETE CASCADE,
                FOREIGN KEY (course_code) REFERENCES courses ON DELETE CASCADE)],
        with foreign keys switched on ([PRAGMA foreign_keys = ON]);
      - a table is the list of its rows in rowid order: an INSERT appends;
      - a statement is atomic: when a row violates a constraint the whole
        statement fails with [SQLITE_CONSTRAINT] and changes nothing;
      - preparing a statement over a missing table fails with [SQLITE_ERROR];
      - [sqlite3_bind_double] binds NaN as NULL, which the [NOT NULL] mark
        columns refuse;
      - a REAL column stores a double without fractional part as an integer:
        what is read back of -0.0 is 0.0, and every other double comes back
        as it was ([stored_real]);
      - [sqlite3_bind_text] is called with the length -1 throughout, so that
        the text that is bound ends before the first NUL byte of the string
        ([bind_text]);
      - rows removed by a cascade are not counted by [sqlite3_changes].
    Failures of the operating system (disk, locks) are outside the model.
    So is a key (a roll number, a course code) that holds a NUL byte: every
    key that [main] passes to [db.cpp] has passed [is_valid_roll] or
    [is_valid_course_code], and the embedding binds a key as it is. *)

Module Sqlite.

Inductive rc : Type :=
| SQLITE_OK | SQLITE_ERROR | SQLITE_CONSTRAINT | SQLITE_ROW | SQLITE_DONE.

Definition rc_eqb (a b : rc) : bool :=
  match a, b with
  | SQLITE_OK, SQLITE_OK | SQLITE_ERROR, SQLITE_ERROR
  | SQLITE_CONSTRAINT, SQLITE_CONSTRAINT | SQLITE_ROW, SQLITE_ROW
  | SQLITE_DONE, SQLITE_DONE => true
  | _, _ => false
  end.

(** The content of the database file. *)
Record Database : Type := mkDatabase
  { has_tables : bool;
    students : list Student.t;
    courses : list Course.t;
    grades : list Grade.t }.

Inductive table : Type := Students | Courses | Grades.

(** The statements of [db.cpp], with their parameters bound. *)
Inductive Stmt : Type :=
| CreateTables
    (* PRAGMA foreign_keys = ON; CREATE TABLE IF NOT EXISTS students, courses, grades *)
| SelectOneFrom (t : table)
    (* SELECT 1 FROM t LIMIT 1 *)
| SelectAllFrom (t : table)
    (* SELECT <all columns> FROM t *)
| InsertStudents (rows : list Student.t)
    (* INSERT INTO students(roll_no,name,address,contact) VALUES ... *)
| InsertCourses (rows : list Course.t)
    (* INSERT INTO courses(code,title,description,teacher) VALUES ... *)
| InsertGrades (rows : list Grade.t)
    (* INSERT INTO grades(roll_no,course_code,internal_mark,final_mark) VALUES ... *)
| UpdateMarks (internal final : float) (roll code : string)
    (* UPDATE grades SET internal_mark=?, final_mark=? WHERE roll_no=? AND course_code=? *)
| UpdateStudent (name address contact roll : string)
    (* UPDATE students SET name=?, address=?, contact=? WHERE roll_no=? *)
| UpdateCourse (title description teacher code : string)
    (* UPDATE courses SET title=?, description=?, teacher=? WHERE code=? *)
| DeleteStudent (roll : string)
    (* DELETE FROM students WHERE roll_no=? *)
| DeleteCourse (code : string)
    (* DELETE FROM courses WHERE code=? *)
| DeleteGrade (roll code : string)
    (* DELETE FROM grades WHERE roll_no=? AND course_code=? *).

(** Row-by-row insertion under the PRIMARY KEY of [students]. *)
Fixpoint insert_students (rows tbl : list Student.t) : option (list Student.t) :=
  match rows with
  | [] => Some tbl
  | r :: rest =>
      if existsb (student_is (Student.roll_no r)) tbl then None
      else insert_students rest (tbl ++ [r])
  end.

(** Row-by-row insertion under the PRIMARY KEY of [courses]. *)
Fixpoint insert_courses (rows tbl : list Course.t) : option (list Course.t) :=
  match rows with
  | [] => Some tbl
  | r :: rest =>
      if existsb (course_is (Course.code r)) tbl then None
      else insert_courses rest (tbl ++ [r])
  end.

(** Row-by-row insertion into [grades]: the composite PRIMARY KEY and the
    two FOREIGN KEYs. *)
Fixpoint insert_grades (st : list Student.t) (co : list Course.t)
    (rows tbl : list Grade.t) : option (list Grade.t) :=
  match rows with
  | [] => Some tbl
  | r :: rest =>
      if existsb (grade_is (Grade.roll_no r) (Grade.course_code r)) tbl then None
      else if negb (existsb (student_is (Grade.roll_no r)) st) then None
      else if negb (existsb (course_is (Grade.course_code r)) co) then None
      else insert_grades st co rest (tbl ++ [r])
  end.

Definition count {A : Type} (p : A -> bool) (l : list A) : nat :=
  List.length (filter p l).

(** The text that [sqlite3_bind_text(st, i, x.c_str(), -1, ...)] binds: the
    characters of [x] before its first NUL byte. *)
Fixpoint bind_text (x : string) : string :=
  match x with
  | EmptyString => EmptyString
  | String c rest =>
      if Ascii.eqb c "000" then EmptyString else String c (bind_text rest)
  end.

(** What [sqlite3_column_double] reads of a double that a REAL column
    stores. *)
Definition stored_real (x : float) : float :=
  if (x =? 0)%float then 0%float else x.

Definition set_marks (internal final : float) (g : Grade.t) : Grade.t :=
  Grade.mk (Grade.roll_no g) (Grade.course_code g) internal final.

(** [sqlite3_prepare_v2]: compiling a statement needs the tables it names. *)
Definition sqlite3_prepare_v2 (db : Database) (st : Stmt) : rc :=
  match st with
  | CreateTables => SQLITE_OK
  | _ => if has_tables db then SQLITE_OK else SQLITE_ERROR
  end.

(** Whether a SELECT over the table has a first row. *)
Definition no_rows (db : Database) (t : table) : bool :=
  match t with
  | Students => match students db with [] => true | _ :: _ => false end
  | Courses => match courses db with [] => true | _ :: _ => false end
  | Grades => match grades db with [] => true | _ :: _ => false end
  end.

(** The first [sqlite3_step] on a prepared statement: the result code, the
    value [sqlite3_changes] returns afterwards, and the new content.  (The
    further steps of a SELECT walk through the rows of the table; see
    [db_load_all].) *)
Definition sqlite3_step (db : Database) (st : Stmt) : rc * nat * Database :=
  match st with
  | CreateTables =>
      (SQLITE_DONE, 0, mkDatabase true (students db) (courses db) (grades db))
  | SelectOneFrom t | SelectAllFrom t =>
      (if no_rows db t then SQLITE_DONE else SQLITE_ROW, 0, db)
  | InsertStudents rows =>
      match insert_students rows (students db) with
      | None => (SQLITE_CONSTRAINT, 0, db)
      | Some tbl =>
          (SQLITE_DONE, List.length rows,
           mkDatabase (has_tables db) tbl (courses db) (grades db))
      end
  | InsertCourses rows =>
      match insert_courses rows (courses db) with
      | None => (SQLITE_CONSTRAINT, 0, db)
      | Some tbl =>
          (SQLITE_DONE, List.length rows,
           mkDatabase (has_tables db) (students db) tbl (grades db))
      end
  | InsertGrades rows =>
      match insert_grades (students db) (courses db) rows (grades db) with
      | None => (SQLITE_CONSTRAINT, 0, db)
      | Some tbl =>
          (SQLITE_DONE, List.length rows,
           mkDatabase (has_tables db) (students db) (courses db) tbl)
      end
  | UpdateMarks internal final roll code =>
      let n := count (grade_is roll code) (grades db) in
      if Nat.eqb n 0 then (SQLITE_DONE, 0, db)
      else if PrimFloat.is_nan internal || PrimFloat.is_nan final
      then (SQLITE_CONSTRAINT, 0, db)
      else
        (SQLITE_DONE, n,
         mkDatabase (has_tables db) (students db) (courses db)
           (map (fun g => if grade_is roll code g
                          then set_marks (stored_real internal)
                                 (stored_real final) g
                          else g)
                (grades db)))
  | UpdateStudent name address contact roll =>
      (SQLITE_DONE, count (student_is roll) (students db),
       mkDatabase (has_tables db)
         (map (fun s => if student_is roll s
                        then Student.mk (Student.roll_no s) name address contact
                        else s)
              (students db))
         (courses db) (grades db))
  | UpdateCourse title description teacher code =>
      (SQLITE_DONE, count (course_is code) (courses db),
       mkDatabase (has_tables db) (students db)
         (map (fun c => if course_is code c
                        then Course.mk (Course.code c) title description teacher
                        else c)
              (courses db))
         (grades db))
  | DeleteStudent roll =>
      let n := count (student_is roll) (students db) in
      if Nat.eqb n 0 then (SQLITE_DONE, 0, db)
      else
        (SQLITE_DONE, n,
         mkDatabase (has_tables db)
           (filter (fun s => negb (student_is roll s)) (students db))
           (courses db)
           (* ON DELETE CASCADE *)
           (filter (fun g => negb (grade_of_student roll g)) (grades db)))
  | DeleteCourse code =>
      let n := count (course_is code) (courses db) in
      if Nat.eqb n 0 then (SQLITE_DONE, 0, db)
      else
        (SQLITE_DONE, n,
         mkDatabase (has_tables db) (students db)
           (filter (fun c => negb (course_is code c)) (courses db))
           (* ON DELETE CASCADE *)
           (filter (fun g => negb (grade_of_course code g)) (grades db)))
  | DeleteGrade roll code =>
      (SQLITE_DONE, count (grade_is roll code) (grades db),
       mkDatabase (has_tables db) (students db) (courses db)
         (filter (fun g => negb (grade_is roll code g)) (grades db)))
  end.

(** [sqlite3_exec] of a one-statement script: prepare, step, finalize. *)
Definition sqlite3_exec (db : Database) (st : Stmt) : rc * Database :=
  match sqlite3_prepare_v2 db st with
  | SQLITE_OK =>
      match sqlite3_step db st with
      | (SQLITE_DONE, _, db') | (SQLITE_ROW, _, db') => (SQLITE_OK, db')
      | (code, _, db') => (code, db')
      end
  | code => (code, db)
  end.

End Sqlite.

(* ================================================================== *)
(** ** db.cpp *)

Import Sqlite.

(** [exec_sql]: run a raw SQL string with [sqlite3_exec]. *)
Definition exec_sql (db : Database) (sql : Stmt) : bool * Database :=
  let (code, db') := sqlite3_exec db sql in
  (rc_eqb code SQLITE_OK, db').

(** The three seed statements of [db_init_and_seed]. *)
Definition seed_students : list Student.t :=
  [ Student.mk "S001" "Ava" "12 Oak St" "021-111";
    Student.mk "S002" "Leo" "34 Pine Ave" "021-222";
    Student.mk "S003" "Mia" "56 Willow Rd" "021-333" ].

Definition seed_courses : list Course.t :=
  [ Course.mk "MTH101" "Maths" "Numbers and algebra" "Mr. King";
    Course.mk "SCI101" "Science" "Intro science" "Ms. Ray";
    Course.mk "ENG101" "English" "Reading & writing" "Mrs. Lee" ].

Definition seed_grades : list Grade.t :=
  [ Grade.mk "S001" "MTH101" 75 88;
    Grade.mk "S001" "SCI101" 62 70;
    Grade.mk "S002" "ENG101" 80 92;
    Grade.mk "S003" "MTH101" 55 60 ]%float.

(** The lambda [table_empty] of [db_init_and_seed]: [empty] starts true and
    becomes false only when the statement is prepared and yields a row. *)
Definition table_empty (db : Database) (t : table) : bool :=
  match sqlite3_prepare_v2 db (SelectOneFrom t) with
  | SQLITE_OK =>
      match sqlite3_step db (SelectOneFrom t) with
      | (SQLITE_ROW, _, _) => false
      | _ => true
      end
  | _ => true
  end.

(** [db_init_and_seed]: create the tables, then seed each empty table;
    every failing [exec_sql] returns false at once. *)
Definition db_init_and_seed (db : Database) : bool * Database :=
  let (ok, db) := exec_sql db CreateTables in
  if negb ok then (false, db) else
  let (ok, db) :=
    if table_empty db Students
    then exec_sql db (InsertStudents seed_students) else (true, db) in
  if negb ok then (false, db) else
  let (ok, db) :=
    if table_empty db Courses
    then exec_sql db (InsertCourses seed_courses) else (true, db) in
  if negb ok then (false, db) else
  let (ok, db) :=
    if table_empty db Grades
    then exec_sql db (InsertGrades seed_grades) else (true, db) in
  if negb ok then (false, db) else
  (true, db).

(** [db_load_all]: clear the vectors, then one SELECT per table whose rows
    are pushed back in the order the engine yields them. *)
Definition db_load_all (db : Database) (store : DataStore) : bool * DataStore :=
  let store := mkDataStore [] [] [] in
  if negb (rc_eqb (sqlite3_prepare_v2 db (SelectAllFrom Students)) SQLITE_OK)
  then (false, store) else
  let store :=
    with_students store
      (fold_left push_back (students db) (all_students store)) in
  if negb (rc_eqb (sqlite3_prepare_v2 db (SelectAllFrom Courses)) SQLITE_OK)
  then (false, store) else
  let store :=
    with_courses store
      (fold_left push_back (courses db) (all_courses store)) in
  if negb (rc_eqb (sqlite3_prepare_v2 db (SelectAllFrom Grades)) SQLITE_OK)
  then (false, store) else
  let store :=
    with_grades store
      (fold_left push_back (grades db) (all_grades store)) in
  (true, store).

(** The shape shared by the INSERT helpers:
    prepare (false on failure), bind, step, [return rc == SQLITE_DONE]. *)
Definition run_insert (db : Database) (st : Stmt) : bool * Database :=
  match sqlite3_prepare_v2 db st with
  | SQLITE_OK =>
      let '(code, _, db') := sqlite3_step db st in
      (rc_eqb code SQLITE_DONE, db')
  | _ => (false, db)
  end.

(** The shape shared by the UPDATE and DELETE helpers:
    [ok = (rc == SQLITE_DONE && sqlite3_changes(db) > 0)]. *)
Definition run_change (db : Database) (st : Stmt) : bool * Database :=
  match sqlite3_prepare_v2 db st with
  | SQLITE_OK =>
      let '(code, changes, db') := sqlite3_step db st in
      (rc_eqb code SQLITE_DONE && Nat.ltb 0 changes, db')
  | _ => (false, db)
  end.

(** The row that the four [sqlite3_bind_text] calls of [db_add_student]
    make of a student: each text is bound as [x.c_str()] with the length -1,
    and so ends before its first NUL byte.  The key is bound as it is: a key
    that [main] passes holds no NUL byte (see [Sqlite]). *)
Definition bound_student (s : Student.t) : Student.t :=
  Student.mk (Student.roll_no s) (bind_text (Student.name s))
    (bind_text (Student.address s)) (bind_text (Student.contact s)).

(** The same for [db_add_course]. *)
Definition bound_course (c : Course.t) : Course.t :=
  Course.mk (Course.code c) (bind_text (Course.title c))
    (bind_text (Course.description c)) (bind_text (Course.teacher c)).

Definition db_add_student (db : Database) (s : Student.t) : bool * Database :=
  run_insert db (InsertStudents [bound_student s]).

Definition db_add_course (db : Database) (c : Course.t) : bool * Database :=
  run_insert db (InsertCourses [bound_course c]).

Definition db_enroll (db : Database) (roll_no course_code : string)
  : bool * Database :=
  run_insert db (InsertGrades [Grade.mk roll_no course_code 0%float 0%float]).

(** The two marks are bound with [sqlite3_bind_double]; what the REAL
    columns keep of them is in [sqlite3_step]. *)
Definition db_enter_marks (db : Database) (roll_no course_code : string)
    (internal_mark final_mark : float) : bool * Database :=
  run_change db (UpdateMarks internal_mark final_mark roll_no course_code).

(** The texts of the two UPDATE helpers are bound in the same way. *)
Definition db_update_student (db : Database) (s : Student.t) : bool * Database :=
  run_change db
    (UpdateStudent (bind_text (Student.name s)) (bind_text (Student.address s))
       (bind_text (Student.contact s)) (Student.roll_no s)).

Definition db_update_course (db : Database) (c : Course.t) : bool * Database :=
  run_change db
    (UpdateCourse (bind_text (Course.title c)) (bind_text (Course.description c))
       (bind_text (Course.teacher c)) (Course.code c)).

Definition db_delete_student (db : Database) (roll : string) : bool * Database :=
  run_change db (DeleteStudent roll).

Definition db_delete_course (db : Database) (code : string) : bool * Database :=
  run_change db (DeleteCourse code).

Definition db_delete_enrollment (db : Database) (roll code : string)
  : bool * Database :=
  run_change db (DeleteGrade roll code).

(* ================================================================== *)
(** ** PSPSchool-StudentMS.cpp: the branches of the menu loop

    Each branch [choice == k] of [main] that writes is embedded as a function
    of the values the prompts deliver (the prompts themselves, with their
    Back and Exit answers, are left out).  The state of [main] is the database
    handle [db] and the cache [data]; the embedding adds [calls], the trace of
    the calls the branch makes to [db.cpp] and to the cache helpers, each with
    the boolean it returned. *)

Inductive Side : Type := Store | Mirror.

Inductive Op : Type :=
| OpAddStudent | OpAddCourse | OpEnroll | OpEnterMarks
| OpUpdateStudent | OpUpdateCourse
| OpDeleteStudent | OpDeleteCourse | OpDeleteEnrollment.

Record Call : Type := mkCall
  { call_side : Side;
    call_op : Op;
    call_returned : bool }.

Record World : Type := mkWorld
  { db : Database;
    data : DataStore;
    calls : list Call }.

(** Computations of [main]: state passing over [World]. *)
Definition M (A : Type) : Type := World -> A * World.

Definition ret {A : Type} (x : A) : M A := fun w => (x, w).

Definition bind {A B : Type} (m : M A) (k : A -> M B) : M B :=
  fun w => let (x, w') := m w in k x w'.

Notation "x <- m ;; k" := (bind m (fun x => k))
  (at level 61, m at next level, right associativity).

Definition get_data : M DataStore := fun w => (data w, w).

(** A call [db_xxx(db, ...)]. *)
Definition call_db (o : Op) (f : Database -> bool * Database) : M bool :=
  fun w =>
    let (ok, db') := f (db w) in
    (ok, mkWorld db' (data w) (calls w ++ [mkCall Store o ok])).

(** A call [xxx(data, ...)] of a cache helper. *)
Definition call_data (o : Op) (f : DataStore -> bool * DataStore) : M bool :=
  fun w =>
    let (ok, data') := f (data w) in
    (ok, mkWorld (db w) data' (calls w ++ [mkCall Mirror o ok])).

(** The C++ [a && b]: [b] is evaluated only when [a] is true. *)
Definition and_also (a b : M bool) : M bool :=
  ok <- a ;; if ok then b else ret false.

(** What [prompt_edit_string] leaves in [out]: the current value on an
    empty answer, the validated new value otherwise. *)
Definition edited (current : string) (answer : option string) : string :=
  match answer with
  | None => current
  | Some v => v
  end.

(** [choice == 1]: add student. *)
Definition choice_1 (s : Student.t) : M string :=
  d <- get_data ;;
  if exists_student d (Student.roll_no s) then ret "That roll is already used."
  else
    ok <- and_also (call_db OpAddStudent (fun db => db_add_student db s))
                   (call_data OpAddStudent (fun data => add_student data s)) ;;
    ret (if ok then "Student added (saved to DB)."
         else "Could not add student (duplicate or DB error).").

(** [choice == 3]: add course. *)
Definition choice_3 (c : Course.t) : M string :=
  d <- get_data ;;
  if exists_course d (Course.code c) then ret "Course code already exists."
  else
    ok <- and_also (call_db OpAddCourse (fun db => db_add_course db c))
                   (call_data OpAddCourse (fun data => add_course data c)) ;;
    ret (if ok then "Course added (saved to DB)."
         else "Could not add course (duplicate or DB error).").

(** [choice == 5]: enroll student in course. *)
Definition choice_5 (r code : string) : M string :=
  d <- get_data ;;
  if negb (exists_student d r) then ret "Student does not exist." else
  if negb (exists_course d code) then ret "Course does not exist." else
  if already_enrolled d r code then ret "Already enrolled." else
    ok <- and_also (call_db OpEnroll (fun db => db_enroll db r code))
                   (call_data OpEnroll (fun data => enroll_student data r code)) ;;
    ret (if ok then "Enrollment success (saved to DB)." else "Failed to enroll.").

(** The condition of the [if] that ends [choice == 6]:
    [db_enter_marks(db, r, code, im, fm) && enter_marks(data, r, code, im, fm)]. *)
Definition save_marks (r code : string) (im fm : float) : M bool :=
  and_also (call_db OpEnterMarks (fun db => db_enter_marks db r code im fm))
           (call_data OpEnterMarks (fun data => enter_marks data r code im fm)).

(** [choice == 6]: enter marks; [im] and [fm] are what the two
    [prompt_number_or_back] calls deliver. *)
Definition choice_6 (r code : string) (im fm : float) : M string :=
  d <- get_data ;;
  if negb (already_enrolled d r code) then ret "Not enrolled in that course."
  else
    ok <- save_marks r code im fm ;;
    ret (if ok then "Marks saved (persisted to DB)." else "Failed to save marks.").

(** [choice == 7]: student report, from the cache alone. *)
Definition choice_7 (r : string) : M ReportOutput :=
  d <- get_data ;; ret (student_report d r).

(** [choice == 8]: edit student. *)
Definition choice_8 (roll : string) (name address contact : option string)
  : M string :=
  d <- get_data ;;
  match find (student_is roll) (all_students d) with
  | None => ret "Student not found."
  | Some cur =>
      let upd :=
        Student.mk (Student.roll_no cur)
          (edited (Student.name cur) name)
          (edited (Student.address cur) address)
          (edited (Student.contact cur) contact) in
      ok <- and_also (call_db OpUpdateStudent (fun db => db_update_student db upd))
                     (call_data OpUpdateStudent (fun data => apply_student_update data upd)) ;;
      ret (if ok then "Student updated (saved to DB)."
           else "Update failed (DB error or not found).")
  end.

(** [choice == 9]: edit course. *)
Definition choice_9 (code : string) (title description teacher : option string)
  : M string :=
  d <- get_data ;;
  match find (course_is code) (all_courses d) with
  | None => ret "Course not found."
  | Some cur =>
      let upd :=
        Course.mk (Course.code cur)
          (edited (Course.title cur) title)
          (edited (Course.description cur) description)
          (edited (Course.teacher cur) teacher) in
      ok <- and_also (call_db OpUpdateCourse (fun db => db_update_course db upd))
                     (call_data OpUpdateCourse (fun data => apply_course_update data upd)) ;;
      ret (if ok then "Course updated (saved to DB)."
           else "Update failed (DB error or not found).")
  end.

(** [choice == 10]: delete student (after the confirmation). *)
Definition choice_10 (roll : string) : M string :=
  d <- get_data ;;
  if negb (exists_student d roll) then ret "Student not found."
  else
    ok <- and_also (call_db OpDeleteStudent (fun db => db_delete_student db roll))
                   (call_data OpDeleteStudent (fun data => remove_student data roll)) ;;
    ret (if ok then "Student deleted (DB + local grades removed)."
         else "Delete failed (DB error or not found).").

(** [choice == 11]: delete course (after the confirmation). *)
Definition choice_11 (code : string) : M string :=
  d <- get_data ;;
  if negb (exists_course d code) then ret "Course not found."
  else
    ok <- and_also (call_db OpDeleteCourse (fun db => db_delete_course db code))
                   (call_data OpDeleteCourse (fun data => remove_course data code)) ;;
    ret (if ok then "Course deleted (DB + local grades removed)."
         else "Delete failed (DB error or not found).").

(** [choice == 12]: delete enrollment (after the confirmation). *)
Definition choice_12 (r code : string) : M string :=
  d <- get_data ;;
  if negb (already_enrolled d r code) then ret "Not enrolled in that course."
  else
    ok <- and_also (call_db OpDeleteEnrollment (fun db => db_delete_enrollment db r code))
                   (call_data OpDeleteEnrollment (fun data => remove_enrollment data r code)) ;;
    ret (if ok then "Enrollment deleted (DB)."
         else "Delete failed (DB error or not found).").

(** The nine writing menu entries with the values their prompts deliver. *)
Inductive Action : Type :=
| AddStudent (s : Student.t)
| AddCourse (c : Course.t)
| Enroll (r code : string)
| EnterMarks (r code : string) (im fm : float)
| EditStudent (roll : string) (name address contact : option string)
| EditCourse (code : string) (title description teacher : option string)
| RemoveStudent (roll : string)
| RemoveCourse (code : string)
| RemoveEnrollment (r code : string).

(** The dispatch on [choice]. *)
Definition run (a : Action) : M string :=
  match a with
  | AddStudent s => choice_1 s
  | AddCourse c => choice_3 c
  | Enroll r code => choice_5 r code
  | EnterMarks r code im fm => choice_6 r code im fm
  | EditStudent roll n a c => choice_8 roll n a c
  | EditCourse code t d te => choice_9 code t d te
  | RemoveStudent roll => choice_10 roll
  | RemoveCourse code => choice_11 code
  | RemoveEnrollment r code => choice_12 r code
  end.

Definition op_of (a : Action) : Op :=
  match a with
  | AddStudent _ => OpAddStudent
  | AddCourse _ => OpAddCourse
  | Enroll _ _ => OpEnroll
  | EnterMarks _ _ _ _ => OpEnterMarks
  | EditStudent _ _ _ _ => OpUpdateStudent
  | EditCourse _ _ _ _ => OpUpdateCourse
  | RemoveStudent _ => OpDeleteStudent
  | RemoveCourse _ => OpDeleteCourse
  | RemoveEnrollment _ _ => OpDeleteEnrollment
  end.

(* ================================================================== *)
(** ** db.cpp, continued: the counts, and the start of [main] *)

(** [struct DbCounts]. *)
Record DbCounts : Type := mkDbCounts
  { count_students : Z;
    count_courses : Z;
    count_enrolments : Z }.

(** [db_get_counts]: one SELECT with three scalar COUNT subqueries.  The
    statement cannot be prepared when the tables are missing; otherwise its
    single row holds the three row counts, which are written to [out]. *)
Definition db_get_counts (db : Database) (out : DbCounts) : bool * DbCounts :=
  if negb (has_tables db) then (false, out)
  else
    (true,
     mkDbCounts (Z.of_nat (List.length (students db)))
       (Z.of_nat (List.length (courses db)))
       (Z.of_nat (List.length (grades db)))).

(** The start of [main], from the content of the file [school.db] ([db_open]
    creates the file when it is missing: the content is then empty and
    without tables): [db_init_and_seed], on whose failure [main] returns 1
    (no state, [None] here), then [db_load_all] into the fresh [data], its
    result being ignored. *)
Definition startup (file : Database) : option World :=
  let (ok, db) := db_init_and_seed file in
  if negb ok then None
  else
    let (_, data) := db_load_all db (mkDataStore [] [] []) in
    Some (mkWorld db data []).

(* ------------------------------------------------------------------ *)
(** ** The fragments of <cctype> and <regex> that validation.hpp uses

    The characters of a [std::string] are a [list ascii]
    ([list_ascii_of_string]); all input is plain ASCII, as the header of
    [validation.hpp] requires. *)

(** [std::isspace] in the "C" locale: space, and \t \n \v \f \r. *)
Definition isspace (c : ascii) : bool :=
  Ascii.eqb c " " || ((("009" <=? c) && (c <=? "013"))%char).

(** A range [lo-hi] of a bracket expression. *)
Definition char_in (lo hi c : ascii) : bool :=
  ((lo <=? c) && (c <=? hi))%char.

(** The regular expressions that the validators are built from. *)
Inductive regex : Type :=
| Never                                   (* matches no string *)
| Empty                                   (* the empty string *)
| Chars (p : ascii -> bool)               (* one character of a class *)
| Seq (r s : regex)                       (* r followed by s *)
| Alt (r s : regex)                       (* r|s *)
| Star (r : regex).                       (* r* *)

(** Whether [r] matches the empty string. *)
Fixpoint nullable (r : regex) : bool :=
  match r with
  | Never => false
  | Empty => true
  | Chars _ => false
  | Seq r s => nullable r && nullable s
  | Alt r s => nullable r || nullable s
  | Star _ => true
  end.

(** What is left of [r] to match once the character [c] has been read. *)
Fixpoint deriv (c : ascii) (r : regex) : regex :=
  match r with
  | Never => Never
  | Empty => Never
  | Chars p => if p c then Empty else Never
  | Seq r s =>
      if nullable r then Alt (Seq (deriv c r) s) (deriv c s)
      else Seq (deriv c r) s
  | Alt r s => Alt (deriv c r) (deriv c s)
  | Star r => Seq (deriv c r) (Star r)
  end.

Fixpoint matches (r : regex) (x : list ascii) : bool :=
  match x with
  | [] => nullable r
  | c :: rest => matches (deriv c r) rest
  end.

(** [std::regex_match(x, re)]: the whole of [x] matches [re]. *)
Definition regex_match (x : string) (re : regex) : bool :=
  matches re (list_ascii_of_string x).

(** The operators of the patterns. *)
Definition chr (a : ascii) : regex := Chars (Ascii.eqb a).        (* a *)
Definition opt (r : regex) : regex := Alt Empty r.                (* r? *)
Definition plus (r : regex) : regex := Seq r (Star r).            (* r+ *)

Fixpoint times (n : nat) (r : regex) : regex :=                   (* r{n} *)
  match n with
  | O => Empty
  | S n' => Seq r (times n' r)
  end.

Definition between (m n : nat) (r : regex) : regex :=             (* r{m,n} *)
  Seq (times m r) (times (n - m) (opt r)).

(** [^r$]: under [regex_match] the two assertions hold at the two ends of
    the string, which is where they stand in every pattern below. *)
Definition anchored (r : regex) : regex := Seq Empty (Seq r Empty).

(** The classes of the patterns. *)
Definition is_digit : ascii -> bool := char_in "0" "9".           (* \d, [0-9] *)
Definition is_upper : ascii -> bool := char_in "A" "Z".           (* [A-Z] *)
Definition is_lower : ascii -> bool := char_in "a" "z".           (* [a-z] *)

(** [[A-Za-z '\-]] *)
Definition name_char (c : ascii) : bool :=
  is_upper c || is_lower c || Ascii.eqb c " " || Ascii.eqb c "'"
  || Ascii.eqb c "-".

(** [[- ]] *)
Definition separator (c : ascii) : bool := Ascii.eqb c "-" || Ascii.eqb c " ".

(* ------------------------------------------------------------------ *)
(** ** validation.hpp: [trim] and the validators *)

(** [std::find_if_not(first, last, ws)] and the erasure of what precedes
    it. *)
Fixpoint skip_space (s : list ascii) : list ascii :=
  match s with
  | [] => []
  | c :: rest => if isspace c then skip_space rest else s
  end.

(** [trim]: the leading white space is erased, then the trailing one (found
    from [rbegin()]). *)
Definition trim (s : string) : string :=
  string_of_list_ascii
    (rev (skip_space (rev (skip_space (list_ascii_of_string s))))).

(** ["^S\\d{3,6}$"] *)
Definition roll_re : regex := anchored (Seq (chr "S") (between 3 6 (Chars is_digit))).

Definition is_valid_roll (x : string) : bool := regex_match x roll_re.

(** ["^[A-Za-z '\\-]+$"] *)
Definition name_re : regex := anchored (plus (Chars name_char)).

Definition is_valid_name (x : string) : bool :=
  if ((String.length x <? 2) || (40 <? String.length x))%nat then false
  else regex_match x name_re.

(** [[- ]?\d{3}[- ]?\d{3,4}], the end of both alternatives of the phone
    pattern. *)
Definition subscriber : regex :=
  Seq (opt (Chars separator))
    (Seq (times 3 (Chars is_digit))
       (Seq (opt (Chars separator)) (between 3 4 (Chars is_digit)))).

(** ["^0(2[0-9]|[3-9][0-9])[- ]?\\d{3}[- ]?\\d{3,4}$"] *)
Definition phone_first : regex :=
  anchored
    (Seq (chr "0")
       (Seq (Alt (Seq (chr "2") (Chars (char_in "0" "9")))
                 (Seq (Chars (char_in "3" "9")) (Chars (char_in "0" "9"))))
          subscriber)).

(** ["^021[- ]?\\d{3}[- ]?\\d{3,4}$"] *)
Definition phone_second : regex :=
  anchored (Seq (chr "0") (Seq (chr "2") (Seq (chr "1") subscriber))).

Definition phone_re : regex := Alt phone_first phone_second.

Definition is_valid_phone (x : string) : bool := regex_match x phone_re.

(** ["^[A-Z]{3}\\d{3}$"] *)
Definition course_code_re : regex :=
  anchored (Seq (times 3 (Chars is_upper)) (times 3 (Chars is_digit))).

Definition is_valid_course_code (x : string) : bool :=
  regex_match x course_code_re.

Definition is_non_empty_short (x : string) : bool :=
  negb (trim x =? "") && (String.length x <=? 60)%nat.

(* ------------------------------------------------------------------ *)
(** ** The fragment of <iostream> that the prompts use

    [std::cin] is the list of the characters that are still to be read; what
    is written to [std::cout] is left out.  A read at the end of the input
    fails, and so does every read after it: the loops below, which clear the
    error and read again, then never end. *)
Definition Stream : Type := list ascii.

(** [std::getline(in, v)]: the characters up to the next newline, which is
    read and dropped. *)
Fixpoint getline (cin : Stream) : string * Stream :=
  match cin with
  | [] => ("", [])
  | c :: rest =>
      if Ascii.eqb c "010" then ("", rest)
      else let (v, rest') := getline rest in (String c v, rest')
  end.

(** [std::getline(std::cin >> std::ws, v)]: white space, newlines among it,
    is skipped first; the read fails when nothing follows it. *)
Definition getline_ws (cin : Stream) : option (string * Stream) :=
  match skip_space cin with
  | [] => None
  | c :: rest => Some (getline (c :: rest))
  end.

(** [std::cin.clear(); std::cin.ignore(max, '\n')]: the rest of the line is
    dropped. *)
Definition clear_input (cin : Stream) : Stream := snd (getline cin).

(* ------------------------------------------------------------------ *)
(** ** validation.hpp: the prompts *)

(** The loop that the prompts share:
    [for (;;) { if (!getline(cin >> ws, v)) { ...; continue; } v = trim(v); ... }]
    where [body] is the rest of the loop: the value that is returned, or
    [None] when the end of the body is reached and the loop goes round.  The
    result is [None] when the loop does not return: the end of the input was
    reached. *)
Fixpoint prompt_loop {R : Type} (body : string -> option R) (fuel : nat)
    (cin : Stream) : option (R * Stream) :=
  match fuel with
  | O => None
  | S fuel' =>
      match getline_ws cin with
      | None => None
      | Some (v, rest) =>
          match body (trim v) with
          | Some r => Some (r, rest)
          | None => prompt_loop body fuel' rest
          end
      end
  end.

(** Every round reads at least one character, so that the loop needs no more
    rounds than there are characters. *)
Definition prompting {R : Type} (body : string -> option R) (cin : Stream)
  : option (R * Stream) :=
  prompt_loop body (S (List.length cin)) cin.

Definition prompt_until_valid (validator : string -> bool) (cin : Stream)
  : option (string * Stream) :=
  prompting (fun v => if validator v then Some v else None) cin.

Inductive InputCtl : Type := Ok | Back | Exit.

(** [v == "0" || v == "b" || v == "B"] *)
Definition is_back (v : string) : bool :=
  (v =? "0") || (v =? "b") || (v =? "B").

(** [v == "x" || v == "X" || v == "q" || v == "Q"] *)
Definition is_exit (v : string) : bool :=
  (v =? "x") || (v =? "X") || (v =? "q") || (v =? "Q").

(** A prompt with an argument [out] by reference returns its result and the
    value of [out]. *)
Definition prompt_until_valid_or_back (out : string)
    (validator : string -> bool) (cin : Stream)
  : option (InputCtl * string * Stream) :=
  prompting
    (fun v =>
       if is_back v then Some (Back, out)
       else if is_exit v then Some (Exit, out)
       else if validator v then Some (Ok, v)
       else None)
    cin.

(** [std::stod] is an argument of the embedding: [None] when it throws. *)
Definition prompt_number_or_back (stod : string -> option float)
    (out lo hi : float) (cin : Stream)
  : option (InputCtl * float * Stream) :=
  prompting
    (fun v =>
       if is_back v then Some (Back, out)
       else if is_exit v then Some (Exit, out)
       else
         match stod v with
         | Some d => if (d <? lo)%float || (hi <? d)%float then None
                     else Some (Ok, d)
         | None => None
         end)
    cin.

Definition prompt_edit_string (current out : string)
    (validator : string -> bool) (cin : Stream)
  : option (InputCtl * string * Stream) :=
  prompting
    (fun v =>
       if v =? "" then Some (Ok, current)
       else if is_back v then Some (Back, out)
       else if is_exit v then Some (Exit, out)
       else if validator v then Some (Ok, v)
       else None)
    cin.

Definition confirm_or_back (cin : Stream) : option (InputCtl * Stream) :=
  prompting
    (fun v =>
       if (v =? "") || (v =? "n") || (v =? "N") then Some Back
       else if is_back v then Some Back
       else if is_exit v then Some Exit
       else if (v =? "y") || (v =? "Y") then Some Ok
       else None)
    cin.

(* ------------------------------------------------------------------ *)
(** ** PSPSchool-StudentMS.cpp: the menu loop, from the keyboard

    A branch of the loop reads from [std::cin] and acts on the state.  It
    ends in [continue] or at its end ([Again]), or in
    [choice = 0; break] ([Leave]); it is [None] when one of its prompts does
    not return. *)
Inductive Flow : Type := Again | Leave.

Definition Branch : Type := Stream -> World -> option (Flow * Stream * World).

(** [auto r = prompt(...); if (r == Back) continue;
     if (r == Exit) { choice = 0; break; }] and what follows. *)
Definition ask {A : Type} (prompt : Stream -> option (InputCtl * A * Stream))
    (then_ : A -> Branch) : Branch :=
  fun cin w =>
    match prompt cin with
    | None => None
    | Some (Back, _, rest) => Some (Again, rest, w)
    | Some (Exit, _, rest) => Some (Leave, rest, w)
    | Some (Ok, a, rest) => then_ a rest w
    end.

(** The same for [confirm_or_back]. *)
Definition confirm (then_ : Branch) : Branch :=
  fun cin w =>
    match confirm_or_back cin with
    | None => None
    | Some (Back, rest) => Some (Again, rest, w)
    | Some (Exit, rest) => Some (Leave, rest, w)
    | Some (Ok, rest) => then_ rest w
    end.

(** [if (cond(data)) { std::cout << ...; continue; }] and what follows. *)
Definition unless (cond : DataStore -> bool) (then_ : Branch) : Branch :=
  fun cin w => if cond (data w) then Some (Again, cin, w) else then_ cin w.

(** The end of a branch: [if (db_xxx(db, ...) && xxx(data, ...)) ... else ...],
    of which only the messages differ. *)
Definition store_then_cache (o : Op) (store : Database -> bool * Database)
    (cache : DataStore -> bool * DataStore) : Branch :=
  fun cin w => Some (Again, cin, snd (and_also (call_db o store) (call_data o cache) w)).

(** A branch that only prints. *)
Definition prints : Branch := fun cin w => Some (Again, cin, w).

Definition branch_1 : Branch :=
  ask (prompt_until_valid_or_back "" is_valid_roll) (fun roll_no =>
  unless (fun data => exists_student data roll_no) (
  ask (prompt_until_valid_or_back "" is_valid_name) (fun name =>
  ask (prompt_until_valid_or_back "" is_non_empty_short) (fun address =>
  ask (prompt_until_valid_or_back "" is_valid_phone) (fun contact =>
  let s := Student.mk roll_no name address contact in
  store_then_cache OpAddStudent
    (fun db => db_add_student db s) (fun data => add_student data s)))))).

Definition branch_3 : Branch :=
  ask (prompt_until_valid_or_back "" is_valid_course_code) (fun code =>
  unless (fun data => exists_course data code) (
  ask (prompt_until_valid_or_back "" is_non_empty_short) (fun title =>
  ask (prompt_until_valid_or_back "" is_non_empty_short) (fun description =>
  ask (prompt_until_valid_or_back "" is_valid_name) (fun teacher =>
  let c := Course.mk code title description teacher in
  store_then_cache OpAddCourse
    (fun db => db_add_course db c) (fun data => add_course data c)))))).

Definition branch_5 : Branch :=
  ask (prompt_until_valid_or_back "" is_valid_roll) (fun r =>
  ask (prompt_until_valid_or_back "" is_valid_course_code) (fun code =>
  unless (fun data => negb (exists_student data r)) (
  unless (fun data => negb (exists_course data code)) (
  unless (fun data => already_enrolled data r code) (
  store_then_cache OpEnroll
    (fun db => db_enroll db r code)
    (fun data => enroll_student data r code)))))).

Definition branch_6 (stod : string -> option float) : Branch :=
  ask (prompt_until_valid_or_back "" is_valid_roll) (fun r =>
  ask (prompt_until_valid_or_back "" is_valid_course_code) (fun code =>
  unless (fun data => negb (already_enrolled data r code)) (
  ask (prompt_number_or_back stod 0 0 100) (fun im =>
  ask (prompt_number_or_back stod 0 0 100) (fun fm =>
  store_then_cache OpEnterMarks
    (fun db => db_enter_marks db r code im fm)
    (fun data => enter_marks data r code im fm)))))).

(** [std::getline(std::cin, r); student_report(data, r);] *)
Definition branch_7 : Branch :=
  fun cin w =>
    let (r, rest) := getline cin in
    Some (Again, rest, snd (choice_7 r w)).

Definition branch_8 : Branch :=
  ask (prompt_until_valid_or_back "" is_valid_roll) (fun roll =>
  fun cin w =>
    match find (student_is roll) (all_students (data w)) with
    | None => Some (Again, cin, w)
    | Some cur =>
        (ask (prompt_edit_string (Student.name cur) (Student.name cur)
                is_valid_name) (fun name =>
         ask (prompt_edit_string (Student.address cur) (Student.address cur)
                is_non_empty_short) (fun address =>
         ask (prompt_edit_string (Student.contact cur) (Student.contact cur)
                is_valid_phone) (fun contact =>
         let upd := Student.mk (Student.roll_no cur) name address contact in
         store_then_cache OpUpdateStudent
           (fun db => db_update_student db upd)
           (fun data => apply_student_update data upd))))) cin w
    end).

Definition branch_9 : Branch :=
  ask (prompt_until_valid_or_back "" is_valid_course_code) (fun code =>
  fun cin w =>
    match find (course_is code) (all_courses (data w)) with
    | None => Some (Again, cin, w)
    | Some cur =>
        (ask (prompt_edit_string (Course.title cur) (Course.title cur)
                is_non_empty_short) (fun title =>
         ask (prompt_edit_string (Course.description cur)
                (Course.description cur) is_non_empty_short) (fun description =>
         ask (prompt_edit_string (Course.teacher cur) (Course.teacher cur)
                is_valid_name) (fun teacher =>
         let upd := Course.mk (Course.code cur) title description teacher in
         store_then_cache OpUpdateCourse
           (fun db => db_update_course db upd)
           (fun data => apply_course_update data upd))))) cin w
    end).

Definition branch_10 : Branch :=
  ask (prompt_until_valid_or_back "" is_valid_roll) (fun roll =>
  unless (fun data => negb (exists_student data roll)) (
  confirm (
  store_then_cache OpDeleteStudent
    (fun db => db_delete_student db roll)
    (fun data => remove_student data roll)))).

Definition branch_11 : Branch :=
  ask (prompt_until_valid_or_back "" is_valid_course_code) (fun code =>
  unless (fun data => negb (exists_course data code)) (
  confirm (
  store_then_cache OpDeleteCourse
    (fun db => db_delete_course db code)
    (fun data => remove_course data code)))).

Definition branch_12 : Branch :=
  ask (prompt_until_valid_or_back "" is_valid_roll) (fun r =>
  ask (prompt_until_valid_or_back "" is_valid_course_code) (fun code =>
  unless (fun data => negb (already_enrolled data r code)) (
  confirm (
  store_then_cache OpDeleteEnrollment
    (fun db => db_delete_enrollment db r code)
    (fun data => remove_enrollment data r code))))).

(** The chain [if (choice == 1) ... else if (choice == 2) ...]; choices
    2, 4 and 13 print tables, any other number but 0 prints
    "Unknown option.", 0 does nothing. *)
Definition dispatch (stod : string -> option float) (choice : Z) : Branch :=
  if (choice =? 1)%Z then branch_1
  else if (choice =? 2)%Z then prints
  else if (choice =? 3)%Z then branch_3
  else if (choice =? 4)%Z then prints
  else if (choice =? 5)%Z then branch_5
  else if (choice =? 6)%Z then branch_6 stod
  else if (choice =? 7)%Z then branch_7
  else if (choice =? 8)%Z then branch_8
  else if (choice =? 9)%Z then branch_9
  else if (choice =? 10)%Z then branch_10
  else if (choice =? 11)%Z then branch_11
  else if (choice =? 12)%Z then branch_12
  else prints.

(** The digits at the head of the input, and what follows them. *)
Fixpoint span_digits (cin : Stream) : list ascii * Stream :=
  match cin with
  | [] => ([], [])
  | c :: rest =>
      if is_digit c then let (ds, rest') := span_digits rest in (c :: ds, rest')
      else ([], cin)
  end.

Definition digit_value (c : ascii) : Z := Z.of_nat (nat_of_ascii c) - 48.

Definition decimal (ds : list ascii) : Z :=
  fold_left (fun n c => 10 * n + digit_value c)%Z ds 0%Z.

Definition INT_MAX : Z := 2147483647.
Definition INT_MIN : Z := -2147483648.

(** [std::cin >> choice] for [int choice], as [std::num_get] does it since
    C++11: white space is skipped; at the end of the input nothing is stored
    (the result is [None]); otherwise a sign and digits are read, and the
    read fails with 0 stored when there is no digit, and with the nearest
    bound stored when the number does not fit an [int].  The result is
    whether the read succeeded, the value stored, and the input left. *)
Definition extract_int (cin : Stream) : option (bool * Z * Stream) :=
  match skip_space cin with
  | [] => None
  | c :: rest =>
      let negative := Ascii.eqb c "-" in
      let after_sign :=
        if Ascii.eqb c "-" || Ascii.eqb c "+" then rest else c :: rest in
      let (ds, left) := span_digits after_sign in
      match ds with
      | [] => Some (false, 0%Z, left)
      | _ :: _ =>
          let n := if negative then (- decimal ds)%Z else decimal ds in
          if (n <? INT_MIN)%Z then Some (false, INT_MIN, left)
          else if (INT_MAX <? n)%Z then Some (false, INT_MAX, left)
          else Some (true, n, left)
      end
  end.

(** How the loop goes: it ends, or it comes to the end of the input, where
    every read fails and the loop, or the loop of a prompt, goes round for
    ever; in both cases with the state that was reached. *)
Inductive Run : Type :=
| Ended (w : World)
| Starved (w : World).

(** [while (choice != 0) { if (!(std::cin >> choice)) { clear_input();
    continue; } clear_input(); ... }].  At the end of the input the read
    fails and leaves [choice], which is not 0, as it was.  A branch that
    comes to the end of the input is within a prompt and has written
    nothing.  [None] is a loop that was given too few turns. *)
Fixpoint menu_loop (stod : string -> option float) (fuel : nat) (choice : Z)
    (cin : Stream) (w : World) : option Run :=
  if (choice =? 0)%Z then Some (Ended w)
  else
    match fuel with
    | O => None
    | S fuel' =>
        match extract_int cin with
        | None => Some (Starved w)
        | Some (false, n, rest) => menu_loop stod fuel' n (clear_input rest) w
        | Some (true, n, rest) =>
            match dispatch stod n (clear_input rest) w with
            | None => Some (Starved w)
            | Some (Again, rest', w') => menu_loop stod fuel' n rest' w'
            | Some (Leave, rest', w') => Some (Ended w')
            end
        end
    end.

(** What [main] comes to: it returns an exit code, or it hangs at the end
    of the input; in both cases with the database file that it has
    written. *)
Inductive Outcome : Type :=
| Returned (code : Z) (file : Database)
| Hanging (file : Database).

(** [main].  Every turn of the loop reads at least one character, so that
    one turn more than there are characters is enough. *)
Definition main (stod : string -> option float) (file : Database)
    (cin : Stream) : option Outcome :=
  match startup file with
  | None => Some (Returned 1 (snd (db_init_and_seed file)))
  | Some w =>
      match menu_loop stod (S (List.length cin)) (-1) cin w with
      | None => None
      | Some (Ended w') => Some (Returned 0 (db w'))
      | Some (Starved w') => Some (Hanging (db w'))
      end
  end.

(* ================================================================== *)
(** ** Vocabulary of the properties *)

(** Concrete states used as inputs: the empty cache, and the cache and the
    database right after the first start of the program. *)
Definition empty_store : DataStore := mkDataStore [] [] [].
Definition seeded_store : DataStore :=
  mkDataStore seed_students seed_courses seed_grades.
Definition empty_db : Database := mkDatabase false [] [] [].
Definition seeded_db : Database :=
  mkDatabase true seed_students seed_courses seed_grades.
Definition seeded_world : World := mkWorld seeded_db seeded_store [].

(** A mark within [0, 100]. *)
Definition mark_in_range (m : float) : bool :=
  ((0 <=? m) && (m <=? 100))%float.

Definition grade_in_range (g : Grade.t) : bool :=
  mark_in_range (Grade.internal_mark g) && mark_in_range (Grade.final_mark g).

(** No persisted enrollment has a mark outside [0, 100]. *)
Definition persisted_marks_in_range (db : Database) : bool :=
  forallb grade_in_range (grades db).


(** Closeness within the tolerance 1e-9, computed in doubles. *)
Definition close_to (x y : float) : bool :=
  (abs (x - y) <=? 1e-9)%float.

(** The value of a finite double as a rational number. *)
Definition exact_value (x : float) : option Q :=
  match Prim2SF x with
  | S754_zero _ => Some (0 # 1)%Q
  | S754_finite s m e =>
      Some (Qmult (inject_Z (if s then Z.neg m else Z.pos m)) (Qpower (2 # 1)%Q e))
  | _ => None
  end.

(** Closeness within the tolerance 1e-9 of a double to a rational number,
    decided in exact arithmetic. *)
Definition within_tolerance (x : float) (q : Q) : bool :=
  match exact_value x with
  | Some v => Qle_bool (Qabs (Qminus v q)) (1 # 1000000000)%Q
  | None => false
  end.

(** The weighted score [0.3 * i + 0.7 * f] over the rationals, for whole
    marks [i] and [f]. *)
Definition exact_weighted (i f : Z) : Q :=
  Qplus (Qmult (3 # 10)%Q (inject_Z i)) (Qmult (7 # 10)%Q (inject_Z f)).

(** The whole marks 0, 1, ..., 100. *)
Definition whole_marks : list Z := map Z.of_nat (seq 0 101).

Definition grade_with_marks (i f : Z) : Grade.t :=
  Grade.mk "S001" "MTH101" (double_of_int i) (double_of_int f).


(** The enrollments whose roll_no matches, in the order of the cache. *)
Definition enrollments_of (d : DataStore) (roll : string) : list Grade.t :=
  filter (grade_of_student roll) (all_grades d).

(** The sum of the weighted scores, added up from 0.0 in list order. *)
Definition sum_weighted (gs : list Grade.t) : float :=
  fold_left (fun total g => (total + Grade.weighted g)%float) gs 0%float.

(** A weighted score passing the fixed threshold 50.0. *)
Definition passing (g : Grade.t) : bool := (50 <=? Grade.weighted g)%float.


(** The students and courses that the seed enrollments refer to are present. *)
Definition seed_parents_present (st : list Student.t) (co : list Course.t) : bool :=
  forallb
    (fun g =>
       existsb (student_is (Grade.roll_no g)) st
       && existsb (course_is (Grade.course_code g)) co)
    seed_grades.

(** A table after its seeding step: the seed rows when it was empty. *)
Definition seeded_if_empty {A : Type} (seed tbl : list A) : list A :=
  match tbl with
  | [] => seed
  | _ :: _ => tbl
  end.

(** A database whose only student is S010, with the seed courses and no
    enrollment (the state after S010 was added and S001, S002 and S003 were
    deleted). *)
Definition db_without_seed_students : Database :=
  mkDatabase true [Student.mk "S010" "Ava Lee" "1 Test Rd" "021-000"]
    seed_courses [].


(** The database after course MTH101 and the enrollments (S001, SCI101) and
    (S002, ENG101) were deleted from the seeded database: the seed students,
    two courses and no enrollment. *)
Definition db_without_enrollments : Database :=
  mkDatabase true seed_students
    [ Course.mk "SCI101" "Science" "Intro science" "Ms. Ray";
      Course.mk "ENG101" "English" "Reading & writing" "Mrs. Lee" ]
    [].

(** The cache holds what [db_load_all] reads from the database. *)
Definition mirrors (d : DataStore) (st : Database) : Prop :=
  db_load_all st d = (true, d).


(** A session: menu entries one after the other. *)
Definition run_all (session : list Action) (w : World) : World :=
  fold_left (fun w a => snd (run a w)) session w.


(** *** The invariants of the data model, on three tables *)

(** No key occurs twice. *)
Fixpoint distinct {K : Type} (eqb : K -> K -> bool) (ks : list K) : bool :=
  match ks with
  | [] => true
  | k :: rest => negb (existsb (eqb k) rest) && distinct eqb rest
  end.

Definition grade_key (g : Grade.t) : string * string :=
  (Grade.roll_no g, Grade.course_code g).

Definition key_eqb (a b : string * string) : bool :=
  (fst a =? fst b) && (snd a =? snd b).

(** The student and the course of the enrollment are present. *)
Definition parents_present (s : list Student.t) (c : list Course.t)
    (g : Grade.t) : bool :=
  existsb (student_is (Grade.roll_no g)) s
  && existsb (course_is (Grade.course_code g)) c.

(** roll_no is unique across students, code across courses, the pair
    (roll_no, course_code) across enrollments, and every enrollment refers
    to a student and a course that exist. *)
Definition tables_ok (s : list Student.t) (c : list Course.t)
    (g : list Grade.t) : bool :=
  distinct String.eqb (map Student.roll_no s)
  && distinct String.eqb (map Course.code c)
  && distinct key_eqb (map grade_key g)
  && forallb (parents_present s c) g.

Definition cache_ok (d : DataStore) : bool :=
  tables_ok (all_students d) (all_courses d) (all_grades d).

Definition db_ok (st : Database) : bool :=
  has_tables st && tables_ok (students st) (courses st) (grades st).

(** The database satisfies the invariants and the cache holds exactly its
    rows. *)
Definition consistent (w : World) : Prop :=
  db_ok (db w) = true /\ mirrors (data w) (db w).

(** The marks of the menu entry pass the range test that
    [prompt_number_or_back] applies with the bounds 0 and 100 (the same test
    as the guard of [enter_marks]); the other entries carry no marks. *)
Definition marks_from_prompt (a : Action) : bool :=
  match a with
  | EnterMarks _ _ im fm => negb (marks_rejected im fm)
  | _ => true
  end.

(** The database that holds exactly the rows of a cache. *)
Definition db_of (d : DataStore) : Database :=
  mkDatabase true (all_students d) (all_courses d) (all_grades d).

(** The tables of a database, as a cache. *)
Definition cache_of (st : Database) : DataStore :=
  mkDataStore (students st) (courses st) (grades st).

(** What the database stores of a grade of the cache. *)
Definition stored_grade (g : Grade.t) : Grade.t :=
  set_marks (stored_real (Grade.internal_mark g))
    (stored_real (Grade.final_mark g)) g.

(** What the database stores of the rows of a cache: every text that is not
    a key ends before its first NUL byte, and -0.0 has become 0.0. *)
Definition stored (d : DataStore) : DataStore :=
  mkDataStore (map bound_student (all_students d))
    (map bound_course (all_courses d))
    (map stored_grade (all_grades d)).

(** A text that holds no NUL byte: it is bound as it is. *)
Definition nul_free (x : string) : bool := String.eqb (bind_text x) x.

(** The database follows the cache: the cache satisfies the invariants and
    the database holds what it stores of the rows of the cache. *)
Definition follows (w : World) : Prop :=
  cache_ok (data w) = true /\ db w = db_of (stored (data w)).

(** The calls a session can add to the trace: each returned true, or is the
    mark update of the database. *)
Definition call_expected (c : Call) : bool :=
  call_returned c
  || match call_side c, call_op c with
     | Store, OpEnterMarks => true
     | _, _ => false
     end.

(** No grade in the cache has a mark outside [0, 100]. *)
Definition cache_marks_in_range (d : DataStore) : bool :=
  forallb grade_in_range (all_grades d).

(** The strings that a regular expression denotes. *)
Inductive Matches : regex -> list ascii -> Prop :=
| MEmpty : Matches Empty []
| MChars p c : p c = true -> Matches (Chars p) [c]
| MSeq r s x y : Matches r x -> Matches s y -> Matches (Seq r s) (x ++ y)
| MAltL r s x : Matches r x -> Matches (Alt r s) x
| MAltR r s x : Matches s x -> Matches (Alt r s) x
| MStarNil r : Matches (Star r) []
| MStarCons r x y :
    Matches r x -> Matches (Star r) y -> Matches (Star r) (x ++ y).

(** Every character of a string is in a class. *)
Definition all_chars (p : ascii -> bool) (s : string) : bool :=
  forallb p (list_ascii_of_string s).

(** Some character of a string is in a class. *)
Definition some_char (p : ascii -> bool) (s : string) : bool :=
  existsb p (list_ascii_of_string s).

(** Whether a character, if there is one, is white space. *)
Definition space_at (c : option ascii) : bool :=
  match c with
  | Some c => isspace c
  | None => false
  end.

(** A string that neither starts nor ends with white space. *)
Definition trimmed (s : string) : bool :=
  negb (space_at (hd_error (list_ascii_of_string s)))
  && negb (space_at (hd_error (rev (list_ascii_of_string s)))).

(** At most one character, a hyphen or a space: [[- ]?]. *)
Definition optional_separator (s : string) : bool :=
  (String.length s <=? 1)%nat && all_chars separator s.

(** An answer of an edit prompt that passed the validator. *)
Definition answered (validator : string -> bool) (answer : option string)
  : bool :=
  match answer with
  | Some v => validator v
  | None => false
  end.

(** A writing menu entry all of whose values passed the validator, or the
    range test, of the prompt that [main] reads them with. *)
Definition validated (a : Action) : bool :=
  match a with
  | AddStudent s =>
      is_valid_roll (Student.roll_no s) && is_valid_name (Student.name s)
      && is_non_empty_short (Student.address s)
      && is_valid_phone (Student.contact s)
  | AddCourse c =>
      is_valid_course_code (Course.code c)
      && is_non_empty_short (Course.title c)
      && is_non_empty_short (Course.description c)
      && is_valid_name (Course.teacher c)
  | Enroll r code => is_valid_roll r && is_valid_course_code code
  | EnterMarks r code im fm =>
      is_valid_roll r && is_valid_course_code code
      && negb (marks_rejected im fm)
  | EditStudent roll name address contact =>
      is_valid_roll roll && answered is_valid_name name
      && answered is_non_empty_short address
      && answered is_valid_phone contact
  | EditCourse code title description teacher =>
      is_valid_course_code code && answered is_non_empty_short title
      && answered is_non_empty_short description
      && answered is_valid_name teacher
  | RemoveStudent roll => is_valid_roll roll
  | RemoveCourse code => is_valid_course_code code
  | RemoveEnrollment r code => is_valid_roll r && is_valid_course_code code
  end.

(** The menu that [main] prints, for the entries that write: the operation
    that a number stands for.  The entries 2, 4 and 13 show a table, 7 is the
    report, 0 is EXIT, and any other number is answered with
    "Unknown option.". *)
Definition menu_entry (n : Z) : option Op :=
  if (n =? 1)%Z then Some OpAddStudent
  else if (n =? 3)%Z then Some OpAddCourse
  else if (n =? 5)%Z then Some OpEnroll
  else if (n =? 6)%Z then Some OpEnterMarks
  else if (n =? 8)%Z then Some OpUpdateStudent
  else if (n =? 9)%Z then Some OpUpdateCourse
  else if (n =? 10)%Z then Some OpDeleteStudent
  else if (n =? 11)%Z then Some OpDeleteCourse
  else if (n =? 12)%Z then Some OpDeleteEnrollment
  else None.

(** What the first prompt of a writing entry asks for: a course code where
    the entry is about a course, a roll number otherwise. *)
Definition first_validator (o : Op) : string -> bool :=
  match o with
  | OpAddCourse | OpUpdateCourse | OpDeleteCourse => is_valid_course_code
  | _ => is_valid_roll
  end.

(** What a turn leaves: input that is no longer, and the state as it was,
    or, when the loop goes on, as one validated entry of the operation
    [entry] leaves it. *)
Definition turn_of (entry : option Op) (cin : Stream) (w : World)
    (flow : Flow) (rest : Stream) (w' : World) : Prop :=
  (List.length rest <= List.length cin)%nat
  /\ (w' = w
      \/ (flow = Again
          /\ exists a,
               entry = Some (op_of a) /\ validated a = true
               /\ w' = snd (run a w))).

(** What is typed at the menu is not a number: after white space comes a
    character that is no digit, or a sign that no digit follows. *)
Definition not_a_number (cin : Stream) : bool :=
  match skip_space cin with
  | [] => false
  | c :: rest =>
      match (if Ascii.eqb c "-" || Ascii.eqb c "+" then rest else c :: rest) with
      | [] => true
      | d :: _ => negb (is_digit d)
      end
  end.

(** The keys that are pressed: every line is ended by a newline. *)
Fixpoint typed (lines : list string) : Stream :=
  match lines with
  | [] => []
  | l :: rest => list_ascii_of_string l ++ "010"%char :: typed rest
  end.

(** A sample of what [std::stod] does, enough for the examples: the whole
    numbers written with digits only. *)
Definition stod_whole (v : string) : option float :=
  match list_ascii_of_string v with
  | [] => None
  | c :: cs =>
      if forallb is_digit (c :: cs)
      then Some (PrimFloat.of_uint63 (Uint63.of_Z (decimal (c :: cs))))
      else None
  end.

(** Every roll number and every course code in three tables has the form
    that the prompts of [main] ask for. *)
Definition keys_valid (s : list Student.t) (c : list Course.t)
    (g : list Grade.t) : bool :=
  forallb is_valid_roll (map Student.roll_no s)
  && forallb is_valid_course_code (map Course.code c)
  && forallb (fun k => is_valid_roll (fst k) && is_valid_course_code (snd k))
       (map grade_key g).

(** The state that a run of the loop reaches. *)
Definition reached (r : Run) : World :=
  match r with
  | Ended w => w
  | Starved w => w
  end.

(** The database file that [main] has written. *)
Definition written (o : Outcome) : Database :=
  match o with
  | Returned _ file => file
  | Hanging file => file
  end.

(* ================================================================== *)
(** * Properties *)

(** ** Facts about the vector fragments *)

Section VectorFacts.
Context {A : Type}.
Implicit Types (p : A -> bool) (v : list A).

Lemma not_end_find_if p v : not_end (find_if p v) v = existsb p v.
Proof.
  unfold not_end.
  induction v as [|x rest IH]; simpl; [reflexivity|].
  destruct (p x); simpl; [reflexivity|].
  exact IH.
Qed.

Lemma nth_error_find_if p v : nth_error v (find_if p v) = find p v.
Proof.
  induction v as [|x rest IH]; simpl; [reflexivity|].
  destruct (p x); simpl; [reflexivity | exact IH].
Qed.

Lemma erase_remove_if_filter p v :
  erase_remove_if p v = filter (fun x => negb (p x)) v.
Proof.
  induction v as [|x rest IH]; simpl; [reflexivity|].
  destruct (p x); simpl; rewrite IH; reflexivity.
Qed.

Lemma erase_remove_if_length p v :
  List.length (erase_remove_if p v) <= List.length v.
Proof.
  induction v as [|x rest IH]; simpl; [lia|].
  destruct (p x); simpl; lia.
Qed.

(** The test [v.size() != s0] after an erase-remove tells whether some
    element satisfied the predicate. *)
Lemma size_changed_iff_existsb p v :
  negb (Nat.eqb (List.length (erase_remove_if p v)) (List.length v))
  = existsb p v.
Proof.
  induction v as [|x rest IH]; simpl; [reflexivity|].
  destruct (p x); simpl.
  - pose proof (erase_remove_if_length p rest) as Hle.
    destruct (Nat.eqb_spec (List.length (erase_remove_if p rest))
                (S (List.length rest))); [lia | reflexivity].
  - exact IH.
Qed.

Lemma erase_remove_if_none p v :
  existsb p v = false -> erase_remove_if p v = v.
Proof.
  induction v as [|x rest IH]; simpl; [reflexivity|].
  destruct (p x); simpl; [discriminate|].
  intros H. rewrite IH; [reflexivity | exact H].
Qed.

(** The element the iterator of [find_if] points at, when it is not the end. *)
Lemma find_if_split p v :
  existsb p v = true ->
  exists l1 x l2,
    v = l1 ++ x :: l2 /\ existsb p l1 = false /\ p x = true
    /\ find_if p v = List.length l1.
Proof.
  induction v as [|y rest IH]; simpl; [discriminate|].
  destruct (p y) eqn:Hy; simpl.
  - intros _. exists [], y, rest. simpl. auto.
  - intros H. destruct (IH H) as (l1 & x & l2 & -> & Hl1 & Hx & Hi).
    exists (y :: l1), x, l2. simpl. rewrite Hy, Hi. auto.
Qed.

Lemma assign_at_middle (f : A -> A) l1 x l2 :
  assign_at (List.length l1) f (l1 ++ x :: l2) = l1 ++ f x :: l2.
Proof.
  induction l1 as [|y l1 IH]; simpl; [reflexivity|].
  rewrite IH. reflexivity.
Qed.

Lemma fold_left_push_back (rows acc : list A) :
  fold_left push_back rows acc = acc ++ rows.
Proof.
  revert acc. induction rows as [|r rows IH]; intros acc; simpl.
  - rewrite app_nil_r. reflexivity.
  - rewrite IH. unfold push_back. rewrite <- app_assoc. reflexivity.
Qed.
End VectorFacts.

(** The look-ups of [services.hpp] agree with the checks of [helpers.cpp]. *)
Lemma student_found_iff (d : DataStore) (roll : string) :
  not_end (find_if (student_is roll) (all_students d)) (all_students d)
  = exists_student d roll.
Proof. apply not_end_find_if. Qed.

Lemma course_found_iff (d : DataStore) (code : string) :
  not_end (find_if (course_is code) (all_courses d)) (all_courses d)
  = exists_course d code.
Proof. apply not_end_find_if. Qed.

Lemma grade_found_iff (d : DataStore) (roll code : string) :
  not_end (find_if (grade_is roll code) (all_grades d)) (all_grades d)
  = already_enrolled d roll code.
Proof. apply not_end_find_if. Qed.

(* ------------------------------------------------------------------ *)
(** ** C2: what [enroll_student] checks *)

(** C2 (as stated, refuted): [enroll_student] does not append and return
    true in every state.  On a cache without the student it returns false
    and appends nothing, and so it does for a pair that is already
    enrolled. *)
Lemma enroll_student_refuses :
  enroll_student empty_store "S001" "MTH101" = (false, empty_store)
  /\ enroll_student seeded_store "S001" "MTH101" = (false, seeded_store).
Proof. split; reflexivity. Qed.

(** C2 (amended): [enroll_student] re-checks.  It returns true and appends
    [Grade{roll_no, course_code, 0, 0}] exactly when the student exists, the
    course exists and the pair is not yet enrolled; in every other case it
    returns false and leaves the cache as it was. *)
Theorem enroll_student_checked (d : DataStore) (roll_no course_code : string) :
  enroll_student d roll_no course_code =
  if exists_student d roll_no && exists_course d course_code
     && negb (already_enrolled d roll_no course_code)
  then (true,
        mkDataStore (all_students d) (all_courses d)
          (all_grades d ++ [Grade.mk roll_no course_code 0%float 0%float]))
  else (false, d).
Proof.
  unfold enroll_student.
  rewrite student_found_iff, course_found_iff, grade_found_iff.
  destruct (exists_student d roll_no); simpl; [|reflexivity].
  destruct (exists_course d course_code); simpl; [|reflexivity].
  destruct (already_enrolled d roll_no course_code); reflexivity.
Qed.

(* ------------------------------------------------------------------ *)
(** ** C3: what decides the result of [enter_marks] *)

(** C3 (as stated, refuted): the presence of the enrollment alone does not
    decide the result.  The pair (S001, MTH101) is enrolled in the seeded
    cache, yet marks of 150 and 50 are refused there and nothing is
    written. *)
Lemma enter_marks_validates_range :
  already_enrolled seeded_store "S001" "MTH101" = true
  /\ enter_marks seeded_store "S001" "MTH101" 150 50 = (false, seeded_store).
Proof. split; reflexivity. Qed.

(** C3 (amended): [enter_marks] returns true exactly when neither mark is
    below 0 or above 100 and an enrollment with the composite key is
    present.  It then overwrites both marks of the first such enrollment
    and changes nothing else; otherwise it returns false and leaves the
    cache as it was. *)
Theorem enter_marks_checked (d : DataStore) (roll_no course_code : string)
    (internal final : float) :
  if negb (marks_rejected internal final) && already_enrolled d roll_no course_code
  then
    exists l1 g l2,
      all_grades d = l1 ++ g :: l2
      /\ existsb (grade_is roll_no course_code) l1 = false
      /\ grade_is roll_no course_code g = true
      /\ enter_marks d roll_no course_code internal final =
         (true,
          mkDataStore (all_students d) (all_courses d)
            (l1 ++ Grade.mk (Grade.roll_no g) (Grade.course_code g) internal final
                :: l2))
  else enter_marks d roll_no course_code internal final = (false, d).
Proof.
  unfold enter_marks.
  rewrite grade_found_iff.
  destruct (marks_rejected internal final); simpl; [reflexivity|].
  destruct (already_enrolled d roll_no course_code) eqn:He; simpl; [|reflexivity].
  destruct (find_if_split (grade_is roll_no course_code) (all_grades d) He)
    as (l1 & g & l2 & Hsplit & Hl1 & Hg & Hidx).
  exists l1, g, l2. repeat split; try assumption.
  rewrite Hidx. unfold with_grades. rewrite Hsplit.
  rewrite assign_at_middle. reflexivity.
Qed.

(* ------------------------------------------------------------------ *)
(** ** The store-then-mirror composition *)

(** [db_xxx(db, ...) && xxx(data, ...)], unfolded once and for all. *)
Lemma store_then_mirror (o : Op) (f : Database -> bool * Database)
    (g : DataStore -> bool * DataStore) (w : World) :
  and_also (call_db o f) (call_data o g) w =
  if fst (f (db w))
  then (fst (g (data w)),
        mkWorld (snd (f (db w))) (snd (g (data w)))
          (calls w ++ [mkCall Store o true; mkCall Mirror o (fst (g (data w)))]))
  else (false,
        mkWorld (snd (f (db w))) (data w) (calls w ++ [mkCall Store o false])).
Proof.
  unfold and_also, bind, call_db, call_data, ret.
  destruct (f (db w)) as [ok db']; simpl.
  destruct ok; simpl; [|reflexivity].
  destruct (g (data w)) as [ok2 data']; simpl.
  rewrite <- app_assoc. reflexivity.
Qed.

(* ------------------------------------------------------------------ *)
(** ** C4: marks in the database *)

(** A mark within bounds is stored as a mark within bounds. *)
Lemma stored_real_in_range (m : float) :
  mark_in_range m = true -> mark_in_range (stored_real m) = true.
Proof.
  intros Hm. unfold stored_real. destruct (m =? 0)%float; [reflexivity | exact Hm].
Qed.

Lemma db_enter_marks_keeps_range (d : Database) (roll code : string)
    (im fm : float) :
  persisted_marks_in_range d = true ->
  mark_in_range im = true ->
  mark_in_range fm = true ->
  persisted_marks_in_range (snd (db_enter_marks d roll code im fm)) = true.
Proof.
  intros Hdb Him Hfm.
  unfold db_enter_marks, run_change, sqlite3_prepare_v2.
  destruct (has_tables d); [|exact Hdb].
  unfold sqlite3_step.
  destruct (Nat.eqb (count (grade_is roll code) (grades d)) 0); [exact Hdb|].
  destruct (PrimFloat.is_nan im || PrimFloat.is_nan fm); [exact Hdb|].
  unfold persisted_marks_in_range in *. simpl.
  rewrite forallb_forall in *.
  intros g Hg. apply in_map_iff in Hg. destruct Hg as (g0 & <- & Hin).
  destruct (grade_is roll code g0).
  - unfold grade_in_range, set_marks. simpl.
    rewrite (stored_real_in_range im Him), (stored_real_in_range fm Hfm).
    reflexivity.
  - apply Hdb. exact Hin.
Qed.

(** C4 (as stated, refuted): the mark update can persist marks outside
    [0, 100].  In the seeded state every persisted mark is in range; after
    the store-then-mirror update of (S001, MTH101) with marks 150 and 150
    the database holds that row with 150 and 150 (while the cache, whose
    helper refuses the marks, keeps the old ones).  And a database that holds
    such a row still holds it after a later update, with marks in range, of
    another enrollment. *)
Lemma enter_marks_persists_out_of_range :
  persisted_marks_in_range (db seeded_world) = true
  /\ persisted_marks_in_range
       (db (snd (save_marks "S001" "MTH101" 150 150 seeded_world))) = false
  /\ In (Grade.mk "S001" "MTH101" 150 150)
       (grades (db (snd (save_marks "S001" "MTH101" 150 150 seeded_world))))
  /\ data (snd (save_marks "S001" "MTH101" 150 150 seeded_world)) = seeded_store
  /\ persisted_marks_in_range
       (db (snd (save_marks "S001" "SCI101" 50 50
                   (snd (save_marks "S001" "MTH101" 150 150 seeded_world)))))
     = false.
Proof.
  split; [reflexivity|]. split; [reflexivity|].
  split; [vm_compute; left; reflexivity|].
  split; reflexivity.
Qed.

(** C4 (amended): when every persisted mark is within [0, 100] and both
    marks handed to the update are within [0, 100], no enrollment in the
    database has a mark outside [0, 100] after the store-then-mirror mark
    update (db_enter_marks followed on success by enter_marks), be it run on
    its own or as the last step of the menu entry. *)
Theorem enter_marks_keeps_range (w : World) (r code : string) (im fm : float) :
  persisted_marks_in_range (db w) = true ->
  mark_in_range im = true ->
  mark_in_range fm = true ->
  persisted_marks_in_range (db (snd (save_marks r code im fm w))) = true
  /\ persisted_marks_in_range (db (snd (choice_6 r code im fm w))) = true.
Proof.
  intros Hdb Him Hfm.
  pose proof (db_enter_marks_keeps_range (db w) r code im fm Hdb Him Hfm) as Hkeep.
  assert (Hsave :
            persisted_marks_in_range (db (snd (save_marks r code im fm w))) = true).
  { unfold save_marks. rewrite store_then_mirror.
    destruct (fst (db_enter_marks (db w) r code im fm)); simpl; exact Hkeep. }
  split; [exact Hsave|].
  unfold choice_6, bind, get_data, ret. cbv beta iota.
  destruct (negb (already_enrolled (data w) r code)); [exact Hdb|].
  destruct (save_marks r code im fm w) as [ok w']. exact Hsave.
Qed.

(** The theorem at the seeded state, for the marks 75 and 88. *)
Lemma enter_marks_keeps_range_witness :
  persisted_marks_in_range (db seeded_world) = true
  /\ mark_in_range 75 = true
  /\ mark_in_range 88 = true
  /\ persisted_marks_in_range
       (db (snd (choice_6 "S001" "MTH101" 75 88 seeded_world))) = true.
Proof.
  split; [reflexivity|]. split; [reflexivity|]. split; [reflexivity|].
  apply (enter_marks_keeps_range seeded_world "S001" "MTH101" 75 88);
    reflexivity.
Defined.

(* ------------------------------------------------------------------ *)
(** ** What the engine reports for a keyed statement *)

Lemma count_zero_iff_none {A : Type} (p : A -> bool) (l : list A) :
  Nat.eqb (count p l) 0 = negb (existsb p l).
Proof.
  unfold count. induction l as [|x l IH]; simpl; [reflexivity|].
  destruct (p x); simpl; [reflexivity | exact IH].
Qed.

Lemma count_pos_iff_some {A : Type} (p : A -> bool) (l : list A) :
  Nat.ltb 0 (count p l) = existsb p l.
Proof.
  unfold count. induction l as [|x l IH]; simpl; [reflexivity|].
  destruct (p x); simpl; [reflexivity | exact IH].
Qed.

Lemma insert_students_duplicate (s : Student.t) (tbl : list Student.t) :
  existsb (student_is (Student.roll_no s)) tbl = true ->
  insert_students [s] tbl = None.
Proof. intros H. simpl. rewrite H. reflexivity. Qed.

Lemma insert_courses_duplicate (c : Course.t) (tbl : list Course.t) :
  existsb (course_is (Course.code c)) tbl = true ->
  insert_courses [c] tbl = None.
Proof. intros H. simpl. rewrite H. reflexivity. Qed.

(* ------------------------------------------------------------------ *)
(** ** C5: cascading deletes *)

Lemma db_load_all_reads (st : Database) (d : DataStore) :
  db_load_all st d =
  if has_tables st
  then (true, mkDataStore (students st) (courses st) (grades st))
  else (false, mkDataStore [] [] []).
Proof.
  unfold db_load_all, sqlite3_prepare_v2.
  destruct (has_tables st); [|reflexivity].
  cbn [rc_eqb negb with_students with_courses with_grades
       all_students all_courses all_grades].
  rewrite !fold_left_push_back. reflexivity.
Qed.

Lemma mirrors_inv (d : DataStore) (st : Database) :
  mirrors d st ->
  has_tables st = true
  /\ d = mkDataStore (students st) (courses st) (grades st).
Proof.
  unfold mirrors. rewrite db_load_all_reads.
  destruct (has_tables st); [|discriminate].
  intros H. injection H as H. split; [reflexivity | symmetry; exact H].
Qed.

(** C5: deleting student X removes exactly the enrollments of X.  In the
    cache, [remove_student X] leaves the students other than X, the courses
    as they were, and the grades whose roll_no is not X, all in their
    previous order; [remove_course C] does the same for course C and the
    grades of C.  In the database, deleting an existing student (course)
    removes that row and, by the cascade of the schema, exactly the grades
    that refer to it.  The two cascades agree: a cache that holds what the
    database holds still does after the student (course) is deleted from
    both. *)
Theorem cascade_delete_exact (d : DataStore) (st : Database) (X C : string) :
  snd (remove_student d X) =
    mkDataStore
      (filter (fun s => negb (Student.roll_no s =? X)) (all_students d))
      (all_courses d)
      (filter (fun g => negb (Grade.roll_no g =? X)) (all_grades d))
  /\ snd (remove_course d C) =
    mkDataStore
      (all_students d)
      (filter (fun c => negb (Course.code c =? C)) (all_courses d))
      (filter (fun g => negb (Grade.course_code g =? C)) (all_grades d))
  /\ (has_tables st = true ->
      existsb (fun s => Student.roll_no s =? X) (students st) = true ->
      db_delete_student st X =
        (true,
         mkDatabase true
           (filter (fun s => negb (Student.roll_no s =? X)) (students st))
           (courses st)
           (filter (fun g => negb (Grade.roll_no g =? X)) (grades st))))
  /\ (has_tables st = true ->
      existsb (fun c => Course.code c =? C) (courses st) = true ->
      db_delete_course st C =
        (true,
         mkDatabase true
           (students st)
           (filter (fun c => negb (Course.code c =? C)) (courses st))
           (filter (fun g => negb (Grade.course_code g =? C)) (grades st))))
  /\ (mirrors d st ->
      exists_student d X = true ->
      mirrors (snd (remove_student d X)) (snd (db_delete_student st X)))
  /\ (mirrors d st ->
      exists_course d C = true ->
      mirrors (snd (remove_course d C)) (snd (db_delete_course st C))).
Proof.
  assert (Hrs : snd (remove_student d X) =
                mkDataStore
                  (filter (fun s => negb (Student.roll_no s =? X)) (all_students d))
                  (all_courses d)
                  (filter (fun g => negb (Grade.roll_no g =? X)) (all_grades d))).
  { unfold remove_student, with_grades, with_students; simpl.
    rewrite !erase_remove_if_filter. reflexivity. }
  assert (Hrc : snd (remove_course d C) =
                mkDataStore
                  (all_students d)
                  (filter (fun c => negb (Course.code c =? C)) (all_courses d))
                  (filter (fun g => negb (Grade.course_code g =? C)) (all_grades d))).
  { unfold remove_course, with_grades, with_courses; simpl.
    rewrite !erase_remove_if_filter. reflexivity. }
  assert (Hds : has_tables st = true ->
                existsb (fun s => Student.roll_no s =? X) (students st) = true ->
                db_delete_student st X =
                (true,
                 mkDatabase true
                   (filter (fun s => negb (Student.roll_no s =? X)) (students st))
                   (courses st)
                   (filter (fun g => negb (Grade.roll_no g =? X)) (grades st)))).
  { intros Ht Hx.
    unfold db_delete_student, run_change, sqlite3_prepare_v2, sqlite3_step.
    rewrite Ht, count_zero_iff_none.
    change (existsb (student_is X) (students st)) with
      (existsb (fun s => Student.roll_no s =? X) (students st)).
    rewrite Hx. cbn [negb rc_eqb andb].
    rewrite count_pos_iff_some.
    change (existsb (student_is X) (students st)) with
      (existsb (fun s => Student.roll_no s =? X) (students st)).
    rewrite Hx. reflexivity. }
  assert (Hdc : has_tables st = true ->
                existsb (fun c => Course.code c =? C) (courses st) = true ->
                db_delete_course st C =
                (true,
                 mkDatabase true
                   (students st)
                   (filter (fun c => negb (Course.code c =? C)) (courses st))
                   (filter (fun g => negb (Grade.course_code g =? C)) (grades st)))).
  { intros Ht Hc.
    unfold db_delete_course, run_change, sqlite3_prepare_v2, sqlite3_step.
    rewrite Ht, count_zero_iff_none.
    change (existsb (course_is C) (courses st)) with
      (existsb (fun c => Course.code c =? C) (courses st)).
    rewrite Hc. cbn [negb rc_eqb andb].
    rewrite count_pos_iff_some.
    change (existsb (course_is C) (courses st)) with
      (existsb (fun c => Course.code c =? C) (courses st)).
    rewrite Hc. reflexivity. }
  split; [exact Hrs|]. split; [exact Hrc|].
  split; [exact Hds|]. split; [exact Hdc|].
  split.
  - intros Hm Hx. destruct (mirrors_inv d st Hm) as [Ht Hd].
    rewrite Hrs. subst d. unfold exists_student in Hx. cbn [all_students] in Hx.
    rewrite (Hds Ht Hx). unfold mirrors. rewrite db_load_all_reads. reflexivity.
  - intros Hm Hc. destruct (mirrors_inv d st Hm) as [Ht Hd].
    rewrite Hrc. subst d. unfold exists_course in Hc. cbn [all_courses] in Hc.
    rewrite (Hdc Ht Hc). unfold mirrors. rewrite db_load_all_reads. reflexivity.
Qed.

(** The theorem at the seeded state: deleting S001 removes the two grades of
    S001 from the cache and from the database, and nothing else. *)
Lemma cascade_delete_exact_witness :
  snd (remove_student seeded_store "S001") =
    mkDataStore
      [ Student.mk "S002" "Leo" "34 Pine Ave" "021-222";
        Student.mk "S003" "Mia" "56 Willow Rd" "021-333" ]
      seed_courses
      [ Grade.mk "S002" "ENG101" 80 92; Grade.mk "S003" "MTH101" 55 60 ]
  /\ db_delete_student seeded_db "S001" =
    (true,
     mkDatabase true
       [ Student.mk "S002" "Leo" "34 Pine Ave" "021-222";
         Student.mk "S003" "Mia" "56 Willow Rd" "021-333" ]
       seed_courses
       [ Grade.mk "S002" "ENG101" 80 92; Grade.mk "S003" "MTH101" 55 60 ])
  /\ mirrors (snd (remove_student seeded_store "S001"))
       (snd (db_delete_student seeded_db "S001")).
Proof.
  destruct (cascade_delete_exact seeded_store seeded_db "S001" "MTH101")
    as (Hmirror & _ & Hstore & _ & Hagree & _).
  split; [rewrite Hmirror; reflexivity|].
  split; [rewrite Hstore; reflexivity|].
  apply Hagree; reflexivity.
Defined.

(* ------------------------------------------------------------------ *)
(** ** C6: uniqueness of identifiers *)

(** C6: adding a student or course whose identifier is present fails and
    changes nothing: [add_student] and [add_course] return false with the
    cache unchanged, and the INSERT of [db_add_student] and [db_add_course]
    is refused by the primary key, the database unchanged. *)
Theorem add_duplicate_refused (d : DataStore) (st : Database)
    (s : Student.t) (c : Course.t) :
  (exists_student d (Student.roll_no s) = true -> add_student d s = (false, d))
  /\ (exists_course d (Course.code c) = true -> add_course d c = (false, d))
  /\ (existsb (fun x => Student.roll_no x =? Student.roll_no s) (students st) = true ->
      db_add_student st s = (false, st))
  /\ (existsb (fun x => Course.code x =? Course.code c) (courses st) = true ->
      db_add_course st c = (false, st)).
Proof.
  repeat split.
  - intros H. unfold add_student. rewrite student_found_iff, H. reflexivity.
  - intros H. unfold add_course. rewrite course_found_iff, H. reflexivity.
  - intros H. unfold db_add_student, run_insert, sqlite3_prepare_v2, sqlite3_step.
    destruct (has_tables st); [|reflexivity].
    rewrite (insert_students_duplicate (bound_student s) (students st) H).
    reflexivity.
  - intros H. unfold db_add_course, run_insert, sqlite3_prepare_v2, sqlite3_step.
    destruct (has_tables st); [|reflexivity].
    rewrite (insert_courses_duplicate (bound_course c) (courses st) H).
    reflexivity.
Qed.

(** The theorem at the seeded state: S001 and MTH101 are taken. *)
Lemma add_duplicate_refused_witness :
  add_student seeded_store (Student.mk "S001" "Ava Lee" "1 Test Rd" "021-000")
    = (false, seeded_store)
  /\ add_course seeded_store (Course.mk "MTH101" "Algebra" "More algebra" "Mr. Fox")
    = (false, seeded_store)
  /\ db_add_student seeded_db (Student.mk "S001" "Ava Lee" "1 Test Rd" "021-000")
    = (false, seeded_db)
  /\ db_add_course seeded_db (Course.mk "MTH101" "Algebra" "More algebra" "Mr. Fox")
    = (false, seeded_db).
Proof.
  destruct (add_duplicate_refused seeded_store seeded_db
              (Student.mk "S001" "Ava Lee" "1 Test Rd" "021-000")
              (Course.mk "MTH101" "Algebra" "More algebra" "Mr. Fox"))
    as (H1 & H2 & H3 & H4).
  split; [apply H1; reflexivity|].
  split; [apply H2; reflexivity|].
  split; [apply H3; reflexivity | apply H4; reflexivity].
Defined.

(* ------------------------------------------------------------------ *)
(** ** C10: the result of a removal without its parent *)

(** C10: when no student has the roll, [remove_student] returns false and
    still erases every grade with that roll (students and courses stay as
    they were); likewise [remove_course] for a code no course has.  The
    boolean tells only whether the parent was present. *)
Theorem remove_without_parent (d : DataStore) (roll code : string) :
  (exists_student d roll = false ->
   remove_student d roll =
     (false,
      mkDataStore (all_students d) (all_courses d)
        (filter (fun g => negb (Grade.roll_no g =? roll)) (all_grades d))))
  /\ (exists_course d code = false ->
      remove_course d code =
        (false,
         mkDataStore (all_students d) (all_courses d)
           (filter (fun g => negb (Grade.course_code g =? code)) (all_grades d)))).
Proof.
  split; intros H.
  - unfold remove_student, with_grades, with_students; simpl.
    rewrite size_changed_iff_existsb.
    rewrite (erase_remove_if_none (student_is roll) (all_students d) H).
    rewrite erase_remove_if_filter.
    change (existsb (student_is roll) (all_students d)) with (exists_student d roll).
    rewrite H. reflexivity.
  - unfold remove_course, with_grades, with_courses; simpl.
    rewrite size_changed_iff_existsb.
    rewrite (erase_remove_if_none (course_is code) (all_courses d) H).
    rewrite erase_remove_if_filter.
    change (existsb (course_is code) (all_courses d)) with (exists_course d code).
    rewrite H. reflexivity.
Qed.

(** The theorem on a cache that holds grades of a student and of a course
    it does not hold: both removals return false, and the grades are gone. *)
Lemma remove_without_parent_witness :
  remove_student
    (mkDataStore [] seed_courses
       [ Grade.mk "S009" "MTH101" 10 20; Grade.mk "S001" "MTH101" 75 88 ])
    "S009"
  = (false, mkDataStore [] seed_courses [ Grade.mk "S001" "MTH101" 75 88 ])
  /\ remove_course
       (mkDataStore seed_students []
          [ Grade.mk "S001" "ART101" 10 20; Grade.mk "S001" "MTH101" 75 88 ])
       "ART101"
     = (false, mkDataStore seed_students [] [ Grade.mk "S001" "MTH101" 75 88 ]).
Proof.
  split.
  - apply (proj1 (remove_without_parent
                    (mkDataStore [] seed_courses
                       [ Grade.mk "S009" "MTH101" 10 20;
                         Grade.mk "S001" "MTH101" 75 88 ])
                    "S009" "MTH101")).
    reflexivity.
  - apply (proj2 (remove_without_parent
                    (mkDataStore seed_students []
                       [ Grade.mk "S001" "ART101" 10 20;
                         Grade.mk "S001" "MTH101" 75 88 ])
                    "S001" "ART101")).
    reflexivity.
Defined.

(* ------------------------------------------------------------------ *)
(** ** C1: the database first, the cache only on success *)

(** The three ways a writing menu entry can end, read off the trace of calls
    it appends: no call at all (the request is turned down on the cache
    alone), one database call that returned false, or a database call that
    returned true followed by the call of the cache helper. *)
Ltac protocol_cases :=
  rewrite store_then_mirror;
  match goal with
  | |- context [if fst ?x then _ else _] => destruct (fst x)
  end;
  cbn [snd fst calls data db];
  [ right; right; eexists; reflexivity
  | right; left; split; reflexivity ].

(** C1: every writing menu entry (add student, add course, enroll, enter
    marks, update student, update course, delete student, delete course,
    delete enrollment) calls the database function first and calls the cache
    helper only after the database function returned true.  When the
    database call returns false the cache is left exactly as it was. *)
Theorem store_first_mirror_on_success (a : Action) (w : World) :
  (calls (snd (run a w)) = calls w
   /\ db (snd (run a w)) = db w
   /\ data (snd (run a w)) = data w)
  \/ (calls (snd (run a w)) = calls w ++ [mkCall Store (op_of a) false]
      /\ data (snd (run a w)) = data w)
  \/ (exists r : bool,
        calls (snd (run a w)) =
        calls w ++ [mkCall Store (op_of a) true; mkCall Mirror (op_of a) r]).
Proof.
  destruct a; cbn [run op_of].
  - unfold choice_1, bind, get_data, ret; cbv beta iota.
    destruct (exists_student (data w) (Student.roll_no s)); [left; auto|].
    protocol_cases.
  - unfold choice_3, bind, get_data, ret; cbv beta iota.
    destruct (exists_course (data w) (Course.code c)); [left; auto|].
    protocol_cases.
  - unfold choice_5, bind, get_data, ret; cbv beta iota.
    destruct (negb (exists_student (data w) r)); [left; auto|].
    destruct (negb (exists_course (data w) code)); [left; auto|].
    destruct (already_enrolled (data w) r code); [left; auto|].
    protocol_cases.
  - unfold choice_6, save_marks, bind, get_data, ret; cbv beta iota.
    destruct (negb (already_enrolled (data w) r code)); [left; auto|].
    protocol_cases.
  - unfold choice_8, bind, get_data, ret; cbv beta iota.
    destruct (find (student_is roll) (all_students (data w))); [|left; auto].
    protocol_cases.
  - unfold choice_9, bind, get_data, ret; cbv beta iota.
    destruct (find (course_is code) (all_courses (data w))); [|left; auto].
    protocol_cases.
  - unfold choice_10, bind, get_data, ret; cbv beta iota.
    destruct (negb (exists_student (data w) roll)); [left; auto|].
    protocol_cases.
  - unfold choice_11, bind, get_data, ret; cbv beta iota.
    destruct (negb (exists_course (data w) code)); [left; auto|].
    protocol_cases.
  - unfold choice_12, bind, get_data, ret; cbv beta iota.
    destruct (negb (already_enrolled (data w) r code)); [left; auto|].
    protocol_cases.
Qed.

(* ------------------------------------------------------------------ *)
(** ** C7: the weighted score *)

(** All pairs of whole marks, checked by evaluation. *)
Lemma whole_marks_within_tolerance :
  forallb
    (fun i =>
       forallb
         (fun f =>
            within_tolerance (Grade.weighted (grade_with_marks i f))
              (exact_weighted i f))
         whole_marks)
    whole_marks = true.
Proof. vm_compute. reflexivity. Qed.

Lemma whole_mark_listed (i : Z) : (0 <= i <= 100)%Z -> In i whole_marks.
Proof.
  intros Hi. unfold whole_marks.
  apply in_map_iff. exists (Z.to_nat i). split.
  - apply Z2Nat.id. lia.
  - apply in_seq. lia.
Qed.

(** C7 (as stated, refuted): for internal 75 and final 88 the weighted
    score is not 82.1: it is farther than 1e-9 from 82.1, both in double
    arithmetic and in exact arithmetic. *)
Lemma weighted_75_88_is_not_82_1 :
  close_to (Grade.weighted (Grade.mk "S001" "MTH101" 75 88)) 82.1 = false
  /\ within_tolerance (Grade.weighted (Grade.mk "S001" "MTH101" 75 88))
       (821 # 10)%Q = false.
Proof. split; vm_compute; reflexivity. Qed.

(** C7 (amended): for every grade, [weighted()] is the double
    [0.3 * internal_mark + 0.7 * final_mark]; for whole marks between 0 and
    100 it is within 1e-9 of the exact value of 0.3 i + 0.7 f; and for
    internal 75 and final 88 the weighted score is 84.1 (within 1e-9). *)
Theorem weighted_formula :
  (forall g : Grade.t,
      Grade.weighted g
      = (0.3 * Grade.internal_mark g + 0.7 * Grade.final_mark g)%float)
  /\ (forall i f : Z,
        (0 <= i <= 100)%Z -> (0 <= f <= 100)%Z ->
        within_tolerance (Grade.weighted (grade_with_marks i f))
          (exact_weighted i f) = true)
  /\ close_to (Grade.weighted (Grade.mk "S001" "MTH101" 75 88)) 84.1 = true
  /\ within_tolerance (Grade.weighted (Grade.mk "S001" "MTH101" 75 88))
       (841 # 10)%Q = true.
Proof.
  split; [intros g; reflexivity|].
  split.
  - intros i f Hi Hf.
    pose proof whole_marks_within_tolerance as Hall.
    rewrite forallb_forall in Hall.
    specialize (Hall i (whole_mark_listed i Hi)).
    rewrite forallb_forall in Hall.
    exact (Hall f (whole_mark_listed f Hf)).
  - split; vm_compute; reflexivity.
Qed.

(** The theorem at the seeded marks of (S002, ENG101): 80 and 92 weigh
    88.4. *)
Lemma weighted_formula_witness :
  within_tolerance (Grade.weighted (grade_with_marks 80 92)) (884 # 10)%Q = true.
Proof.
  destruct weighted_formula as (_ & Hwhole & _).
  assert (H : within_tolerance (Grade.weighted (grade_with_marks 80 92))
                (exact_weighted 80 92) = true)
    by (apply Hwhole; lia).
  exact H.
Defined.

(* ------------------------------------------------------------------ *)
(** ** C9: the per-student report *)

(** The first loop of [student_report] lists the matching grades. *)
Lemma listing_loop (d : DataStore) (roll : string) (gs : list Grade.t)
    (any : bool) (lines : list ReportLine) :
  fold_left (listing_step d roll) gs (any, lines) =
  (any || negb (Nat.eqb (List.length (filter (grade_of_student roll) gs)) 0),
   lines ++ map (report_line d) (filter (grade_of_student roll) gs)).
Proof.
  unfold grade_of_student. revert any lines.
  induction gs as [|g gs IH]; intros any lines; simpl.
  - rewrite orb_false_r, app_nil_r. reflexivity.
  - unfold listing_step at 2.
    destruct (Grade.roll_no g =? roll); simpl.
    + rewrite IH. simpl. rewrite orb_true_r, <- app_assoc. reflexivity.
    + apply IH.
Qed.

(** The second loop of [student_report] adds up the matching grades. *)
Lemma totals_loop (roll : string) (gs : list Grade.t) (total : float) (n passed : Z) :
  fold_left (totals_step roll) gs (total, n, passed) =
  (fold_left (fun t g => (t + Grade.weighted g)%float)
     (filter (grade_of_student roll) gs) total,
   (n + Z.of_nat (List.length (filter (grade_of_student roll) gs)))%Z,
   (passed
    + Z.of_nat
        (List.length
           (filter passing (filter (grade_of_student roll) gs))))%Z).
Proof.
  unfold grade_of_student. revert total n passed.
  induction gs as [|g gs IH]; intros total n passed.
  - cbn [fold_left filter List.length]. rewrite !Z.add_0_r. reflexivity.
  - cbn [fold_left filter]. unfold totals_step at 2.
    destruct (Grade.roll_no g =? roll); cbn [negb].
    + rewrite IH. cbn [filter fold_left List.length]. unfold passing at 2.
      destruct (50 <=? Grade.weighted g)%float; cbn [List.length];
        rewrite ?Nat2Z.inj_succ;
        (apply f_equal2; [apply f_equal2; [reflexivity | lia] | lia]).
    + apply IH.
Qed.

Lemma find_some_of_existsb {A : Type} (p : A -> bool) (l : list A) :
  existsb p l = true -> exists x, find p l = Some x.
Proof.
  induction l as [|y l IH]; simpl; [discriminate|].
  destruct (p y); [intros _; exists y; reflexivity | exact IH].
Qed.

(** What [student_report] prints for an existing student, in terms of the
    matching enrollments. *)
Lemma student_report_of_existing (d : DataStore) (roll : string) (st : Student.t) :
  find (student_is roll) (all_students d) = Some st ->
  student_report d roll =
  StudentReport (Student.name st) (Student.roll_no st)
    (map (report_line d) (enrollments_of d roll))
    (if (0 <? Z.of_nat (List.length (enrollments_of d roll)))%Z
     then Some (mkOverall
                  (sum_weighted (enrollments_of d roll)
                   / double_of_int (Z.of_nat (List.length (enrollments_of d roll))))%float
                  (Z.of_nat (List.length (enrollments_of d roll)))
                  (Z.of_nat (List.length (filter passing (enrollments_of d roll)))))
     else None)
    (Nat.eqb (List.length (enrollments_of d roll)) 0).
Proof.
  intros Hst. unfold student_report.
  rewrite nth_error_find_if, Hst.
  rewrite listing_loop, totals_loop. simpl.
  fold (enrollments_of d roll). fold (sum_weighted (enrollments_of d roll)).
  rewrite negb_involutive. reflexivity.
Qed.

(** C9: for an existing student the report aggregates exactly the
    enrollments whose roll_no matches: one line per such enrollment, their
    count n, and, when n > 0, the average (the sum of their weighted scores
    divided by n) and the number of those whose weighted score is at least
    50.0.  The report changes neither the cache nor the database.  With two
    matching enrollments of weighted scores 60.0 and 90.0 it reports the
    average 75.0, 2 courses and 2 passed. *)
Theorem student_report_aggregates (w : World) (roll : string) :
  exists_student (data w) roll = true ->
  (exists st : Student.t,
      find (student_is roll) (all_students (data w)) = Some st
      /\ student_report (data w) roll =
         StudentReport (Student.name st) (Student.roll_no st)
           (map (report_line (data w)) (enrollments_of (data w) roll))
           (if (0 <? Z.of_nat (List.length (enrollments_of (data w) roll)))%Z
            then Some (mkOverall
                         (sum_weighted (enrollments_of (data w) roll)
                          / double_of_int
                              (Z.of_nat (List.length (enrollments_of (data w) roll))))%float
                         (Z.of_nat (List.length (enrollments_of (data w) roll)))
                         (Z.of_nat
                            (List.length
                               (filter passing (enrollments_of (data w) roll)))))
            else None)
           (Nat.eqb (List.length (enrollments_of (data w) roll)) 0))
  /\ choice_7 roll w = (student_report (data w) roll, w)
  /\ (map Grade.weighted (enrollments_of (data w) roll) = [60; 90]%float
      \/ map Grade.weighted (enrollments_of (data w) roll) = [90; 60]%float ->
      exists (name r : string) (lines : list ReportLine),
        student_report (data w) roll =
        StudentReport name r lines (Some (mkOverall 75 2 2)) false).
Proof.
  intros Hex.
  destruct (find_some_of_existsb (student_is roll) (all_students (data w)) Hex)
    as [st Hst].
  split; [|split].
  - exists st. split; [exact Hst|].
    apply student_report_of_existing. exact Hst.
  - reflexivity.
  - intros Hws.
    exists (Student.name st), (Student.roll_no st),
      (map (report_line (data w)) (enrollments_of (data w) roll)).
    rewrite (student_report_of_existing (data w) roll st Hst).
    destruct (enrollments_of (data w) roll) as [|g1 [|g2 [|g3 gs]]];
      try (destruct Hws as [Hws|Hws]; discriminate Hws).
    unfold sum_weighted, passing. simpl.
    destruct Hws as [Hws|Hws]; injection Hws as H1 H2;
      rewrite H1, H2; reflexivity.
Qed.

(** The theorem on a cache where S002 has two enrollments, of marks 60/60
    and 90/90, among the enrollments of other students. *)
Lemma student_report_aggregates_witness :
  exists_student
    (mkDataStore seed_students seed_courses
       [ Grade.mk "S002" "ENG101" 60 60; Grade.mk "S001" "MTH101" 10 20;
         Grade.mk "S002" "MTH101" 90 90 ])
    "S002" = true
  /\ student_report
       (mkDataStore seed_students seed_courses
          [ Grade.mk "S002" "ENG101" 60 60; Grade.mk "S001" "MTH101" 10 20;
            Grade.mk "S002" "MTH101" 90 90 ])
       "S002"
     = StudentReport "Leo" "S002"
         [ mkReportLine "English" 60 60 60; mkReportLine "Maths" 90 90 90 ]
         (Some (mkOverall 75 2 2)) false.
Proof.
  split; [reflexivity|].
  destruct (student_report_aggregates
              (mkWorld seeded_db
                 (mkDataStore seed_students seed_courses
                    [ Grade.mk "S002" "ENG101" 60 60; Grade.mk "S001" "MTH101" 10 20;
                      Grade.mk "S002" "MTH101" 90 90 ])
                 [])
              "S002" eq_refl)
    as ((st & Hst & Hreport) & _ & _).
  simpl data in Hreport, Hst.
  rewrite Hreport.
  injection Hst as <-.
  reflexivity.
Defined.

(* ------------------------------------------------------------------ *)
(** ** C8: schema creation and seeding *)

Lemma insert_seed_grades (st : list Student.t) (co : list Course.t) :
  insert_grades st co seed_grades [] =
  if seed_parents_present st co then Some seed_grades else None.
Proof.
  unfold seed_parents_present, seed_grades.
  cbn [insert_grades forallb existsb Grade.roll_no Grade.course_code app].
  destruct (existsb (student_is "S001") st), (existsb (student_is "S002") st),
    (existsb (student_is "S003") st), (existsb (course_is "MTH101") co),
    (existsb (course_is "SCI101") co), (existsb (course_is "ENG101") co);
    reflexivity.
Qed.

(** The four steps of [db_init_and_seed], one by one. *)
Lemma create_tables_step (st : Database) :
  exec_sql st CreateTables =
  (true, mkDatabase true (students st) (courses st) (grades st)).
Proof. reflexivity. Qed.

Lemma seed_students_step (s : list Student.t) (c : list Course.t) (g : list Grade.t) :
  (if table_empty (mkDatabase true s c g) Students
   then exec_sql (mkDatabase true s c g) (InsertStudents seed_students)
   else (true, mkDatabase true s c g))
  = (true, mkDatabase true (seeded_if_empty seed_students s) c g).
Proof. destruct s; reflexivity. Qed.

Lemma seed_courses_step (s : list Student.t) (c : list Course.t) (g : list Grade.t) :
  (if table_empty (mkDatabase true s c g) Courses
   then exec_sql (mkDatabase true s c g) (InsertCourses seed_courses)
   else (true, mkDatabase true s c g))
  = (true, mkDatabase true s (seeded_if_empty seed_courses c) g).
Proof. destruct c; reflexivity. Qed.

Lemma seed_grades_step (s : list Student.t) (c : list Course.t) (g : list Grade.t) :
  (if table_empty (mkDatabase true s c g) Grades
   then exec_sql (mkDatabase true s c g) (InsertGrades seed_grades)
   else (true, mkDatabase true s c g))
  = match g with
    | [] =>
        if seed_parents_present s c
        then (true, mkDatabase true s c seed_grades)
        else (false, mkDatabase true s c [])
    | _ :: _ => (true, mkDatabase true s c g)
    end.
Proof.
  destruct g as [|g0 g]; [|reflexivity].
  unfold table_empty, exec_sql, sqlite3_exec, sqlite3_prepare_v2, sqlite3_step.
  cbn [has_tables students courses grades].
  rewrite insert_seed_grades.
  destruct (seed_parents_present s c); reflexivity.
Qed.

(** [db_init_and_seed] in closed form. *)
Lemma db_init_and_seed_unfold (st : Database) :
  db_init_and_seed st =
  match grades st with
  | [] =>
      if seed_parents_present (seeded_if_empty seed_students (students st))
           (seeded_if_empty seed_courses (courses st))
      then
        (true,
         mkDatabase true (seeded_if_empty seed_students (students st))
           (seeded_if_empty seed_courses (courses st)) seed_grades)
      else
        (false,
         mkDatabase true (seeded_if_empty seed_students (students st))
           (seeded_if_empty seed_courses (courses st)) [])
  | _ :: _ =>
      (true,
       mkDatabase true (seeded_if_empty seed_students (students st))
         (seeded_if_empty seed_courses (courses st)) (grades st))
  end.
Proof.
  unfold db_init_and_seed.
  rewrite create_tables_step. cbv beta iota. cbn [negb].
  rewrite seed_students_step. cbv beta iota. cbn [negb].
  rewrite seed_courses_step. cbv beta iota. cbn [negb].
  rewrite seed_grades_step.
  destruct (grades st) as [|g0 g]; [|reflexivity].
  destruct (seed_parents_present _ _); reflexivity.
Qed.

Lemma seeded_if_empty_fixed {A : Type} (seed tbl : list A) :
  seed <> [] ->
  seeded_if_empty seed (seeded_if_empty seed tbl) = seeded_if_empty seed tbl.
Proof.
  intros Hseed. destruct tbl as [|x tbl]; simpl; [|reflexivity].
  destruct seed; [contradiction | reflexivity].
Qed.

(** An empty table is not always seeded when the other tables hold rows.
    With S010 as the only student, the seed
    courses and no enrollment, the grades table is empty, yet
    [db_init_and_seed] inserts nothing into it: the seed enrollments refer
    to S001, S002 and S003, the INSERT is refused by the foreign key, and
    the call returns false.  The menu leads to that state: add S010, then
    delete S001, S002 and S003. *)
Lemma empty_grades_not_seeded :
  grades db_without_seed_students = []
  /\ db_init_and_seed db_without_seed_students = (false, db_without_seed_students)
  /\ db (run_all
           [ AddStudent (Student.mk "S010" "Ava Lee" "1 Test Rd" "021-000");
             RemoveStudent "S001"; RemoveStudent "S002"; RemoveStudent "S003" ]
           seeded_world)
     = db_without_seed_students.
Proof. split; [|split]; reflexivity. Qed.

(** Where [db_init_and_seed] succeeds it is idempotent: run again on a
    store it has initialised successfully, it succeeds and leaves the store
    unchanged.  It inserts the seed set (3 students, 3 courses, 4
    enrollments) only into a table that is empty at the time of the call:
    a table that holds rows keeps exactly its rows.  The decision is taken
    table by table: an empty students table and an empty courses table are
    seeded whatever the other tables hold, and an empty grades table is
    seeded when the students and courses the seed enrollments refer to are
    present after the two preceding steps. *)
Theorem init_and_seed_idempotent (st : Database) :
  (fst (db_init_and_seed st) = true ->
   db_init_and_seed (snd (db_init_and_seed st))
   = (true, snd (db_init_and_seed st)))
  /\ (students st <> [] -> students (snd (db_init_and_seed st)) = students st)
  /\ (courses st <> [] -> courses (snd (db_init_and_seed st)) = courses st)
  /\ (grades st <> [] -> grades (snd (db_init_and_seed st)) = grades st)
  /\ (students st = [] -> students (snd (db_init_and_seed st)) = seed_students)
  /\ (courses st = [] -> courses (snd (db_init_and_seed st)) = seed_courses)
  /\ (grades st = [] ->
      seed_parents_present (students (snd (db_init_and_seed st)))
        (courses (snd (db_init_and_seed st))) = true ->
      db_init_and_seed st
      = (true,
         mkDatabase true (students (snd (db_init_and_seed st)))
           (courses (snd (db_init_and_seed st))) seed_grades))
  /\ List.length seed_students = 3
  /\ List.length seed_courses = 3
  /\ List.length seed_grades = 4.
Proof.
  assert (Hst : students (snd (db_init_and_seed st))
                = seeded_if_empty seed_students (students st)).
  { rewrite db_init_and_seed_unfold.
    destruct (grades st); [destruct (seed_parents_present _ _)|]; reflexivity. }
  assert (Hco : courses (snd (db_init_and_seed st))
                = seeded_if_empty seed_courses (courses st)).
  { rewrite db_init_and_seed_unfold.
    destruct (grades st); [destruct (seed_parents_present _ _)|]; reflexivity. }
  split; [|split; [|split; [|split; [|split; [|split; [|split]]]]]].
  - rewrite (db_init_and_seed_unfold st).
    destruct (grades st) as [|g0 g] eqn:Hg.
    + destruct (seed_parents_present _ _) eqn:Hp; [|discriminate].
      intros _. cbn [snd]. rewrite db_init_and_seed_unfold.
      cbn [students courses grades seed_grades].
      rewrite !seeded_if_empty_fixed by discriminate.
      reflexivity.
    + intros _. cbn [snd]. rewrite db_init_and_seed_unfold.
      cbn [students courses grades].
      rewrite !seeded_if_empty_fixed by discriminate.
      reflexivity.
  - intros Hne. rewrite Hst. destruct (students st); [contradiction | reflexivity].
  - intros Hne. rewrite Hco. destruct (courses st); [contradiction | reflexivity].
  - intros Hne. rewrite db_init_and_seed_unfold.
    destruct (grades st); [contradiction | reflexivity].
  - intros He. rewrite Hst, He. reflexivity.
  - intros He. rewrite Hco, He. reflexivity.
  - intros He. rewrite Hst, Hco. intros Hp.
    rewrite db_init_and_seed_unfold, He, Hp. reflexivity.
  - repeat split.
Qed.

(** The theorem on the first start: the empty file is seeded in full, and
    the second start leaves it as it is. *)
Lemma init_and_seed_idempotent_witness :
  db_init_and_seed empty_db = (true, seeded_db)
  /\ db_init_and_seed seeded_db = (true, seeded_db).
Proof.
  split; [reflexivity|].
  exact (proj1 (init_and_seed_idempotent empty_db) eq_refl).
Defined.

(** C8: [db_init_and_seed] fails where the claim, and the comment above it
    in [db.cpp] ("Safe to call on every startup"), say that it succeeds.  In
    a first run of [main], course MTH101 is deleted and then the enrollments
    (S001, SCI101) and (S002, ENG101): three entries of the menu, every value
    of which passes its validator.  [main] returns 0 and leaves a database
    with the seed students, two courses and no enrollment.  There the grades
    table is empty, yet [db_init_and_seed] does not seed it: the seed
    enrollments refer to MTH101, the INSERT is refused by the foreign key, and
    the call returns false and leaves the database as it is.  So [main]
    returns 1 on the next start and on every later one, whatever is typed. *)
Theorem start_fails_after_deletions :
  main stod_whole empty_db
    (typed [ "11"; "MTH101"; "y";
             "12"; "S001"; "SCI101"; "y";
             "12"; "S002"; "ENG101"; "y";
             "0" ])
  = Some (Returned 0 db_without_enrollments)
  /\ forallb validated
       [ RemoveCourse "MTH101"; RemoveEnrollment "S001" "SCI101";
         RemoveEnrollment "S002" "ENG101" ] = true
  /\ db (run_all
           [ RemoveCourse "MTH101"; RemoveEnrollment "S001" "SCI101";
             RemoveEnrollment "S002" "ENG101" ]
           seeded_world)
     = db_without_enrollments
  /\ grades db_without_enrollments = []
  /\ db_init_and_seed db_without_enrollments = (false, db_without_enrollments)
  /\ (forall stod cin,
         main stod db_without_enrollments cin
         = Some (Returned 1 db_without_enrollments)).
Proof. repeat split; reflexivity. Qed.

(* ================================================================== *)
(** * Beyond the claims: invariants, agreement of the two layers, sessions *)

(* ------------------------------------------------------------------ *)
(** ** Keys and the invariants of the data model *)

Lemma student_known_iff (roll : string) (l : list Student.t) :
  existsb (student_is roll) l = true <-> In roll (map Student.roll_no l).
Proof.
  rewrite existsb_exists, in_map_iff. unfold student_is.
  split; intros (x & H1 & H2).
  - exists x. split; [apply String.eqb_eq; exact H2 | exact H1].
  - exists x. split; [exact H2 | apply String.eqb_eq; exact H1].
Qed.

Lemma course_known_iff (code : string) (l : list Course.t) :
  existsb (course_is code) l = true <-> In code (map Course.code l).
Proof.
  rewrite existsb_exists, in_map_iff. unfold course_is.
  split; intros (x & H1 & H2).
  - exists x. split; [apply String.eqb_eq; exact H2 | exact H1].
  - exists x. split; [exact H2 | apply String.eqb_eq; exact H1].
Qed.

Lemma grade_is_key (roll code : string) (g : Grade.t) :
  grade_is roll code g = true <-> grade_key g = (roll, code).
Proof.
  unfold grade_is, grade_key. rewrite andb_true_iff, !String.eqb_eq.
  split; [intros [-> ->]; reflexivity | intros H; injection H; auto].
Qed.

Lemma grade_known_iff (roll code : string) (l : list Grade.t) :
  existsb (grade_is roll code) l = true <-> In (roll, code) (map grade_key l).
Proof.
  rewrite existsb_exists, in_map_iff.
  split; intros (x & H1 & H2).
  - exists x. split; [apply grade_is_key; exact H2 | exact H1].
  - exists x. split; [exact H2 | apply grade_is_key; exact H1].
Qed.

Lemma key_eqb_eq (a b : string * string) : key_eqb a b = true <-> a = b.
Proof.
  destruct a as [a1 a2], b as [b1 b2]. unfold key_eqb. simpl.
  rewrite andb_true_iff, !String.eqb_eq.
  split; [intros [-> ->]; reflexivity | intros H; injection H; auto].
Qed.

Lemma distinct_NoDup {K : Type} (eqb : K -> K -> bool) (ks : list K) :
  (forall a b, eqb a b = true <-> a = b) ->
  distinct eqb ks = true <-> NoDup ks.
Proof.
  intros Heqb. induction ks as [|k ks IH]; simpl.
  - split; [constructor | reflexivity].
  - rewrite andb_true_iff, negb_true_iff, IH, NoDup_cons_iff.
    assert (Hin : existsb (eqb k) ks = false <-> ~ In k ks).
    { rewrite <- not_true_iff_false, existsb_exists.
      split; intros H Hc; apply H.
      - exists k. split; [exact Hc | apply Heqb; reflexivity].
      - destruct Hc as (x & Hx & Hk). apply Heqb in Hk. subst x. exact Hx. }
    rewrite Hin. reflexivity.
Qed.

(** [tables_ok], read as propositions. *)
Lemma tables_ok_iff (s : list Student.t) (c : list Course.t) (g : list Grade.t) :
  tables_ok s c g = true <->
  NoDup (map Student.roll_no s)
  /\ NoDup (map Course.code c)
  /\ NoDup (map grade_key g)
  /\ (forall x, In x g ->
        In (Grade.roll_no x) (map Student.roll_no s)
        /\ In (Grade.course_code x) (map Course.code c)).
Proof.
  unfold tables_ok. rewrite !andb_true_iff.
  rewrite !(distinct_NoDup String.eqb) by apply String.eqb_eq.
  rewrite (distinct_NoDup key_eqb) by apply key_eqb_eq.
  rewrite forallb_forall. unfold parents_present.
  split.
  - intros [[[H1 H2] H3] H4]. repeat split; try assumption.
    + apply student_known_iff. specialize (H4 x H). apply andb_true_iff in H4. tauto.
    + apply course_known_iff. specialize (H4 x H). apply andb_true_iff in H4. tauto.
  - intros (H1 & H2 & H3 & H4). repeat split; try assumption.
    intros x Hx. destruct (H4 x Hx) as [Ha Hb].
    apply andb_true_iff. split;
      [apply student_known_iff; exact Ha | apply course_known_iff; exact Hb].
Qed.

Lemma NoDup_snoc {K : Type} (ks : list K) (k : K) :
  NoDup ks -> ~ In k ks -> NoDup (ks ++ [k]).
Proof.
  intros Hnd Hk. apply NoDup_app; [exact Hnd | repeat constructor; intros [] |].
  intros x Hx [<-|[]]. exact (Hk Hx).
Qed.

Lemma NoDup_map_filter {A K : Type} (key : A -> K) (p : A -> bool) (l : list A) :
  NoDup (map key l) -> NoDup (map key (filter p l)).
Proof.
  induction l as [|x l IH]; simpl; [auto|].
  rewrite NoDup_cons_iff. intros [Hx Hl].
  destruct (p x); simpl; [|auto].
  apply NoDup_cons; [|auto].
  intros Hin. apply Hx. apply in_map_iff in Hin. destruct Hin as (y & Hy & Hin).
  apply filter_In in Hin. apply in_map_iff. exists y. tauto.
Qed.

(** Writing through an iterator with a function that keeps the key keeps
    the keys of the vector. *)
Lemma assign_at_keys {A K : Type} (key : A -> K) (f : A -> A) (it : nat) (l : list A) :
  (forall x, key (f x) = key x) ->
  map key (assign_at it f l) = map key l.
Proof.
  intros Hf. revert it. induction l as [|x l IH]; intros it; simpl.
  - destruct it; reflexivity.
  - destruct it; simpl; [rewrite Hf | rewrite IH]; reflexivity.
Qed.

Lemma replace_first_keys {A K : Type} (key : A -> K) (p : A -> bool) (v : A) (l : list A) :
  (forall x, p x = true -> key v = key x) ->
  map key (snd (replace_first p v l)) = map key l.
Proof.
  intros Hp. induction l as [|x l IH]; simpl; [reflexivity|].
  destruct (p x) eqn:Hx; simpl.
  - rewrite (Hp x Hx). reflexivity.
  - destruct (replace_first p v l) as [ok l']. simpl in *. rewrite IH. reflexivity.
Qed.

Lemma replace_first_found {A : Type} (p : A -> bool) (v : A) (l : list A) :
  fst (replace_first p v l) = existsb p l.
Proof.
  induction l as [|x l IH]; simpl; [reflexivity|].
  destruct (p x); simpl; [reflexivity|].
  destruct (replace_first p v l) as [ok l']. exact IH.
Qed.

Lemma filter_parents_kept {A : Type} (p : A -> bool) (key : A -> string)
    (l : list A) (k : string) :
  In k (map key l) ->
  (forall x, In x l -> key x = k -> p x = true) ->
  In k (map key (filter p l)).
Proof.
  intros Hin Hp. apply in_map_iff in Hin. destruct Hin as (x & Hk & Hx).
  apply in_map_iff. exists x. split; [exact Hk|].
  apply filter_In. split; [exact Hx | apply (Hp x Hx Hk)].
Qed.

Lemma add_student_keeps_ok (d : DataStore) (s : Student.t) :
  cache_ok d = true -> cache_ok (snd (add_student d s)) = true.
Proof.
  intros Hok. pose proof Hok as Hp. unfold cache_ok in Hp.
  apply tables_ok_iff in Hp. destruct Hp as (Hs & Hc & Hg & Hfk).
  unfold add_student. rewrite student_found_iff.
  destruct (exists_student d (Student.roll_no s)) eqn:He; [exact Hok|].
  unfold cache_ok, with_students, push_back. simpl.
  apply tables_ok_iff. rewrite map_app. simpl.
  repeat split; try assumption.
  + apply NoDup_snoc; [exact Hs|].
    intros Hin. apply student_known_iff in Hin.
    change (existsb (student_is (Student.roll_no s)) (all_students d))
      with (exists_student d (Student.roll_no s)) in Hin.
    congruence.
  + apply in_or_app. left. apply (Hfk x H).
  + apply (Hfk x H).
Qed.

Lemma add_course_keeps_ok (d : DataStore) (c : Course.t) :
  cache_ok d = true -> cache_ok (snd (add_course d c)) = true.
Proof.
  intros Hok. pose proof Hok as Hp. unfold cache_ok in Hp.
  apply tables_ok_iff in Hp. destruct Hp as (Hs & Hc & Hg & Hfk).
  unfold add_course. rewrite course_found_iff.
  destruct (exists_course d (Course.code c)) eqn:He; [exact Hok|].
  unfold cache_ok, with_courses, push_back. simpl.
  apply tables_ok_iff. rewrite map_app. simpl.
  repeat split; try assumption.
  + apply NoDup_snoc; [exact Hc|].
    intros Hin. apply course_known_iff in Hin.
    change (existsb (course_is (Course.code c)) (all_courses d))
      with (exists_course d (Course.code c)) in Hin.
    congruence.
  + apply (Hfk x H).
  + apply in_or_app. left. apply (Hfk x H).
Qed.

Lemma enroll_student_keeps_ok (d : DataStore) (roll code : string) :
  cache_ok d = true -> cache_ok (snd (enroll_student d roll code)) = true.
Proof.
  intros Hok. pose proof Hok as Hp. unfold cache_ok in Hp.
  apply tables_ok_iff in Hp. destruct Hp as (Hs & Hc & Hg & Hfk).
  unfold enroll_student.
  rewrite student_found_iff, course_found_iff, grade_found_iff.
  destruct (exists_student d roll) eqn:Est; simpl; [|exact Hok].
  destruct (exists_course d code) eqn:Eco; simpl; [|exact Hok].
  destruct (already_enrolled d roll code) eqn:Een; [exact Hok|].
  unfold cache_ok, with_grades, push_back. simpl.
  apply tables_ok_iff. rewrite map_app. simpl.
  repeat split; try assumption.
  + apply NoDup_snoc; [exact Hg|].
    intros Hin. apply (grade_known_iff roll code) in Hin.
    change (existsb (grade_is roll code) (all_grades d))
      with (already_enrolled d roll code) in Hin.
    congruence.
  + apply in_app_or in H. destruct H as [H|[<-|[]]]; [apply (Hfk x H)|].
    simpl. apply student_known_iff. exact Est.
  + apply in_app_or in H. destruct H as [H|[<-|[]]]; [apply (Hfk x H)|].
    simpl. apply course_known_iff. exact Eco.
Qed.

Lemma enter_marks_keeps_ok (d : DataStore) (roll code : string) (internal final : float) :
  cache_ok d = true -> cache_ok (snd (enter_marks d roll code internal final)) = true.
Proof.
  intros Hok. pose proof Hok as Hp. unfold cache_ok in Hp.
  apply tables_ok_iff in Hp. destruct Hp as (Hs & Hc & Hg & Hfk).
  unfold enter_marks.
  destruct (marks_rejected internal final); [exact Hok|].
  destruct (negb _); [exact Hok|].
  unfold cache_ok, with_grades. simpl.
  apply tables_ok_iff.
  set (f := fun g => Grade.mk (Grade.roll_no g) (Grade.course_code g) internal final).
  set (it := find_if (grade_is roll code) (all_grades d)).
  repeat split; try assumption.
  + rewrite (assign_at_keys grade_key f); [exact Hg | reflexivity].
  + assert (Hin : In (Grade.roll_no x) (map Grade.roll_no (assign_at it f (all_grades d))))
      by (apply in_map; exact H).
    rewrite (assign_at_keys Grade.roll_no f) in Hin by reflexivity.
    apply in_map_iff in Hin. destruct Hin as (y & <- & Hy). apply (Hfk y Hy).
  + assert (Hin : In (Grade.course_code x) (map Grade.course_code (assign_at it f (all_grades d))))
      by (apply in_map; exact H).
    rewrite (assign_at_keys Grade.course_code f) in Hin by reflexivity.
    apply in_map_iff in Hin. destruct Hin as (y & <- & Hy). apply (Hfk y Hy).
Qed.

Lemma apply_student_update_keeps_ok (d : DataStore) (s : Student.t) :
  cache_ok d = true -> cache_ok (snd (apply_student_update d s)) = true.
Proof.
  intros Hok. pose proof Hok as Hp. unfold cache_ok in Hp.
  apply tables_ok_iff in Hp. destruct Hp as (Hs & Hc & Hg & Hfk).
  unfold apply_student_update.
  pose proof (replace_first_keys Student.roll_no (student_is (Student.roll_no s)) s
                (all_students d)) as Hk.
  destruct (replace_first (student_is (Student.roll_no s)) s (all_students d))
    as [ok v]. simpl in *.
  unfold cache_ok, with_students. simpl. apply tables_ok_iff.
  rewrite Hk.
  + repeat split; try assumption; apply (Hfk x H).
  + intros x Hx. unfold student_is in Hx. apply String.eqb_eq in Hx. congruence.
Qed.

Lemma apply_course_update_keeps_ok (d : DataStore) (c : Course.t) :
  cache_ok d = true -> cache_ok (snd (apply_course_update d c)) = true.
Proof.
  intros Hok. pose proof Hok as Hp. unfold cache_ok in Hp.
  apply tables_ok_iff in Hp. destruct Hp as (Hs & Hc & Hg & Hfk).
  unfold apply_course_update.
  pose proof (replace_first_keys Course.code (course_is (Course.code c)) c
                (all_courses d)) as Hk.
  destruct (replace_first (course_is (Course.code c)) c (all_courses d))
    as [ok v]. simpl in *.
  unfold cache_ok, with_courses. simpl. apply tables_ok_iff.
  rewrite Hk.
  + repeat split; try assumption; apply (Hfk x H).
  + intros x Hx. unfold course_is in Hx. apply String.eqb_eq in Hx. congruence.
Qed.

Lemma remove_student_keeps_ok (d : DataStore) (roll : string) :
  cache_ok d = true -> cache_ok (snd (remove_student d roll)) = true.
Proof.
  intros Hok. pose proof Hok as Hp. unfold cache_ok in Hp.
  apply tables_ok_iff in Hp. destruct Hp as (Hs & Hc & Hg & Hfk).
  unfold remove_student, cache_ok, with_students, with_grades. simpl.
  rewrite !erase_remove_if_filter. apply tables_ok_iff.
  repeat split.
  + apply NoDup_map_filter. exact Hs.
  + exact Hc.
  + apply NoDup_map_filter. exact Hg.
  + apply filter_In in H. destruct H as [Hx Hne].
    apply filter_parents_kept; [apply (Hfk x Hx)|].
    intros y _ Hy. unfold student_is, grade_of_student in *. rewrite Hy. exact Hne.
  + apply filter_In in H. apply (Hfk x (proj1 H)).
Qed.

Lemma remove_course_keeps_ok (d : DataStore) (code : string) :
  cache_ok d = true -> cache_ok (snd (remove_course d code)) = true.
Proof.
  intros Hok. pose proof Hok as Hp. unfold cache_ok in Hp.
  apply tables_ok_iff in Hp. destruct Hp as (Hs & Hc & Hg & Hfk).
  unfold remove_course, cache_ok, with_courses, with_grades. simpl.
  rewrite !erase_remove_if_filter. apply tables_ok_iff.
  repeat split.
  + exact Hs.
  + apply NoDup_map_filter. exact Hc.
  + apply NoDup_map_filter. exact Hg.
  + apply filter_In in H. apply (Hfk x (proj1 H)).
  + apply filter_In in H. destruct H as [Hx Hne].
    apply filter_parents_kept; [apply (Hfk x Hx)|].
    intros y _ Hy. unfold course_is, grade_of_course in *. rewrite Hy. exact Hne.
Qed.

Lemma remove_enrollment_keeps_ok (d : DataStore) (roll code : string) :
  cache_ok d = true -> cache_ok (snd (remove_enrollment d roll code)) = true.
Proof.
  intros Hok. pose proof Hok as Hp. unfold cache_ok in Hp.
  apply tables_ok_iff in Hp. destruct Hp as (Hs & Hc & Hg & Hfk).
  unfold remove_enrollment, cache_ok, with_grades. simpl.
  rewrite erase_remove_if_filter. apply tables_ok_iff.
  repeat split; try assumption.
  + apply NoDup_map_filter. exact Hg.
  + apply filter_In in H. apply (Hfk x (proj1 H)).
  + apply filter_In in H. apply (Hfk x (proj1 H)).
Qed.

(* ------------------------------------------------------------------ *)
(** ** The database and the cache decide and write alike *)

Lemma map_unmatched {A : Type} (p : A -> bool) (f : A -> A) (l : list A) :
  existsb p l = false -> map (fun x => if p x then f x else x) l = l.
Proof.
  induction l as [|x l IH]; simpl; [reflexivity|].
  destruct (p x); simpl; [discriminate|].
  intros H. rewrite IH; [reflexivity | exact H].
Qed.

Lemma filter_unmatched {A : Type} (p : A -> bool) (l : list A) :
  existsb p l = false -> filter (fun x => negb (p x)) l = l.
Proof.
  intros H. rewrite <- erase_remove_if_filter. apply erase_remove_if_none. exact H.
Qed.

(** With unique keys, a key selects at most one element. *)
Lemma unique_key_rest {A K : Type} (key : A -> K) (p : A -> bool) (k : K)
    (x : A) (l : list A) :
  (forall y, p y = true <-> key y = k) ->
  NoDup (map key (x :: l)) -> p x = true -> existsb p l = false.
Proof.
  intros Hp Hnd Hx. simpl in Hnd. apply NoDup_cons_iff in Hnd.
  destruct Hnd as [Hnot _].
  apply not_true_iff_false. intros He. apply existsb_exists in He.
  destruct He as (y & Hy & Hpy). apply Hnot.
  apply Hp in Hx. apply Hp in Hpy. rewrite Hx, <- Hpy. apply in_map. exact Hy.
Qed.

(** With unique keys, writing through the iterator of [find_if] is the
    UPDATE of every row with the key. *)
Lemma assign_at_is_update {A K : Type} (key : A -> K) (p : A -> bool) (k : K)
    (f : A -> A) (l : list A) :
  (forall y, p y = true <-> key y = k) ->
  NoDup (map key l) ->
  assign_at (find_if p l) f l = map (fun x => if p x then f x else x) l.
Proof.
  intros Hp. induction l as [|x l IH]; intros Hnd; simpl; [reflexivity|].
  destruct (p x) eqn:Hx; simpl.
  - rewrite (map_unmatched p f l); [reflexivity|].
    apply (unique_key_rest key p k x l Hp Hnd Hx).
  - rewrite IH; [reflexivity|]. simpl in Hnd. apply NoDup_cons_iff in Hnd. tauto.
Qed.

(** With unique keys, [replace_first] is the UPDATE of every row with the
    key, provided the new value is what the UPDATE makes of the row. *)
Lemma replace_first_is_update {A K : Type} (key : A -> K) (p : A -> bool) (k : K)
    (v : A) (f : A -> A) (l : list A) :
  (forall y, p y = true <-> key y = k) ->
  (forall y, p y = true -> f y = v) ->
  NoDup (map key l) ->
  snd (replace_first p v l) = map (fun x => if p x then f x else x) l.
Proof.
  intros Hp Hf. induction l as [|x l IH]; intros Hnd; simpl; [reflexivity|].
  destruct (p x) eqn:Hx; simpl.
  - rewrite (map_unmatched p f l), (Hf x Hx); [reflexivity|].
    apply (unique_key_rest key p k x l Hp Hnd Hx).
  - destruct (replace_first p v l) as [ok l'] eqn:Hr. simpl in *.
    rewrite IH; [reflexivity|]. apply NoDup_cons_iff in Hnd. tauto.
Qed.

Lemma student_is_key (roll : string) (x : Student.t) :
  student_is roll x = true <-> Student.roll_no x = roll.
Proof. unfold student_is. apply String.eqb_eq. Qed.

Lemma course_is_key (code : string) (x : Course.t) :
  course_is code x = true <-> Course.code x = code.
Proof. unfold course_is. apply String.eqb_eq. Qed.


Lemma consistent_iff (w : World) :
  consistent w <-> cache_ok (data w) = true /\ db w = db_of (data w).
Proof.
  unfold consistent, db_ok, cache_ok, db_of. split.
  - intros [Hok Hm]. destruct (mirrors_inv _ _ Hm) as [Ht Hd].
    rewrite Hd. simpl. rewrite Ht in Hok. simpl in Hok. split; [exact Hok|].
    destruct (db w) as [t s c g]. simpl in *. subst t. reflexivity.
  - intros [Hok Hdb]. rewrite Hdb. simpl. split; [exact Hok|].
    unfold mirrors. rewrite db_load_all_reads. simpl.
    destruct (data w); reflexivity.
Qed.

Lemma with_same_tables (d : DataStore) :
  mkDataStore (all_students d) (all_courses d) (all_grades d) = d.
Proof. destruct d; reflexivity. Qed.

(** What a REAL column stores compares as the double that was bound: only
    the sign of a zero is lost. *)
Lemma stored_real_compare (m : float) (y : SpecFloat.spec_float) :
  SpecFloat.SFcompare (Prim2SF (stored_real m)) y
  = SpecFloat.SFcompare (Prim2SF m) y
  /\ SpecFloat.SFcompare y (Prim2SF (stored_real m))
     = SpecFloat.SFcompare y (Prim2SF m).
Proof.
  unfold stored_real. destruct (m =? 0)%float eqn:E; [|auto].
  rewrite FloatAxioms.eqb_spec in E. unfold SpecFloat.SFeqb in E.
  change (Prim2SF 0) with (SpecFloat.S754_zero false) in *.
  destruct (Prim2SF m) as [sm|sm| |sm mm em]; simpl in E.
  - destruct y; auto.
  - destruct sm; discriminate.
  - discriminate.
  - destruct sm; discriminate.
Qed.

Lemma stored_real_ltb (m y : float) :
  (stored_real m <? y)%float = (m <? y)%float
  /\ (y <? stored_real m)%float = (y <? m)%float.
Proof.
  rewrite !FloatAxioms.ltb_spec. unfold SpecFloat.SFltb.
  destruct (stored_real_compare m (Prim2SF y)) as [-> ->]. auto.
Qed.

Lemma stored_real_nan (m : float) :
  PrimFloat.is_nan (stored_real m) = PrimFloat.is_nan m.
Proof.
  unfold stored_real. destruct (m =? 0)%float eqn:E; [|reflexivity].
  unfold PrimFloat.is_nan.
  assert (Hm : (m =? m)%float = true).
  { rewrite FloatAxioms.eqb_spec in E. rewrite FloatAxioms.eqb_spec.
    unfold SpecFloat.SFeqb in *.
    change (Prim2SF 0) with (SpecFloat.S754_zero false) in E.
    destruct (Prim2SF m) as [sm|sm| |sm mm em]; simpl in *;
      try discriminate; try reflexivity; destruct sm; discriminate. }
  rewrite Hm. reflexivity.
Qed.

Lemma stored_real_twice (m : float) :
  stored_real (stored_real m) = stored_real m.
Proof.
  unfold stored_real. destruct (m =? 0)%float eqn:E; [reflexivity|].
  rewrite E. reflexivity.
Qed.

Lemma marks_rejected_stored (im fm : float) :
  marks_rejected (stored_real im) (stored_real fm) = marks_rejected im fm.
Proof.
  unfold marks_rejected.
  destruct (stored_real_ltb im 0) as [-> _].
  destruct (stored_real_ltb im 100) as [_ ->].
  destruct (stored_real_ltb fm 0) as [-> _].
  destruct (stored_real_ltb fm 100) as [_ ->]. reflexivity.
Qed.

(** On the tables of a cache, each function of [db.cpp] does what its cache
    helper does with the values as they are bound. *)
Lemma sim_add_student (d : DataStore) (s : Student.t) :
  exists_student d (Student.roll_no s) = false ->
  db_add_student (db_of d) s
  = (true, db_of (snd (add_student d (bound_student s))))
  /\ fst (add_student d s) = true.
Proof.
  intros He. unfold add_student. cbn [bound_student Student.roll_no].
  rewrite student_found_iff, He.
  unfold db_add_student, run_insert, sqlite3_prepare_v2, sqlite3_step, db_of.
  cbn [has_tables students insert_students bound_student Student.roll_no].
  change (existsb (student_is (Student.roll_no s)) (all_students d))
    with (exists_student d (Student.roll_no s)).
  rewrite He. split; reflexivity.
Qed.

Lemma sim_add_course (d : DataStore) (c : Course.t) :
  exists_course d (Course.code c) = false ->
  db_add_course (db_of d) c
  = (true, db_of (snd (add_course d (bound_course c))))
  /\ fst (add_course d c) = true.
Proof.
  intros He. unfold add_course. cbn [bound_course Course.code].
  rewrite course_found_iff, He.
  unfold db_add_course, run_insert, sqlite3_prepare_v2, sqlite3_step, db_of.
  cbn [has_tables courses insert_courses bound_course Course.code].
  change (existsb (course_is (Course.code c)) (all_courses d))
    with (exists_course d (Course.code c)).
  rewrite He. split; reflexivity.
Qed.

Lemma sim_enroll (d : DataStore) (roll code : string) :
  exists_student d roll = true ->
  exists_course d code = true ->
  already_enrolled d roll code = false ->
  db_enroll (db_of d) roll code = (true, db_of (snd (enroll_student d roll code)))
  /\ fst (enroll_student d roll code) = true.
Proof.
  intros Hs Hc He. unfold enroll_student.
  rewrite student_found_iff, course_found_iff, grade_found_iff, Hs, Hc, He.
  unfold db_enroll, run_insert, sqlite3_prepare_v2, sqlite3_step, db_of.
  cbn [has_tables students courses grades insert_grades Grade.roll_no
       Grade.course_code negb].
  change (existsb (grade_is roll code) (all_grades d))
    with (already_enrolled d roll code).
  change (existsb (student_is roll) (all_students d)) with (exists_student d roll).
  change (existsb (course_is code) (all_courses d)) with (exists_course d code).
  rewrite Hs, Hc, He. split; reflexivity.
Qed.

Lemma sim_enter_marks (d : DataStore) (roll code : string) (im fm : float) :
  cache_ok d = true ->
  already_enrolled d roll code = true ->
  marks_rejected im fm = false ->
  if PrimFloat.is_nan im || PrimFloat.is_nan fm
  then db_enter_marks (db_of d) roll code im fm = (false, db_of d)
  else
    db_enter_marks (db_of d) roll code im fm
    = (true,
       db_of (snd (enter_marks d roll code (stored_real im) (stored_real fm))))
    /\ fst (enter_marks d roll code im fm) = true.
Proof.
  intros Hok He Hm. unfold cache_ok in Hok. apply tables_ok_iff in Hok.
  destruct Hok as (_ & _ & Hg & _).
  unfold db_enter_marks, run_change, sqlite3_prepare_v2, sqlite3_step, db_of.
  cbn [has_tables grades].
  rewrite count_zero_iff_none.
  change (existsb (grade_is roll code) (all_grades d))
    with (already_enrolled d roll code).
  rewrite He. cbn [negb].
  destruct (PrimFloat.is_nan im || PrimFloat.is_nan fm); [reflexivity|].
  cbn [rc_eqb andb]. rewrite count_pos_iff_some.
  change (existsb (grade_is roll code) (all_grades d))
    with (already_enrolled d roll code).
  rewrite He.
  unfold enter_marks. rewrite marks_rejected_stored, Hm, grade_found_iff, He.
  cbn [negb snd fst].
  split; [|reflexivity].
  unfold with_grades. cbn [all_students all_courses all_grades].
  rewrite (assign_at_is_update grade_key (grade_is roll code) (roll, code));
    [reflexivity | intros y; apply grade_is_key | exact Hg].
Qed.

Lemma sim_update_student (d : DataStore) (upd : Student.t) :
  cache_ok d = true ->
  exists_student d (Student.roll_no upd) = true ->
  db_update_student (db_of d) upd
  = (true, db_of (snd (apply_student_update d (bound_student upd))))
  /\ fst (apply_student_update d upd) = true.
Proof.
  intros Hok He. unfold cache_ok in Hok. apply tables_ok_iff in Hok.
  destruct Hok as (Hs & _ & _ & _).
  unfold db_update_student, run_change, sqlite3_prepare_v2, sqlite3_step, db_of.
  cbn [has_tables students courses grades rc_eqb andb].
  rewrite count_pos_iff_some.
  change (existsb (student_is (Student.roll_no upd)) (all_students d))
    with (exists_student d (Student.roll_no upd)).
  rewrite He.
  unfold apply_student_update. cbn [bound_student Student.roll_no].
  pose proof (replace_first_found (student_is (Student.roll_no upd)) upd
                (all_students d)) as Hfound.
  pose proof (replace_first_is_update Student.roll_no
                (student_is (Student.roll_no upd)) (Student.roll_no upd)
                (bound_student upd)
                (fun s => Student.mk (Student.roll_no s)
                            (bind_text (Student.name upd))
                            (bind_text (Student.address upd))
                            (bind_text (Student.contact upd)))
                (all_students d)) as Hupd.
  fold (bound_student upd).
  destruct (replace_first (student_is (Student.roll_no upd)) (bound_student upd)
              (all_students d)) as [ok v].
  cbn [fst snd] in *. unfold with_students. cbn [all_students all_courses all_grades].
  split.
  - rewrite Hupd; [reflexivity | apply student_is_key | | exact Hs].
    intros y Hy. apply student_is_key in Hy. rewrite Hy. reflexivity.
  - destruct (replace_first (student_is (Student.roll_no upd)) upd (all_students d)).
    cbn [fst] in *. rewrite Hfound. exact He.
Qed.

Lemma sim_update_course (d : DataStore) (upd : Course.t) :
  cache_ok d = true ->
  exists_course d (Course.code upd) = true ->
  db_update_course (db_of d) upd
  = (true, db_of (snd (apply_course_update d (bound_course upd))))
  /\ fst (apply_course_update d upd) = true.
Proof.
  intros Hok He. unfold cache_ok in Hok. apply tables_ok_iff in Hok.
  destruct Hok as (_ & Hc & _ & _).
  unfold db_update_course, run_change, sqlite3_prepare_v2, sqlite3_step, db_of.
  cbn [has_tables students courses grades rc_eqb andb].
  rewrite count_pos_iff_some.
  change (existsb (course_is (Course.code upd)) (all_courses d))
    with (exists_course d (Course.code upd)).
  rewrite He.
  unfold apply_course_update. cbn [bound_course Course.code].
  pose proof (replace_first_found (course_is (Course.code upd)) upd
                (all_courses d)) as Hfound.
  pose proof (replace_first_is_update Course.code
                (course_is (Course.code upd)) (Course.code upd)
                (bound_course upd)
                (fun c => Course.mk (Course.code c)
                            (bind_text (Course.title upd))
                            (bind_text (Course.description upd))
                            (bind_text (Course.teacher upd)))
                (all_courses d)) as Hupd.
  fold (bound_course upd).
  destruct (replace_first (course_is (Course.code upd)) (bound_course upd)
              (all_courses d)) as [ok v].
  cbn [fst snd] in *. unfold with_courses. cbn [all_students all_courses all_grades].
  split.
  - rewrite Hupd; [reflexivity | apply course_is_key | | exact Hc].
    intros y Hy. apply course_is_key in Hy. rewrite Hy. reflexivity.
  - destruct (replace_first (course_is (Course.code upd)) upd (all_courses d)).
    cbn [fst] in *. rewrite Hfound. exact He.
Qed.

Lemma sim_delete_student (d : DataStore) (roll : string) :
  exists_student d roll = true ->
  db_delete_student (db_of d) roll = (true, db_of (snd (remove_student d roll)))
  /\ fst (remove_student d roll) = true.
Proof.
  intros He.
  unfold db_delete_student, run_change, sqlite3_prepare_v2, sqlite3_step, db_of.
  cbn [has_tables students courses grades].
  rewrite count_zero_iff_none.
  change (existsb (student_is roll) (all_students d)) with (exists_student d roll).
  rewrite He. cbn [negb rc_eqb andb]. rewrite count_pos_iff_some.
  change (existsb (student_is roll) (all_students d)) with (exists_student d roll).
  rewrite He.
  unfold remove_student, with_students, with_grades.
  cbn [all_students all_courses all_grades fst snd].
  rewrite size_changed_iff_existsb, !erase_remove_if_filter.
  change (existsb (student_is roll) (all_students d)) with (exists_student d roll).
  rewrite He. split; reflexivity.
Qed.

Lemma sim_delete_course (d : DataStore) (code : string) :
  exists_course d code = true ->
  db_delete_course (db_of d) code = (true, db_of (snd (remove_course d code)))
  /\ fst (remove_course d code) = true.
Proof.
  intros He.
  unfold db_delete_course, run_change, sqlite3_prepare_v2, sqlite3_step, db_of.
  cbn [has_tables students courses grades].
  rewrite count_zero_iff_none.
  change (existsb (course_is code) (all_courses d)) with (exists_course d code).
  rewrite He. cbn [negb rc_eqb andb]. rewrite count_pos_iff_some.
  change (existsb (course_is code) (all_courses d)) with (exists_course d code).
  rewrite He.
  unfold remove_course, with_courses, with_grades.
  cbn [all_students all_courses all_grades fst snd].
  rewrite size_changed_iff_existsb, !erase_remove_if_filter.
  change (existsb (course_is code) (all_courses d)) with (exists_course d code).
  rewrite He. split; reflexivity.
Qed.

Lemma sim_delete_enrollment (d : DataStore) (roll code : string) :
  already_enrolled d roll code = true ->
  db_delete_enrollment (db_of d) roll code
  = (true, db_of (snd (remove_enrollment d roll code)))
  /\ fst (remove_enrollment d roll code) = true.
Proof.
  intros He.
  unfold db_delete_enrollment, run_change, sqlite3_prepare_v2, sqlite3_step, db_of.
  cbn [has_tables students courses grades rc_eqb andb].
  rewrite count_pos_iff_some.
  change (existsb (grade_is roll code) (all_grades d))
    with (already_enrolled d roll code).
  rewrite He.
  unfold remove_enrollment, with_grades.
  cbn [all_students all_courses all_grades fst snd].
  rewrite size_changed_iff_existsb, erase_remove_if_filter.
  change (existsb (grade_is roll code) (all_grades d))
    with (already_enrolled d roll code).
  rewrite He. split; reflexivity.
Qed.

(* ------------------------------------------------------------------ *)
(** ** What the database stores of the cache *)

Lemma existsb_map_same {A : Type} (p : A -> bool) (f : A -> A) (l : list A) :
  (forall x, p (f x) = p x) -> existsb p (map f l) = existsb p l.
Proof.
  intros Hp. induction l as [|x l IH]; simpl; [reflexivity|].
  rewrite Hp, IH. reflexivity.
Qed.

Lemma find_if_map_same {A : Type} (p : A -> bool) (f : A -> A) (l : list A) :
  (forall x, p (f x) = p x) -> find_if p (map f l) = find_if p l.
Proof.
  intros Hp. induction l as [|x l IH]; simpl; [reflexivity|].
  rewrite Hp, IH. reflexivity.
Qed.

Lemma erase_remove_if_map {A : Type} (p : A -> bool) (f : A -> A) (l : list A) :
  (forall x, p (f x) = p x) ->
  erase_remove_if p (map f l) = map f (erase_remove_if p l).
Proof.
  intros Hp. induction l as [|x l IH]; simpl; [reflexivity|].
  rewrite Hp, IH. destruct (p x); reflexivity.
Qed.

Lemma assign_at_map {A : Type} (f g g' : A -> A) (it : nat) (l : list A) :
  (forall x, g' (f x) = f (g x)) ->
  assign_at it g' (map f l) = map f (assign_at it g l).
Proof.
  intros Hg. revert it. induction l as [|x l IH]; intros it; simpl.
  - destruct it; reflexivity.
  - destruct it; simpl; [rewrite Hg | rewrite IH]; reflexivity.
Qed.

Lemma replace_first_map {A : Type} (p : A -> bool) (f : A -> A) (v : A)
    (l : list A) :
  (forall x, p (f x) = p x) ->
  replace_first p (f v) (map f l)
  = (fst (replace_first p v l), map f (snd (replace_first p v l))).
Proof.
  intros Hp. induction l as [|x l IH]; simpl; [reflexivity|].
  rewrite Hp. destruct (p x); [reflexivity|].
  rewrite IH. destruct (replace_first p v l). reflexivity.
Qed.

(** The keys are stored as they are. *)
Lemma stored_keys (d : DataStore) :
  map Student.roll_no (map bound_student (all_students d))
  = map Student.roll_no (all_students d)
  /\ map Course.code (map bound_course (all_courses d))
     = map Course.code (all_courses d)
  /\ map grade_key (map stored_grade (all_grades d))
     = map grade_key (all_grades d).
Proof.
  rewrite !map_map. repeat split; apply map_ext; reflexivity.
Qed.

Lemma stored_exists (d : DataStore) (roll code : string) :
  exists_student (stored d) roll = exists_student d roll
  /\ exists_course (stored d) code = exists_course d code
  /\ already_enrolled (stored d) roll code = already_enrolled d roll code.
Proof.
  unfold exists_student, exists_course, already_enrolled, stored.
  cbn [all_students all_courses all_grades].
  repeat split; apply existsb_map_same; reflexivity.
Qed.

(** The invariants speak of keys only. *)
Lemma tables_ok_keys (s s' : list Student.t) (c c' : list Course.t)
    (g g' : list Grade.t) :
  map Student.roll_no s' = map Student.roll_no s ->
  map Course.code c' = map Course.code c ->
  map grade_key g' = map grade_key g ->
  tables_ok s c g = true -> tables_ok s' c' g' = true.
Proof.
  intros Hs Hc Hg Hok. apply tables_ok_iff in Hok.
  destruct Hok as (H1 & H2 & H3 & H4). apply tables_ok_iff.
  rewrite Hs, Hc, Hg. repeat split; try assumption.
  - assert (Hin : In (grade_key x) (map grade_key g))
      by (rewrite <- Hg; apply in_map; assumption).
    apply in_map_iff in Hin. destruct Hin as (y & Hy & Hin).
    injection Hy as Hr _. rewrite <- Hr. apply (H4 y Hin).
  - assert (Hin : In (grade_key x) (map grade_key g))
      by (rewrite <- Hg; apply in_map; assumption).
    apply in_map_iff in Hin. destruct Hin as (y & Hy & Hin).
    injection Hy as _ Hco. rewrite <- Hco. apply (H4 y Hin).
Qed.

Lemma stored_ok (d : DataStore) : cache_ok d = true -> cache_ok (stored d) = true.
Proof.
  destruct (stored_keys d) as (Hs & Hc & Hg).
  apply (tables_ok_keys _ _ _ _ _ _ Hs Hc Hg).
Qed.

(** Each cache helper, on what the database stores of the cache and with the
    values as they are bound, does what it does on the cache itself. *)
Lemma stored_add_student (d : DataStore) (s : Student.t) :
  add_student (stored d) (bound_student s)
  = (fst (add_student d s), stored (snd (add_student d s))).
Proof.
  unfold add_student, stored. cbn [all_students all_courses all_grades].
  cbn [bound_student Student.roll_no].
  rewrite !not_end_find_if, existsb_map_same by reflexivity.
  destruct (existsb _ (all_students d)); [reflexivity|].
  cbn [fst snd with_students all_students all_courses all_grades].
  unfold push_back. rewrite map_app. reflexivity.
Qed.

Lemma stored_add_course (d : DataStore) (c : Course.t) :
  add_course (stored d) (bound_course c)
  = (fst (add_course d c), stored (snd (add_course d c))).
Proof.
  unfold add_course, stored. cbn [all_students all_courses all_grades].
  cbn [bound_course Course.code].
  rewrite !not_end_find_if, existsb_map_same by reflexivity.
  destruct (existsb _ (all_courses d)); [reflexivity|].
  cbn [fst snd with_courses all_students all_courses all_grades].
  unfold push_back. rewrite map_app. reflexivity.
Qed.

Lemma stored_enroll (d : DataStore) (roll code : string) :
  enroll_student (stored d) roll code
  = (fst (enroll_student d roll code), stored (snd (enroll_student d roll code))).
Proof.
  unfold enroll_student, stored. cbn [all_students all_courses all_grades].
  rewrite !not_end_find_if, !existsb_map_same by reflexivity.
  destruct (existsb _ (all_students d)); [|reflexivity].
  destruct (existsb _ (all_courses d)); [|reflexivity].
  destruct (existsb _ (all_grades d)); [reflexivity|].
  cbn [negb fst snd with_grades all_students all_courses all_grades].
  unfold push_back. rewrite map_app. reflexivity.
Qed.

Lemma stored_enter_marks (d : DataStore) (roll code : string) (im fm : float) :
  enter_marks (stored d) roll code (stored_real im) (stored_real fm)
  = (fst (enter_marks d roll code im fm),
     stored (snd (enter_marks d roll code im fm))).
Proof.
  unfold enter_marks. rewrite marks_rejected_stored.
  destruct (marks_rejected im fm); [reflexivity|].
  unfold stored. cbn [all_students all_courses all_grades].
  rewrite !not_end_find_if, existsb_map_same by reflexivity.
  destruct (existsb _ (all_grades d)); [|reflexivity].
  cbn [negb fst snd with_grades all_students all_courses all_grades].
  rewrite find_if_map_same by reflexivity.
  rewrite (assign_at_map stored_grade
             (fun g => Grade.mk (Grade.roll_no g) (Grade.course_code g) im fm));
    reflexivity.
Qed.

Lemma stored_update_student (d : DataStore) (upd : Student.t) :
  apply_student_update (stored d) (bound_student upd)
  = (fst (apply_student_update d upd), stored (snd (apply_student_update d upd))).
Proof.
  unfold apply_student_update, stored. cbn [all_students all_courses all_grades].
  cbn [bound_student Student.roll_no].
  change (Student.mk (Student.roll_no upd) (bind_text (Student.name upd))
            (bind_text (Student.address upd)) (bind_text (Student.contact upd)))
    with (bound_student upd).
  rewrite replace_first_map by reflexivity.
  destruct (replace_first _ upd (all_students d)) as [ok v]. reflexivity.
Qed.

Lemma stored_update_course (d : DataStore) (upd : Course.t) :
  apply_course_update (stored d) (bound_course upd)
  = (fst (apply_course_update d upd), stored (snd (apply_course_update d upd))).
Proof.
  unfold apply_course_update, stored. cbn [all_students all_courses all_grades].
  cbn [bound_course Course.code].
  change (Course.mk (Course.code upd) (bind_text (Course.title upd))
            (bind_text (Course.description upd)) (bind_text (Course.teacher upd)))
    with (bound_course upd).
  rewrite replace_first_map by reflexivity.
  destruct (replace_first _ upd (all_courses d)) as [ok v]. reflexivity.
Qed.

Lemma stored_remove_student (d : DataStore) (roll : string) :
  remove_student (stored d) roll
  = (fst (remove_student d roll), stored (snd (remove_student d roll))).
Proof.
  unfold remove_student, stored, with_students, with_grades.
  cbn [fst snd all_students all_courses all_grades].
  rewrite !erase_remove_if_map by reflexivity. rewrite !length_map. reflexivity.
Qed.

Lemma stored_remove_course (d : DataStore) (code : string) :
  remove_course (stored d) code
  = (fst (remove_course d code), stored (snd (remove_course d code))).
Proof.
  unfold remove_course, stored, with_courses, with_grades.
  cbn [fst snd all_students all_courses all_grades].
  rewrite !erase_remove_if_map by reflexivity. rewrite !length_map. reflexivity.
Qed.

Lemma stored_remove_enrollment (d : DataStore) (roll code : string) :
  remove_enrollment (stored d) roll code
  = (fst (remove_enrollment d roll code),
     stored (snd (remove_enrollment d roll code))).
Proof.
  unfold remove_enrollment, stored, with_grades.
  cbn [fst snd all_students all_courses all_grades].
  rewrite !erase_remove_if_map by reflexivity. rewrite !length_map. reflexivity.
Qed.

(* ------------------------------------------------------------------ *)
(** ** Each database function against its cache helper *)

Lemma layers_add_student (d : DataStore) (s : Student.t) :
  db_add_student (db_of d) s
  = (fst (add_student d (bound_student s)),
     db_of (snd (add_student d (bound_student s)))).
Proof.
  destruct (exists_student d (Student.roll_no s)) eqn:He.
  - unfold add_student. cbn [bound_student Student.roll_no].
    rewrite student_found_iff, He.
    unfold db_add_student, run_insert, sqlite3_prepare_v2, sqlite3_step, db_of.
    cbn [has_tables students insert_students bound_student Student.roll_no].
    change (existsb (student_is (Student.roll_no s)) (all_students d))
      with (exists_student d (Student.roll_no s)).
    rewrite He. reflexivity.
  - destruct (sim_add_student d s He) as [H1 H2]. rewrite H1.
    unfold add_student. cbn [bound_student Student.roll_no].
    rewrite student_found_iff, He. reflexivity.
Qed.

Lemma layers_add_course (d : DataStore) (c : Course.t) :
  db_add_course (db_of d) c
  = (fst (add_course d (bound_course c)),
     db_of (snd (add_course d (bound_course c)))).
Proof.
  destruct (exists_course d (Course.code c)) eqn:He.
  - unfold add_course. cbn [bound_course Course.code].
    rewrite course_found_iff, He.
    unfold db_add_course, run_insert, sqlite3_prepare_v2, sqlite3_step, db_of.
    cbn [has_tables courses insert_courses bound_course Course.code].
    change (existsb (course_is (Course.code c)) (all_courses d))
      with (exists_course d (Course.code c)).
    rewrite He. reflexivity.
  - destruct (sim_add_course d c He) as [H1 H2]. rewrite H1.
    unfold add_course. cbn [bound_course Course.code].
    rewrite course_found_iff, He. reflexivity.
Qed.

Lemma layers_enroll (d : DataStore) (roll code : string) :
  db_enroll (db_of d) roll code
  = (fst (enroll_student d roll code), db_of (snd (enroll_student d roll code))).
Proof.
  unfold enroll_student.
  rewrite student_found_iff, course_found_iff, grade_found_iff.
  unfold db_enroll, run_insert, sqlite3_prepare_v2, sqlite3_step, db_of.
  cbn [has_tables students courses grades insert_grades Grade.roll_no
       Grade.course_code].
  change (existsb (grade_is roll code) (all_grades d))
    with (already_enrolled d roll code).
  change (existsb (student_is roll) (all_students d)) with (exists_student d roll).
  change (existsb (course_is code) (all_courses d)) with (exists_course d code).
  destruct (exists_student d roll), (exists_course d code),
    (already_enrolled d roll code); reflexivity.
Qed.

Lemma replace_first_unmatched {A : Type} (p : A -> bool) (v : A) (l : list A) :
  existsb p l = false -> replace_first p v l = (false, l).
Proof.
  induction l as [|x l IH]; simpl; [reflexivity|].
  destruct (p x); simpl; [discriminate|].
  intros H. rewrite (IH H). reflexivity.
Qed.


Lemma apply_student_update_found (d : DataStore) (s : Student.t) :
  fst (apply_student_update d s) = exists_student d (Student.roll_no s).
Proof.
  unfold apply_student_update.
  pose proof (replace_first_found (student_is (Student.roll_no s)) s
                (all_students d)) as Hfound.
  destruct (replace_first _ s (all_students d)) as [ok v]. exact Hfound.
Qed.

Lemma apply_course_update_found (d : DataStore) (c : Course.t) :
  fst (apply_course_update d c) = exists_course d (Course.code c).
Proof.
  unfold apply_course_update.
  pose proof (replace_first_found (course_is (Course.code c)) c
                (all_courses d)) as Hfound.
  destruct (replace_first _ c (all_courses d)) as [ok v]. exact Hfound.
Qed.

Lemma layers_update_student (d : DataStore) (upd : Student.t) :
  cache_ok d = true ->
  db_update_student (db_of d) upd
  = (fst (apply_student_update d (bound_student upd)),
     db_of (snd (apply_student_update d (bound_student upd)))).
Proof.
  intros Hok. destruct (exists_student d (Student.roll_no upd)) eqn:He.
  - destruct (sim_update_student d upd Hok He) as [H1 _]. rewrite H1.
    rewrite apply_student_update_found. cbn [bound_student Student.roll_no].
    rewrite He. reflexivity.
  - unfold db_update_student, run_change, sqlite3_prepare_v2, sqlite3_step, db_of.
    cbn [has_tables students courses grades rc_eqb andb].
    rewrite count_pos_iff_some.
    rewrite map_unmatched by exact He.
    change (existsb (student_is (Student.roll_no upd)) (all_students d))
      with (exists_student d (Student.roll_no upd)).
    rewrite He.
    unfold apply_student_update. cbn [bound_student Student.roll_no].
    rewrite replace_first_unmatched by exact He.
    unfold with_students. rewrite with_same_tables. reflexivity.
Qed.

Lemma layers_update_course (d : DataStore) (upd : Course.t) :
  cache_ok d = true ->
  db_update_course (db_of d) upd
  = (fst (apply_course_update d (bound_course upd)),
     db_of (snd (apply_course_update d (bound_course upd)))).
Proof.
  intros Hok. destruct (exists_course d (Course.code upd)) eqn:He.
  - destruct (sim_update_course d upd Hok He) as [H1 _]. rewrite H1.
    rewrite apply_course_update_found. cbn [bound_course Course.code].
    rewrite He. reflexivity.
  - unfold db_update_course, run_change, sqlite3_prepare_v2, sqlite3_step, db_of.
    cbn [has_tables students courses grades rc_eqb andb].
    rewrite count_pos_iff_some.
    rewrite map_unmatched by exact He.
    change (existsb (course_is (Course.code upd)) (all_courses d))
      with (exists_course d (Course.code upd)).
    rewrite He.
    unfold apply_course_update. cbn [bound_course Course.code].
    rewrite replace_first_unmatched by exact He.
    unfold with_courses. rewrite with_same_tables. reflexivity.
Qed.

(** Under the invariants no grade refers to a roll that no student has. *)
Lemma no_grades_of_unknown_student (d : DataStore) (roll : string) :
  cache_ok d = true -> exists_student d roll = false ->
  existsb (grade_of_student roll) (all_grades d) = false.
Proof.
  intros Hok He. unfold cache_ok in Hok. apply tables_ok_iff in Hok.
  destruct Hok as (_ & _ & _ & Hfk).
  apply not_true_iff_false. intros Hg. apply existsb_exists in Hg.
  destruct Hg as (g & Hin & Hg). unfold grade_of_student in Hg.
  apply String.eqb_eq in Hg. destruct (Hfk g Hin) as [Hs _].
  rewrite Hg in Hs. apply student_known_iff in Hs.
  change (existsb (student_is roll) (all_students d)) with (exists_student d roll) in Hs.
  congruence.
Qed.

Lemma no_grades_of_unknown_course (d : DataStore) (code : string) :
  cache_ok d = true -> exists_course d code = false ->
  existsb (grade_of_course code) (all_grades d) = false.
Proof.
  intros Hok He. unfold cache_ok in Hok. apply tables_ok_iff in Hok.
  destruct Hok as (_ & _ & _ & Hfk).
  apply not_true_iff_false. intros Hg. apply existsb_exists in Hg.
  destruct Hg as (g & Hin & Hg). unfold grade_of_course in Hg.
  apply String.eqb_eq in Hg. destruct (Hfk g Hin) as [_ Hc].
  rewrite Hg in Hc. apply course_known_iff in Hc.
  change (existsb (course_is code) (all_courses d)) with (exists_course d code) in Hc.
  congruence.
Qed.

Lemma remove_unknown_student (d : DataStore) (roll : string) :
  cache_ok d = true -> exists_student d roll = false ->
  remove_student d roll = (false, d).
Proof.
  intros Hok He. unfold remove_student, with_students, with_grades.
  cbn [all_students all_courses all_grades].
  rewrite size_changed_iff_existsb.
  rewrite (erase_remove_if_none (student_is roll)) by exact He.
  rewrite (erase_remove_if_none (grade_of_student roll))
    by (apply no_grades_of_unknown_student; assumption).
  change (existsb (student_is roll) (all_students d)) with (exists_student d roll).
  rewrite He, with_same_tables. reflexivity.
Qed.

Lemma remove_unknown_course (d : DataStore) (code : string) :
  cache_ok d = true -> exists_course d code = false ->
  remove_course d code = (false, d).
Proof.
  intros Hok He. unfold remove_course, with_courses, with_grades.
  cbn [all_students all_courses all_grades].
  rewrite size_changed_iff_existsb.
  rewrite (erase_remove_if_none (course_is code)) by exact He.
  rewrite (erase_remove_if_none (grade_of_course code))
    by (apply no_grades_of_unknown_course; assumption).
  change (existsb (course_is code) (all_courses d)) with (exists_course d code).
  rewrite He, with_same_tables. reflexivity.
Qed.

Lemma layers_delete_student (d : DataStore) (roll : string) :
  cache_ok d = true ->
  db_delete_student (db_of d) roll
  = (fst (remove_student d roll), db_of (snd (remove_student d roll))).
Proof.
  intros Hok. destruct (exists_student d roll) eqn:He.
  - destruct (sim_delete_student d roll He) as [H1 H2]. rewrite H1, H2. reflexivity.
  - rewrite (remove_unknown_student d roll Hok He). cbn [fst snd].
    unfold db_delete_student, run_change, sqlite3_prepare_v2, sqlite3_step, db_of.
    cbn [has_tables students courses grades].
    rewrite count_zero_iff_none.
    change (existsb (student_is roll) (all_students d)) with (exists_student d roll).
    rewrite He. reflexivity.
Qed.

Lemma layers_delete_course (d : DataStore) (code : string) :
  cache_ok d = true ->
  db_delete_course (db_of d) code
  = (fst (remove_course d code), db_of (snd (remove_course d code))).
Proof.
  intros Hok. destruct (exists_course d code) eqn:He.
  - destruct (sim_delete_course d code He) as [H1 H2]. rewrite H1, H2. reflexivity.
  - rewrite (remove_unknown_course d code Hok He). cbn [fst snd].
    unfold db_delete_course, run_change, sqlite3_prepare_v2, sqlite3_step, db_of.
    cbn [has_tables students courses grades].
    rewrite count_zero_iff_none.
    change (existsb (course_is code) (all_courses d)) with (exists_course d code).
    rewrite He. reflexivity.
Qed.

Lemma layers_delete_enrollment (d : DataStore) (roll code : string) :
  db_delete_enrollment (db_of d) roll code
  = (fst (remove_enrollment d roll code), db_of (snd (remove_enrollment d roll code))).
Proof.
  unfold db_delete_enrollment, run_change, sqlite3_prepare_v2, sqlite3_step, db_of.
  cbn [has_tables students courses grades rc_eqb andb].
  rewrite count_pos_iff_some.
  unfold remove_enrollment, with_grades.
  cbn [all_students all_courses all_grades fst snd].
  rewrite size_changed_iff_existsb, erase_remove_if_filter. reflexivity.
Qed.

Lemma layers_enter_marks (d : DataStore) (roll code : string) (im fm : float) :
  cache_ok d = true ->
  marks_rejected im fm = false ->
  PrimFloat.is_nan im || PrimFloat.is_nan fm = false ->
  db_enter_marks (db_of d) roll code im fm
  = (fst (enter_marks d roll code (stored_real im) (stored_real fm)),
     db_of (snd (enter_marks d roll code (stored_real im) (stored_real fm)))).
Proof.
  intros Hok Hm Hnan. destruct (already_enrolled d roll code) eqn:He.
  - pose proof (sim_enter_marks d roll code im fm Hok He Hm) as Hsim.
    rewrite Hnan in Hsim. destruct Hsim as [H1 H2]. rewrite H1.
    unfold enter_marks. rewrite marks_rejected_stored, Hm, grade_found_iff, He.
    reflexivity.
  - unfold enter_marks. rewrite marks_rejected_stored, Hm, grade_found_iff, He.
    cbn [negb fst snd].
    unfold db_enter_marks, run_change, sqlite3_prepare_v2, sqlite3_step, db_of.
    cbn [has_tables grades]. rewrite count_zero_iff_none.
    change (existsb (grade_is roll code) (all_grades d))
      with (already_enrolled d roll code).
    rewrite He. reflexivity.
Qed.

(** From a database that holds what it stores of a cache, each database
    function returns what its cache helper returns on the cache, and leaves
    what the database stores of the cache that the helper leaves. *)
Lemma follows_add_student (d : DataStore) (s : Student.t) :
  db_add_student (db_of (stored d)) s
  = (fst (add_student d s), db_of (stored (snd (add_student d s)))).
Proof. rewrite layers_add_student, stored_add_student. reflexivity. Qed.

Lemma follows_add_course (d : DataStore) (c : Course.t) :
  db_add_course (db_of (stored d)) c
  = (fst (add_course d c), db_of (stored (snd (add_course d c)))).
Proof. rewrite layers_add_course, stored_add_course. reflexivity. Qed.

Lemma follows_enroll (d : DataStore) (roll code : string) :
  db_enroll (db_of (stored d)) roll code
  = (fst (enroll_student d roll code),
     db_of (stored (snd (enroll_student d roll code)))).
Proof. rewrite layers_enroll, stored_enroll. reflexivity. Qed.

Lemma follows_enter_marks (d : DataStore) (roll code : string) (im fm : float) :
  cache_ok d = true ->
  marks_rejected im fm = false ->
  PrimFloat.is_nan im || PrimFloat.is_nan fm = false ->
  db_enter_marks (db_of (stored d)) roll code im fm
  = (fst (enter_marks d roll code im fm),
     db_of (stored (snd (enter_marks d roll code im fm)))).
Proof.
  intros Hok Hm Hnan.
  rewrite layers_enter_marks by (try apply stored_ok; assumption).
  rewrite stored_enter_marks. reflexivity.
Qed.

Lemma follows_update_student (d : DataStore) (upd : Student.t) :
  cache_ok d = true ->
  db_update_student (db_of (stored d)) upd
  = (fst (apply_student_update d upd),
     db_of (stored (snd (apply_student_update d upd)))).
Proof.
  intros Hok. rewrite layers_update_student by (apply stored_ok; exact Hok).
  rewrite stored_update_student. reflexivity.
Qed.

Lemma follows_update_course (d : DataStore) (upd : Course.t) :
  cache_ok d = true ->
  db_update_course (db_of (stored d)) upd
  = (fst (apply_course_update d upd),
     db_of (stored (snd (apply_course_update d upd)))).
Proof.
  intros Hok. rewrite layers_update_course by (apply stored_ok; exact Hok).
  rewrite stored_update_course. reflexivity.
Qed.

Lemma follows_delete_student (d : DataStore) (roll : string) :
  cache_ok d = true ->
  db_delete_student (db_of (stored d)) roll
  = (fst (remove_student d roll), db_of (stored (snd (remove_student d roll)))).
Proof.
  intros Hok. rewrite layers_delete_student by (apply stored_ok; exact Hok).
  rewrite stored_remove_student. reflexivity.
Qed.

Lemma follows_delete_course (d : DataStore) (code : string) :
  cache_ok d = true ->
  db_delete_course (db_of (stored d)) code
  = (fst (remove_course d code), db_of (stored (snd (remove_course d code)))).
Proof.
  intros Hok. rewrite layers_delete_course by (apply stored_ok; exact Hok).
  rewrite stored_remove_course. reflexivity.
Qed.

Lemma follows_delete_enrollment (d : DataStore) (roll code : string) :
  db_delete_enrollment (db_of (stored d)) roll code
  = (fst (remove_enrollment d roll code),
     db_of (stored (snd (remove_enrollment d roll code)))).
Proof. rewrite layers_delete_enrollment, stored_remove_enrollment. reflexivity. Qed.

(* ------------------------------------------------------------------ *)
(** ** The database follows the cache *)

Lemma protocol_in_step (o : Op) (f : Database -> bool * Database)
    (g : DataStore -> bool * DataStore) (w : World) (st : Database) :
  f (db w) = (fst (g (data w)), st) ->
  fst (g (data w)) = true ->
  and_also (call_db o f) (call_data o g) w =
  (true,
   mkWorld st (snd (g (data w)))
     (calls w ++ [mkCall Store o true; mkCall Mirror o true])).
Proof.
  intros Hf Hg. rewrite store_then_mirror, Hf, Hg. reflexivity.
Qed.

Lemma find_known {A : Type} (p : A -> bool) (l : list A) (x : A) :
  find p l = Some x -> p x = true /\ existsb p l = true.
Proof.
  intros H. apply find_some in H. destruct H as [Hin Hp].
  split; [exact Hp|]. apply existsb_exists. exists x. auto.
Qed.

Ltac step_done keeps :=
  cbn [snd db data calls]; split;
  [ split; cbn [db data]; [apply keeps; assumption | reflexivity]
  | right; right; reflexivity ].

Ltac step_skipped := split; [assumption | left; auto].

(** One menu entry from a state in which the database follows the cache:
    it still does afterwards, and the entry calls nothing, or the mark update
    of the database refuses NaN marks, or the database call and the cache
    call both return true. *)
Lemma menu_entry_step (a : Action) (w : World) :
  follows w ->
  marks_from_prompt a = true ->
  follows (snd (run a w))
  /\ ((calls (snd (run a w)) = calls w
       /\ db (snd (run a w)) = db w /\ data (snd (run a w)) = data w)
      \/ (op_of a = OpEnterMarks
          /\ calls (snd (run a w)) = calls w ++ [mkCall Store OpEnterMarks false]
          /\ db (snd (run a w)) = db w /\ data (snd (run a w)) = data w)
      \/ calls (snd (run a w)) =
         calls w ++ [mkCall Store (op_of a) true; mkCall Mirror (op_of a) true]).
Proof.
  intros Hfol Hmarks. pose proof Hfol as [Hok Hdb].
  destruct a; cbn [run op_of].
  - unfold choice_1, bind, get_data, ret; cbv beta iota.
    destruct (exists_student (data w) (Student.roll_no s)) eqn:He; [step_skipped|].
    destruct (sim_add_student (data w) s He) as [_ Hres].
    rewrite (protocol_in_step OpAddStudent (fun db => db_add_student db s)
               (fun data => add_student data s) w
               (db_of (stored (snd (add_student (data w) s)))));
      [|rewrite Hdb; apply follows_add_student | exact Hres].
    step_done add_student_keeps_ok.
  - unfold choice_3, bind, get_data, ret; cbv beta iota.
    destruct (exists_course (data w) (Course.code c)) eqn:He; [step_skipped|].
    destruct (sim_add_course (data w) c He) as [_ Hres].
    rewrite (protocol_in_step OpAddCourse (fun db => db_add_course db c)
               (fun data => add_course data c) w
               (db_of (stored (snd (add_course (data w) c)))));
      [|rewrite Hdb; apply follows_add_course | exact Hres].
    step_done add_course_keeps_ok.
  - unfold choice_5, bind, get_data, ret; cbv beta iota.
    destruct (exists_student (data w) r) eqn:Hs; cbn [negb]; [|step_skipped].
    destruct (exists_course (data w) code) eqn:Hco; cbn [negb]; [|step_skipped].
    destruct (already_enrolled (data w) r code) eqn:He; [step_skipped|].
    destruct (sim_enroll (data w) r code Hs Hco He) as [_ Hres].
    rewrite (protocol_in_step OpEnroll (fun db => db_enroll db r code)
               (fun data => enroll_student data r code) w
               (db_of (stored (snd (enroll_student (data w) r code)))));
      [|rewrite Hdb; apply follows_enroll | exact Hres].
    step_done enroll_student_keeps_ok.
  - unfold choice_6, save_marks, bind, get_data, ret; cbv beta iota.
    destruct (already_enrolled (data w) r code) eqn:He; cbn [negb]; [|step_skipped].
    cbn [marks_from_prompt] in Hmarks. apply negb_true_iff in Hmarks.
    destruct (PrimFloat.is_nan im || PrimFloat.is_nan fm) eqn:Hnan.
    + assert (Hrefused : db_enter_marks (db w) r code im fm = (false, db w)).
      { assert (He' : already_enrolled (stored (data w)) r code = true)
          by (rewrite (proj2 (proj2 (stored_exists (data w) r code))); exact He).
        pose proof (sim_enter_marks (stored (data w)) r code im fm
                      (stored_ok _ Hok) He' Hmarks) as Hsim.
        rewrite Hnan in Hsim. rewrite Hdb. exact Hsim. }
      rewrite store_then_mirror, Hrefused. cbn [fst snd db data calls].
      split; [exact Hfol | right; left; auto].
    + assert (Hres : fst (enter_marks (data w) r code im fm) = true).
      { unfold enter_marks. rewrite Hmarks, grade_found_iff, He. reflexivity. }
      rewrite (protocol_in_step OpEnterMarks
                 (fun db => db_enter_marks db r code im fm)
                 (fun data => enter_marks data r code im fm) w
                 (db_of (stored (snd (enter_marks (data w) r code im fm)))));
        [|rewrite Hdb; apply follows_enter_marks; assumption | exact Hres].
      step_done enter_marks_keeps_ok.
  - unfold choice_8, bind, get_data, ret; cbv beta iota.
    destruct (find (student_is roll) (all_students (data w))) as [cur|] eqn:Hf;
      [|step_skipped].
    destruct (find_known _ _ _ Hf) as [Hcur He].
    apply student_is_key in Hcur.
    set (upd := Student.mk (Student.roll_no cur) (edited (Student.name cur) name)
                  (edited (Student.address cur) address)
                  (edited (Student.contact cur) contact)).
    assert (Hupd : exists_student (data w) (Student.roll_no upd) = true)
      by (cbn [upd Student.roll_no]; rewrite Hcur; exact He).
    assert (Hres : fst (apply_student_update (data w) upd) = true)
      by (rewrite apply_student_update_found; exact Hupd).
    rewrite (protocol_in_step OpUpdateStudent (fun db => db_update_student db upd)
               (fun data => apply_student_update data upd) w
               (db_of (stored (snd (apply_student_update (data w) upd)))));
      [|rewrite Hdb; apply follows_update_student; exact Hok | exact Hres].
    step_done apply_student_update_keeps_ok.
  - unfold choice_9, bind, get_data, ret; cbv beta iota.
    destruct (find (course_is code) (all_courses (data w))) as [cur|] eqn:Hf;
      [|step_skipped].
    destruct (find_known _ _ _ Hf) as [Hcur He].
    apply course_is_key in Hcur.
    set (upd := Course.mk (Course.code cur) (edited (Course.title cur) title)
                  (edited (Course.description cur) description)
                  (edited (Course.teacher cur) teacher)).
    assert (Hupd : exists_course (data w) (Course.code upd) = true)
      by (cbn [upd Course.code]; rewrite Hcur; exact He).
    assert (Hres : fst (apply_course_update (data w) upd) = true)
      by (rewrite apply_course_update_found; exact Hupd).
    rewrite (protocol_in_step OpUpdateCourse (fun db => db_update_course db upd)
               (fun data => apply_course_update data upd) w
               (db_of (stored (snd (apply_course_update (data w) upd)))));
      [|rewrite Hdb; apply follows_update_course; exact Hok | exact Hres].
    step_done apply_course_update_keeps_ok.
  - unfold choice_10, bind, get_data, ret; cbv beta iota.
    destruct (exists_student (data w) roll) eqn:He; cbn [negb]; [|step_skipped].
    destruct (sim_delete_student (data w) roll He) as [_ Hres].
    rewrite (protocol_in_step OpDeleteStudent (fun db => db_delete_student db roll)
               (fun data => remove_student data roll) w
               (db_of (stored (snd (remove_student (data w) roll)))));
      [|rewrite Hdb; apply follows_delete_student; exact Hok | exact Hres].
    step_done remove_student_keeps_ok.
  - unfold choice_11, bind, get_data, ret; cbv beta iota.
    destruct (exists_course (data w) code) eqn:He; cbn [negb]; [|step_skipped].
    destruct (sim_delete_course (data w) code He) as [_ Hres].
    rewrite (protocol_in_step OpDeleteCourse (fun db => db_delete_course db code)
               (fun data => remove_course data code) w
               (db_of (stored (snd (remove_course (data w) code)))));
      [|rewrite Hdb; apply follows_delete_course; exact Hok | exact Hres].
    step_done remove_course_keeps_ok.
  - unfold choice_12, bind, get_data, ret; cbv beta iota.
    destruct (already_enrolled (data w) r code) eqn:He; cbn [negb]; [|step_skipped].
    destruct (sim_delete_enrollment (data w) r code He) as [_ Hres].
    rewrite (protocol_in_step OpDeleteEnrollment
               (fun db => db_delete_enrollment db r code)
               (fun data => remove_enrollment data r code) w
               (db_of (stored (snd (remove_enrollment (data w) r code)))));
      [|rewrite Hdb; apply follows_delete_enrollment | exact Hres].
    step_done remove_enrollment_keeps_ok.
Qed.

Lemma db_ok_iff (st : Database) :
  db_ok st = true <-> cache_ok (cache_of st) = true /\ st = db_of (cache_of st).
Proof.
  unfold db_ok, cache_ok, cache_of, db_of. destruct st as [t s c g]. simpl.
  rewrite andb_true_iff. split.
  - intros [-> H]. auto.
  - intros [H E]. injection E as ->. auto.
Qed.

Lemma db_of_ok (d : DataStore) : db_ok (db_of d) = cache_ok d.
Proof. reflexivity. Qed.

(** [db_enter_marks] keeps the keys of the grades table. *)
Lemma db_enter_marks_keeps_ok (st : Database) (roll code : string) (im fm : float) :
  db_ok st = true -> db_ok (snd (db_enter_marks st roll code im fm)) = true.
Proof.
  intros Hok. unfold db_enter_marks, run_change, sqlite3_prepare_v2, sqlite3_step.
  destruct (has_tables st) eqn:Ht; [|exact Hok].
  destruct (Nat.eqb _ 0); [exact Hok|].
  destruct (PrimFloat.is_nan im || PrimFloat.is_nan fm); [exact Hok|].
  cbn [snd]. unfold db_ok in *. cbn [has_tables students courses grades].
  rewrite Ht in *. cbn [andb] in *.
  apply tables_ok_iff in Hok. destruct Hok as (Hs & Hc & Hg & Hfk).
  apply tables_ok_iff.
  assert (Hkeys : forall (K : Type) (key : Grade.t -> K),
             (forall g, key (set_marks (stored_real im) (stored_real fm) g)
                        = key g) ->
             map key (map (fun g => if grade_is roll code g
                                    then set_marks (stored_real im)
                                           (stored_real fm) g
                                    else g) (grades st))
             = map key (grades st)).
  { intros K key Hkey. rewrite map_map. apply map_ext.
    intros g. destruct (grade_is roll code g); [apply Hkey | reflexivity]. }
  repeat split; try assumption.
  - rewrite Hkeys; [exact Hg | reflexivity].
  - apply in_map_iff in H. destruct H as (y & <- & Hy).
    destruct (grade_is roll code y); apply (Hfk y Hy).
  - apply in_map_iff in H. destruct H as (y & <- & Hy).
    destruct (grade_is roll code y); apply (Hfk y Hy).
Qed.

Lemma same_database (st : Database) :
  mkDatabase (has_tables st) (students st) (courses st) (grades st) = st.
Proof. destruct st; reflexivity. Qed.

(* ------------------------------------------------------------------ *)
(** ** Invariants of the cache and of the database *)

(** X1: the cache helpers of [services.hpp] and [helpers.cpp] keep the
    invariants of the data model, whatever they are called with: unique
    roll numbers, unique course codes, at most one enrollment per pair, and
    no enrollment without its student and its course. *)
Theorem cache_helpers_keep_invariants (d : DataStore) :
  cache_ok d = true ->
  (forall s, cache_ok (snd (add_student d s)) = true)
  /\ (forall c, cache_ok (snd (add_course d c)) = true)
  /\ (forall roll code, cache_ok (snd (enroll_student d roll code)) = true)
  /\ (forall roll code internal final,
         cache_ok (snd (enter_marks d roll code internal final)) = true)
  /\ (forall s, cache_ok (snd (apply_student_update d s)) = true)
  /\ (forall c, cache_ok (snd (apply_course_update d c)) = true)
  /\ (forall roll, cache_ok (snd (remove_student d roll)) = true)
  /\ (forall code, cache_ok (snd (remove_course d code)) = true)
  /\ (forall roll code, cache_ok (snd (remove_enrollment d roll code)) = true).
Proof.
  intros Hok.
  split; [intros s; apply add_student_keeps_ok; exact Hok|].
  split; [intros c; apply add_course_keeps_ok; exact Hok|].
  split; [intros roll code; apply enroll_student_keeps_ok; exact Hok|].
  split; [intros roll code i f; apply enter_marks_keeps_ok; exact Hok|].
  split; [intros s; apply apply_student_update_keeps_ok; exact Hok|].
  split; [intros c; apply apply_course_update_keeps_ok; exact Hok|].
  split; [intros roll; apply remove_student_keeps_ok; exact Hok|].
  split; [intros code; apply remove_course_keeps_ok; exact Hok|].
  intros roll code. apply remove_enrollment_keeps_ok. exact Hok.
Qed.

(** The theorem at the seeded cache: it still satisfies the invariants after
    S002 is enrolled in MTH101, and after course MTH101 is removed. *)
Lemma cache_helpers_keep_invariants_witness :
  cache_ok seeded_store = true
  /\ cache_ok (snd (enroll_student seeded_store "S002" "MTH101")) = true
  /\ cache_ok (snd (remove_course seeded_store "MTH101")) = true.
Proof.
  split; [reflexivity|].
  destruct (cache_helpers_keep_invariants seeded_store eq_refl)
    as (_ & _ & Henroll & _ & _ & _ & _ & Hremove & _).
  split; [apply Henroll | apply Hremove].
Defined.

(** Through [cache_of] and [db_of], a database function on a database that
    satisfies the invariants is a cache helper on its tables. *)
Ltac via_cache Hok layer keeps :=
  apply db_ok_iff in Hok; destruct Hok as [Hc Hst];
  rewrite Hst, layer; try exact Hc; cbn [snd];
  rewrite db_of_ok; apply keeps; exact Hc.

(** The write functions of [db.cpp] leave a database with its tables, unique
    keys and no enrollment without its student and its course as such a
    database. *)
Lemma db_writes_keep_ok (st : Database) :
  db_ok st = true ->
  (forall s, db_ok (snd (db_add_student st s)) = true)
  /\ (forall c, db_ok (snd (db_add_course st c)) = true)
  /\ (forall roll code, db_ok (snd (db_enroll st roll code)) = true)
  /\ (forall roll code im fm, db_ok (snd (db_enter_marks st roll code im fm)) = true)
  /\ (forall s, db_ok (snd (db_update_student st s)) = true)
  /\ (forall c, db_ok (snd (db_update_course st c)) = true)
  /\ (forall roll, db_ok (snd (db_delete_student st roll)) = true)
  /\ (forall code, db_ok (snd (db_delete_course st code)) = true)
  /\ (forall roll code, db_ok (snd (db_delete_enrollment st roll code)) = true).
Proof.
  intros Hok.
  split; [intros s; via_cache Hok layers_add_student add_student_keeps_ok|].
  split; [intros c; via_cache Hok layers_add_course add_course_keeps_ok|].
  split; [intros roll code; via_cache Hok layers_enroll enroll_student_keeps_ok|].
  split; [intros roll code im fm; apply db_enter_marks_keeps_ok; exact Hok|].
  split; [intros s; via_cache Hok layers_update_student apply_student_update_keeps_ok|].
  split; [intros c; via_cache Hok layers_update_course apply_course_update_keeps_ok|].
  split; [intros roll; via_cache Hok layers_delete_student remove_student_keeps_ok|].
  split; [intros code; via_cache Hok layers_delete_course remove_course_keeps_ok|].
  intros roll code. via_cache Hok layers_delete_enrollment remove_enrollment_keeps_ok.
Qed.

(* ------------------------------------------------------------------ *)
(** ** A false result means nothing was written *)

(** X5: whenever [add_student], [add_course], [enroll_student],
    [enter_marks], [apply_student_update], [apply_course_update] or
    [remove_enrollment] returns false, the cache is exactly what it was
    before the call.  ([remove_student] and [remove_course] are the two
    helpers of which this is not true.) *)
Theorem cache_failure_changes_nothing (d : DataStore) :
  (forall s, fst (add_student d s) = false -> snd (add_student d s) = d)
  /\ (forall c, fst (add_course d c) = false -> snd (add_course d c) = d)
  /\ (forall roll code,
         fst (enroll_student d roll code) = false ->
         snd (enroll_student d roll code) = d)
  /\ (forall roll code internal final,
         fst (enter_marks d roll code internal final) = false ->
         snd (enter_marks d roll code internal final) = d)
  /\ (forall s,
         fst (apply_student_update d s) = false ->
         snd (apply_student_update d s) = d)
  /\ (forall c,
         fst (apply_course_update d c) = false ->
         snd (apply_course_update d c) = d)
  /\ (forall roll code,
         fst (remove_enrollment d roll code) = false ->
         snd (remove_enrollment d roll code) = d).
Proof.
  repeat match goal with |- _ /\ _ => split end.
  - intros s. unfold add_student.
    destruct (not_end _ _); [reflexivity | discriminate].
  - intros c. unfold add_course.
    destruct (not_end _ _); [reflexivity | discriminate].
  - intros roll code. unfold enroll_student.
    destruct (negb (not_end _ (all_students d))); [reflexivity|].
    destruct (negb (not_end _ (all_courses d))); [reflexivity|].
    destruct (not_end _ (all_grades d)); [reflexivity | discriminate].
  - intros roll code internal final. unfold enter_marks.
    destruct (marks_rejected internal final); [reflexivity|].
    destruct (negb _); [reflexivity | discriminate].
  - intros s. unfold apply_student_update.
    pose proof (replace_first_found (student_is (Student.roll_no s)) s
                  (all_students d)) as Hfound.
    pose proof (replace_first_unmatched (student_is (Student.roll_no s)) s
                  (all_students d)) as Hsame.
    destruct (replace_first _ s (all_students d)) as [ok v]. cbn [fst snd] in *.
    intros ->. symmetry in Hfound. specialize (Hsame Hfound).
    injection Hsame as ->. unfold with_students. apply with_same_tables.
  - intros c. unfold apply_course_update.
    pose proof (replace_first_found (course_is (Course.code c)) c
                  (all_courses d)) as Hfound.
    pose proof (replace_first_unmatched (course_is (Course.code c)) c
                  (all_courses d)) as Hsame.
    destruct (replace_first _ c (all_courses d)) as [ok v]. cbn [fst snd] in *.
    intros ->. symmetry in Hfound. specialize (Hsame Hfound).
    injection Hsame as ->. unfold with_courses. apply with_same_tables.
  - intros roll code. unfold remove_enrollment, with_grades.
    cbn [fst snd all_grades]. rewrite size_changed_iff_existsb. intros He.
    rewrite erase_remove_if_none by exact He. apply with_same_tables.
Qed.

(** The theorem on the seeded cache: updating the unknown course ART101 and
    removing an enrollment that does not exist fail and change nothing. *)
Lemma cache_failure_changes_nothing_witness :
  snd (apply_course_update seeded_store (Course.mk "ART101" "Art" "Drawing" "Ms. Hu"))
  = seeded_store
  /\ snd (remove_enrollment seeded_store "S002" "MTH101") = seeded_store.
Proof.
  destruct (cache_failure_changes_nothing seeded_store)
    as (_ & _ & _ & _ & _ & Hupdate & Hremove).
  split; [apply Hupdate | apply Hremove]; reflexivity.
Defined.

(* ------------------------------------------------------------------ *)
(** ** Undoing an insertion *)

Lemma filter_snoc_unmatched {A : Type} (p : A -> bool) (l : list A) (x : A) :
  existsb p l = false -> p x = true ->
  erase_remove_if p (l ++ [x]) = l /\ existsb p (l ++ [x]) = true.
Proof.
  intros Hl Hx. split.
  - rewrite erase_remove_if_filter, filter_app. simpl. rewrite Hx. simpl.
    rewrite app_nil_r. apply filter_unmatched. exact Hl.
  - rewrite existsb_app. simpl. rewrite Hx. apply orb_true_r.
Qed.

Lemma add_student_undone (d d' : DataStore) (s : Student.t) :
  cache_ok d = true ->
  add_student d s = (true, d') ->
  remove_student d' (Student.roll_no s) = (true, d).
Proof.
  intros Hok. unfold add_student. rewrite student_found_iff.
  destruct (exists_student d (Student.roll_no s)) eqn:He; [discriminate|].
  intros H. injection H as <-.
  unfold remove_student, with_students, with_grades, push_back.
  cbn [all_students all_courses all_grades].
  rewrite size_changed_iff_existsb.
  destruct (filter_snoc_unmatched (student_is (Student.roll_no s)) (all_students d) s He)
    as [Hf Hx]; [apply String.eqb_refl|].
  rewrite Hf, Hx.
  rewrite (erase_remove_if_none (grade_of_student (Student.roll_no s)))
    by (apply no_grades_of_unknown_student; assumption).
  rewrite with_same_tables. reflexivity.
Qed.

Lemma add_course_undone (d d' : DataStore) (c : Course.t) :
  cache_ok d = true ->
  add_course d c = (true, d') ->
  remove_course d' (Course.code c) = (true, d).
Proof.
  intros Hok. unfold add_course. rewrite course_found_iff.
  destruct (exists_course d (Course.code c)) eqn:He; [discriminate|].
  intros H. injection H as <-.
  unfold remove_course, with_courses, with_grades, push_back.
  cbn [all_students all_courses all_grades].
  rewrite size_changed_iff_existsb.
  destruct (filter_snoc_unmatched (course_is (Course.code c)) (all_courses d) c He)
    as [Hf Hx]; [apply String.eqb_refl|].
  rewrite Hf, Hx.
  rewrite (erase_remove_if_none (grade_of_course (Course.code c)))
    by (apply no_grades_of_unknown_course; assumption).
  rewrite with_same_tables. reflexivity.
Qed.

Lemma enroll_undone (d d' : DataStore) (roll code : string) :
  enroll_student d roll code = (true, d') ->
  remove_enrollment d' roll code = (true, d).
Proof.
  unfold enroll_student. rewrite student_found_iff, course_found_iff, grade_found_iff.
  destruct (exists_student d roll); [|discriminate].
  destruct (exists_course d code); [|discriminate].
  destruct (already_enrolled d roll code) eqn:He; [discriminate|].
  cbn [negb]. intros H. injection H as <-.
  unfold remove_enrollment, with_grades, push_back.
  cbn [all_students all_courses all_grades].
  rewrite size_changed_iff_existsb.
  destruct (filter_snoc_unmatched (grade_is roll code) (all_grades d)
              (Grade.mk roll code 0%float 0%float) He) as [Hf Hx].
  { unfold grade_is. cbn [Grade.roll_no Grade.course_code].
    rewrite !String.eqb_refl. reflexivity. }
  rewrite Hf, Hx, with_same_tables. reflexivity.
Qed.

(** X6: in the cache, an insertion is undone by the matching removal.  On a
    cache that satisfies the invariants, a successful [add_student] followed
    by [remove_student] of the same roll gives back the cache as it was, and
    so do [add_course] and [remove_course]; a successful [enroll_student]
    followed by [remove_enrollment] of the same pair gives back the cache as
    it was, on any cache. *)
Theorem insertion_undone (d : DataStore) :
  (cache_ok d = true ->
   forall s d', add_student d s = (true, d') ->
                remove_student d' (Student.roll_no s) = (true, d))
  /\ (cache_ok d = true ->
      forall c d', add_course d c = (true, d') ->
                   remove_course d' (Course.code c) = (true, d))
  /\ (forall roll code d',
         enroll_student d roll code = (true, d') ->
         remove_enrollment d' roll code = (true, d)).
Proof.
  split; [intros Hok s d' H; apply (add_student_undone d d' s Hok H)|].
  split; [intros Hok c d' H; apply (add_course_undone d d' c Hok H)|].
  intros roll code d' H. apply (enroll_undone d d' roll code H).
Qed.

(** The theorem at the seeded cache: student S010 added and removed again,
    course ART101 added and removed again, and S002 enrolled in MTH101 and
    removed from it again. *)
Lemma insertion_undone_witness :
  remove_student
    (snd (add_student seeded_store (Student.mk "S010" "Ava Lee" "1 Test Rd" "021-000")))
    "S010" = (true, seeded_store)
  /\ remove_course
       (snd (add_course seeded_store (Course.mk "ART101" "Art" "Drawing" "Ann Lee")))
       "ART101" = (true, seeded_store)
  /\ remove_enrollment (snd (enroll_student seeded_store "S002" "MTH101"))
       "S002" "MTH101" = (true, seeded_store).
Proof.
  destruct (insertion_undone seeded_store) as (Hstudent & Hcourse & Henroll).
  split; [|split].
  - apply (Hstudent eq_refl (Student.mk "S010" "Ava Lee" "1 Test Rd" "021-000")).
    reflexivity.
  - apply (Hcourse eq_refl (Course.mk "ART101" "Art" "Drawing" "Ann Lee")).
    reflexivity.
  - apply Henroll. reflexivity.
Defined.

(* ------------------------------------------------------------------ *)
(** ** From the start of the program on *)

Lemma distinct_seeded {A : Type} (key : A -> string) (seed tbl : list A) :
  distinct String.eqb (map key seed) = true ->
  distinct String.eqb (map key tbl) = true ->
  distinct String.eqb (map key (seeded_if_empty seed tbl)) = true.
Proof. intros Hseed Htbl. destruct tbl; [exact Hseed | exact Htbl]. Qed.

Lemma init_and_seed_keeps_ok (file : Database) :
  tables_ok (students file) (courses file) (grades file) = true ->
  db_ok (snd (db_init_and_seed file)) = true.
Proof.
  intros Hok. rewrite db_init_and_seed_unfold.
  unfold tables_ok in Hok. apply andb_true_iff in Hok. destruct Hok as [Hok Hfk].
  apply andb_true_iff in Hok. destruct Hok as [Hok Hg].
  apply andb_true_iff in Hok. destruct Hok as [Hs Hc].
  pose proof (distinct_seeded Student.roll_no seed_students (students file)
                eq_refl Hs) as Hs1.
  pose proof (distinct_seeded Course.code seed_courses (courses file)
                eq_refl Hc) as Hc1.
  destruct (grades file) as [|g0 g] eqn:Hgr.
  - destruct (seed_parents_present _ _) eqn:Hp; cbn [snd]; unfold db_ok, tables_ok;
      cbn [has_tables students courses grades andb]; rewrite Hs1, Hc1.
    + exact Hp.
    + reflexivity.
  - cbn [snd]. unfold db_ok, tables_ok.
    cbn [has_tables students courses grades andb].
    rewrite Hs1, Hc1, Hg. cbn [andb].
    cbn [forallb] in Hfk. pose proof Hfk as Hfk0.
    apply andb_true_iff in Hfk0. destruct Hfk0 as [Hp _].
    unfold parents_present in Hp. apply andb_true_iff in Hp. destruct Hp as [Hps Hpc].
    destruct (students file) as [|s0 ss]; [discriminate Hps|].
    destruct (courses file) as [|c0 cs]; [discriminate Hpc|].
    exact Hfk.
Qed.

Lemma validated_marks (a : Action) :
  validated a = true -> marks_from_prompt a = true.
Proof.
  destruct a; try reflexivity. cbn [validated marks_from_prompt].
  intros H. apply andb_true_iff in H. apply H.
Qed.

Lemma session_step (a : Action) (w : World) :
  follows w ->
  marks_from_prompt a = true ->
  follows (snd (run a w))
  /\ exists t, calls (snd (run a w)) = calls w ++ t /\ forallb call_expected t = true.
Proof.
  intros Hfol Hmarks.
  destruct (menu_entry_step a w Hfol Hmarks) as [Hc Ht].
  split; [exact Hc|].
  destruct Ht as [(Ht & _)|[(_ & Ht & _)|Ht]].
  - exists []. rewrite app_nil_r. auto.
  - exists [mkCall Store OpEnterMarks false]. auto.
  - exists [mkCall Store (op_of a) true; mkCall Mirror (op_of a) true]. auto.
Qed.

(** A state is consistent when the database follows the cache and stores
    the rows of the cache as they are. *)
Lemma follows_consistent (w : World) :
  follows w -> stored (data w) = data w -> consistent w.
Proof.
  intros [Hok Hdb] Hsame. apply consistent_iff. rewrite Hdb, Hsame. auto.
Qed.

Lemma consistent_follows (w : World) :
  consistent w -> stored (data w) = data w -> follows w.
Proof.
  intros Hc Hsame. apply consistent_iff in Hc. destruct Hc as [Hok Hdb].
  split; [exact Hok|]. rewrite Hsame. exact Hdb.
Qed.

(** X7: the start of [main] on a file whose tables satisfy the invariants
    (an absent or empty file among them) either stops the program or gives a
    consistent state: tables created, invariants kept, and a cache that
    holds exactly the rows of the database. *)
Theorem startup_consistent (file : Database) (w : World) :
  tables_ok (students file) (courses file) (grades file) = true ->
  startup file = Some w ->
  consistent w /\ calls w = [] /\ db w = snd (db_init_and_seed file).
Proof.
  intros Hok. pose proof (init_and_seed_keeps_ok file Hok) as Hdb.
  unfold startup. destruct (db_init_and_seed file) as [ok st]. cbn [snd] in Hdb.
  destruct ok; cbn [negb]; [|discriminate].
  rewrite db_load_all_reads.
  assert (Ht : has_tables st = true)
    by (unfold db_ok in Hdb; apply andb_true_iff in Hdb; tauto).
  rewrite Ht. intros H. injection H as <-. cbn [db data calls].
  split; [|split; reflexivity].
  split; [exact Hdb|]. cbn [db data]. unfold mirrors.
  rewrite db_load_all_reads, Ht. reflexivity.
Qed.


(** The theorem on the first start: the absent file becomes the seeded
    database, mirrored by the cache. *)
Lemma startup_consistent_witness :
  startup empty_db = Some seeded_world
  /\ consistent seeded_world.
Proof.
  split; [reflexivity|].
  apply (startup_consistent empty_db seeded_world); reflexivity.
Defined.

(** X8: the database follows the cache through every session of validated
    menu entries.  At the start the cache satisfies the invariants and the
    database holds what it stores of the rows of the cache: every text that
    is not a key ends before its first NUL byte, and -0.0 is 0.0.  Then the
    same is true after the session, whose entries carry values that passed
    the validator or the range test of their prompt.  On the way, every call
    of a cache helper returns true (a database write without its cache write
    never arises), and the only database call that can return false is the
    mark update.  Where the database stores the rows of the cache as they
    are, the state at the end is consistent. *)
Theorem sessions_stay_consistent (session : list Action) (w : World) :
  follows w ->
  forallb validated session = true ->
  follows (run_all session w)
  /\ (exists t,
        calls (run_all session w) = calls w ++ t
        /\ forallb call_expected t = true)
  /\ (stored (data (run_all session w)) = data (run_all session w) ->
      consistent (run_all session w)).
Proof.
  intros Hfol Hv.
  assert (H : follows (run_all session w)
              /\ exists t,
                   calls (run_all session w) = calls w ++ t
                   /\ forallb call_expected t = true).
  { unfold run_all. revert w Hfol.
    induction session as [|a session IH]; intros w Hfol.
    - split; [exact Hfol|]. exists []. rewrite app_nil_r. auto.
    - cbn [forallb] in Hv. apply andb_true_iff in Hv.
      destruct Hv as [Ha Hrest]. cbn [fold_left].
      destruct (session_step a w Hfol (validated_marks a Ha))
        as [Hc1 (t1 & Ht1 & He1)].
      destruct (IH Hrest (snd (run a w)) Hc1) as [Hc2 (t2 & Ht2 & He2)].
      split; [exact Hc2|].
      exists (t1 ++ t2). split.
      + rewrite Ht2, Ht1, app_assoc. reflexivity.
      + rewrite forallb_app, He1, He2. reflexivity. }
  destruct H as [Hend Ht].
  split; [exact Hend|]. split; [exact Ht|].
  apply follows_consistent. exact Hend.
Qed.

(** The theorem on a session from the seeded state: S010 is added with a NUL
    byte in the address, enrolled in ENG101 and given the marks -0.0 and 90,
    then S001 is deleted with its grades.  The database follows the cache,
    and it holds the address up to the NUL byte and the mark 0.0 where the
    cache holds the whole address and -0.0. *)
Lemma sessions_stay_consistent_witness :
  follows seeded_world
  /\ follows
       (run_all
          [ AddStudent
              (Student.mk "S010" "Ava Lee" ("1 Test Rd" ++ String "000" "x")
                 "021-555-0101");
            Enroll "S010" "ENG101";
            EnterMarks "S010" "ENG101" (-0) 90;
            RemoveStudent "S001" ]
          seeded_world)
  /\ db (run_all
           [ AddStudent
               (Student.mk "S010" "Ava Lee" ("1 Test Rd" ++ String "000" "x")
                  "021-555-0101");
             Enroll "S010" "ENG101";
             EnterMarks "S010" "ENG101" (-0) 90;
             RemoveStudent "S001" ]
           seeded_world)
     <> db_of
          (data
             (run_all
                [ AddStudent
                    (Student.mk "S010" "Ava Lee"
                       ("1 Test Rd" ++ String "000" "x") "021-555-0101");
                  Enroll "S010" "ENG101";
                  EnterMarks "S010" "ENG101" (-0) 90;
                  RemoveStudent "S001" ]
                seeded_world)).
Proof.
  assert (Hstart : follows seeded_world) by (split; reflexivity).
  split; [exact Hstart|]. split.
  - apply (sessions_stay_consistent
             [ AddStudent
                 (Student.mk "S010" "Ava Lee" ("1 Test Rd" ++ String "000" "x")
                    "021-555-0101");
               Enroll "S010" "ENG101";
               EnterMarks "S010" "ENG101" (-0) 90;
               RemoveStudent "S001" ]
             seeded_world Hstart).
    reflexivity.
  - intros H. apply (f_equal students) in H. vm_compute in H. discriminate H.
Defined.

(* ------------------------------------------------------------------ *)
(** ** Update by key *)

Lemma replace_first_lookup {A : Type} (p : A -> bool) (v : A) (l : list A) :
  p v = true -> existsb p l = true ->
  find p (snd (replace_first p v l)) = Some v.
Proof.
  intros Hv. induction l as [|x l IH]; simpl; [discriminate|].
  destruct (p x) eqn:Hx; simpl.
  - intros _. rewrite Hv. reflexivity.
  - intros He. specialize (IH He).
    destruct (replace_first p v l) as [ok l']. simpl in *. rewrite Hx. exact IH.
Qed.

Lemma replace_first_others {A : Type} (p q : A -> bool) (v : A) (l : list A) :
  q v = false -> (forall x, p x = true -> q x = false) ->
  find q (snd (replace_first p v l)) = find q l.
Proof.
  intros Hv Hpq. induction l as [|x l IH]; simpl; [reflexivity|].
  destruct (p x) eqn:Hx; simpl.
  - rewrite Hv, (Hpq x Hx). reflexivity.
  - destruct (replace_first p v l) as [ok l']. simpl in *. rewrite IH. reflexivity.
Qed.

(** X9: [apply_student_update] is an update by key.  It returns whether a
    student with the roll of the new record exists; the roll numbers of the
    students, in their order, the courses and the grades stay as they were;
    after a successful update the look-up of that roll yields the new
    record, and the look-up of every other roll yields what it yielded
    before.  [apply_course_update] is the same for courses and codes. *)
Theorem update_by_key (d : DataStore) (s : Student.t) (c : Course.t) :
  (fst (apply_student_update d s) = exists_student d (Student.roll_no s)
   /\ map Student.roll_no (all_students (snd (apply_student_update d s)))
      = map Student.roll_no (all_students d)
   /\ all_courses (snd (apply_student_update d s)) = all_courses d
   /\ all_grades (snd (apply_student_update d s)) = all_grades d
   /\ (exists_student d (Student.roll_no s) = true ->
       find (student_is (Student.roll_no s))
         (all_students (snd (apply_student_update d s))) = Some s)
   /\ (forall roll, roll <> Student.roll_no s ->
       find (student_is roll) (all_students (snd (apply_student_update d s)))
       = find (student_is roll) (all_students d)))
  /\ (fst (apply_course_update d c) = exists_course d (Course.code c)
      /\ map Course.code (all_courses (snd (apply_course_update d c)))
         = map Course.code (all_courses d)
      /\ all_students (snd (apply_course_update d c)) = all_students d
      /\ all_grades (snd (apply_course_update d c)) = all_grades d
      /\ (exists_course d (Course.code c) = true ->
          find (course_is (Course.code c))
            (all_courses (snd (apply_course_update d c))) = Some c)
      /\ (forall code, code <> Course.code c ->
          find (course_is code) (all_courses (snd (apply_course_update d c)))
          = find (course_is code) (all_courses d))).
Proof.
  split.
  - unfold apply_student_update.
    pose proof (replace_first_found (student_is (Student.roll_no s)) s
                  (all_students d)) as Hfound.
    pose proof (replace_first_keys Student.roll_no (student_is (Student.roll_no s)) s
                  (all_students d)) as Hkeys.
    pose proof (replace_first_lookup (student_is (Student.roll_no s)) s
                  (all_students d)) as Hlook.
    pose proof (fun roll => replace_first_others (student_is (Student.roll_no s))
                  (student_is roll) s (all_students d)) as Hother.
    destruct (replace_first _ s (all_students d)) as [ok v].
    cbn [fst snd with_students all_students all_courses all_grades] in *.
    split; [exact Hfound|]. split.
    { apply Hkeys. intros x Hx. apply student_is_key in Hx. congruence. }
    split; [reflexivity|]. split; [reflexivity|]. split.
    { intros He. apply Hlook; [apply String.eqb_refl | exact He]. }
    intros roll Hne. apply Hother.
    + apply String.eqb_neq. congruence.
    + intros x Hx. apply student_is_key in Hx. apply String.eqb_neq. congruence.
  - unfold apply_course_update.
    pose proof (replace_first_found (course_is (Course.code c)) c
                  (all_courses d)) as Hfound.
    pose proof (replace_first_keys Course.code (course_is (Course.code c)) c
                  (all_courses d)) as Hkeys.
    pose proof (replace_first_lookup (course_is (Course.code c)) c
                  (all_courses d)) as Hlook.
    pose proof (fun code => replace_first_others (course_is (Course.code c))
                  (course_is code) c (all_courses d)) as Hother.
    destruct (replace_first _ c (all_courses d)) as [ok v].
    cbn [fst snd with_courses all_students all_courses all_grades] in *.
    split; [exact Hfound|]. split.
    { apply Hkeys. intros x Hx. apply course_is_key in Hx. congruence. }
    split; [reflexivity|]. split; [reflexivity|]. split.
    { intros He. apply Hlook; [apply String.eqb_refl | exact He]. }
    intros code Hne. apply Hother.
    + apply String.eqb_neq. congruence.
    + intros x Hx. apply course_is_key in Hx. apply String.eqb_neq. congruence.
Qed.

(** The theorem at the seeded cache: Leo is renamed, and the look-ups of
    S002 and of S001 afterwards. *)
Lemma update_by_key_witness :
  find (student_is "S002")
    (all_students
       (snd (apply_student_update seeded_store
               (Student.mk "S002" "Leo Ray" "34 Pine Ave" "021-222"))))
  = Some (Student.mk "S002" "Leo Ray" "34 Pine Ave" "021-222")
  /\ find (student_is "S001")
       (all_students
          (snd (apply_student_update seeded_store
                  (Student.mk "S002" "Leo Ray" "34 Pine Ave" "021-222"))))
     = Some (Student.mk "S001" "Ava" "12 Oak St" "021-111").
Proof.
  destruct (update_by_key seeded_store
              (Student.mk "S002" "Leo Ray" "34 Pine Ave" "021-222")
              (Course.mk "MTH101" "Maths" "Numbers and algebra" "Mr. King"))
    as ((_ & _ & _ & _ & Hnew & Hother) & _).
  split.
  - apply Hnew. reflexivity.
  - rewrite (Hother "S001"); [reflexivity | discriminate].
Defined.

(* ------------------------------------------------------------------ *)
(** ** The report, at its edges *)

(** X10: [student_report] prints "Student not found." and nothing else
    exactly when no student has the roll.  For an existing student it
    prints the overall line exactly when at least one course line is
    printed, and the "No courses enrolled." line exactly when none is; the
    number of courses on the overall line is the number of course lines,
    and the number passed is between 0 and that number. *)
Theorem student_report_edges (d : DataStore) (roll : string) :
  if exists_student d roll
  then
    exists name r lines overall no_courses,
      student_report d roll = StudentReport name r lines overall no_courses
      /\ r = roll
      /\ no_courses = Nat.eqb (List.length lines) 0
      /\ match overall with
         | None => lines = []
         | Some o =>
             lines <> []
             /\ overall_courses o = Z.of_nat (List.length lines)
             /\ (0 <= overall_passed o <= overall_courses o)%Z
         end
  else student_report d roll = StudentNotFound.
Proof.
  destruct (exists_student d roll) eqn:He.
  - destruct (find_some_of_existsb (student_is roll) (all_students d) He) as [st Hst].
    rewrite (student_report_of_existing d roll st Hst).
    destruct (find_known _ _ _ Hst) as [Hkey _]. apply student_is_key in Hkey.
    eexists _, _, _, _, _. split; [reflexivity|].
    split; [exact Hkey|]. rewrite length_map. split; [reflexivity|].
    destruct (enrollments_of d roll) as [|g gs] eqn:Hgs; [reflexivity|].
    cbn [List.length]. rewrite Nat2Z.inj_succ.
    destruct (0 <? Z.succ (Z.of_nat (List.length gs)))%Z eqn:Hpos;
      [|apply Z.ltb_ge in Hpos; lia].
    cbn [overall_courses overall_passed]. split; [discriminate|].
    split; [reflexivity|].
    pose proof (filter_length_le passing (g :: gs)) as Hle. cbn [List.length] in Hle.
    lia.
  - unfold student_report. rewrite nth_error_find_if.
    destruct (find (student_is roll) (all_students d)) as [st|] eqn:Hst; [|reflexivity].
    destruct (find_known _ _ _ Hst) as [_ Hex].
    change (existsb (student_is roll) (all_students d)) with (exists_student d roll) in Hex.
    congruence.
Qed.

(* ------------------------------------------------------------------ *)
(** ** The live counts *)

(** X11: [db_get_counts] and [db_load_all] succeed on the same databases
    (those with their tables), and the counts that the first reports are the
    sizes of the three vectors that the second loads; when [db_get_counts]
    fails it leaves [out] as it was. *)
Theorem counts_match_loaded_rows (st : Database) (out : DbCounts) (d0 : DataStore) :
  fst (db_get_counts st out) = fst (db_load_all st d0)
  /\ (fst (db_get_counts st out) = true ->
      snd (db_get_counts st out)
      = mkDbCounts
          (Z.of_nat (List.length (all_students (snd (db_load_all st d0)))))
          (Z.of_nat (List.length (all_courses (snd (db_load_all st d0)))))
          (Z.of_nat (List.length (all_grades (snd (db_load_all st d0))))))
  /\ (fst (db_get_counts st out) = false -> snd (db_get_counts st out) = out).
Proof.
  unfold db_get_counts. rewrite db_load_all_reads.
  destruct (has_tables st); cbn [negb fst snd all_students all_courses all_grades].
  - split; [reflexivity|]. split; [reflexivity | discriminate].
  - split; [reflexivity|]. split; [discriminate | reflexivity].
Qed.

(** The theorem at the seeded database: 3 students, 3 courses, 4 grades. *)
Lemma counts_match_loaded_rows_witness :
  db_get_counts seeded_db (mkDbCounts 0 0 0) = (true, mkDbCounts 3 3 4).
Proof.
  destruct (counts_match_loaded_rows seeded_db (mkDbCounts 0 0 0) empty_store)
    as (_ & Hcounts & _).
  rewrite (surjective_pairing (db_get_counts seeded_db (mkDbCounts 0 0 0))).
  rewrite (Hcounts eq_refl). reflexivity.
Defined.

(* ------------------------------------------------------------------ *)
(** ** The range guard, in doubles *)

Lemma SFcompare_swap (x y : SpecFloat.spec_float) :
  SpecFloat.SFcompare y x =
  match SpecFloat.SFcompare x y with
  | Some c => Some (CompOpp c)
  | None => None
  end.
Proof.
  destruct x as [sx|sx| |sx mx ex], y as [sy|sy| |sy my ey]; simpl;
    try reflexivity;
    try (destruct sx; reflexivity); try (destruct sy; reflexivity);
    try (destruct sx, sy; reflexivity).
  destruct sx, sy; try reflexivity.
  - rewrite (Z.compare_antisym ex ey).
    destruct (Z.compare ex ey); simpl; try reflexivity.
    rewrite (Pos.compare_cont_antisym mx my Eq). simpl.
    destruct (Pos.compare_cont Eq mx my); reflexivity.
  - rewrite (Z.compare_antisym ex ey).
    destruct (Z.compare ex ey); simpl; try reflexivity.
    rewrite (Pos.compare_cont_antisym mx my Eq). simpl.
    destruct (Pos.compare_cont Eq mx my); reflexivity.
Qed.

Lemma SFcompare_defined (x y : SpecFloat.spec_float) :
  SpecFloat.SFcompare x x <> None -> SpecFloat.SFcompare y y <> None ->
  SpecFloat.SFcompare x y <> None.
Proof.
  destruct x as [sx|sx| |sx mx ex], y as [sy|sy| |sy my ey]; simpl;
    intros Hx Hy; try discriminate; try contradiction.
Qed.

Lemma not_nan_compares (x : float) :
  PrimFloat.is_nan x = false ->
  SpecFloat.SFcompare (Prim2SF x) (Prim2SF x) <> None.
Proof.
  unfold PrimFloat.is_nan. rewrite negb_false_iff, FloatAxioms.eqb_spec.
  unfold SpecFloat.SFeqb. destruct (SpecFloat.SFcompare _ _); discriminate.
Qed.

(** For doubles that are not NaN, [y < x] is false exactly when [x <= y]. *)
Lemma not_lt_iff_le (x y : float) :
  PrimFloat.is_nan x = false -> PrimFloat.is_nan y = false ->
  (y <? x)%float = negb (x <=? y)%float.
Proof.
  intros Hx Hy. rewrite FloatAxioms.ltb_spec, FloatAxioms.leb_spec.
  unfold SpecFloat.SFltb, SpecFloat.SFleb.
  rewrite (SFcompare_swap (Prim2SF x) (Prim2SF y)).
  pose proof (SFcompare_defined _ _ (not_nan_compares x Hx) (not_nan_compares y Hy)).
  destruct (SpecFloat.SFcompare (Prim2SF x) (Prim2SF y)) as [[]|];
    try reflexivity; contradiction.
Qed.

(** A NaN compares false with everything. *)
Lemma nan_compares_false (x y : float) :
  PrimFloat.is_nan x = true ->
  (x <? y)%float = false /\ (y <? x)%float = false
  /\ (x <=? y)%float = false /\ (y <=? x)%float = false.
Proof.
  unfold PrimFloat.is_nan. rewrite negb_true_iff, FloatAxioms.eqb_spec.
  rewrite !FloatAxioms.ltb_spec, !FloatAxioms.leb_spec.
  unfold SpecFloat.SFeqb, SpecFloat.SFltb, SpecFloat.SFleb.
  destruct (Prim2SF x) as [sx|sx| |sx mx ex]; simpl.
  - discriminate.
  - destruct sx; discriminate.
  - intros _. destruct (Prim2SF y); auto.
  - destruct sx; rewrite Z.compare_refl, Pos.compare_cont_refl; discriminate.
Qed.

(** What a single mark must be to pass the guard of [enter_marks]. *)
Lemma mark_passes_iff (m : float) :
  (m <? 0)%float || (100 <? m)%float = false
  <-> mark_in_range m = true \/ PrimFloat.is_nan m = true.
Proof.
  unfold mark_in_range. destruct (PrimFloat.is_nan m) eqn:Hnan.
  - destruct (nan_compares_false m 0 Hnan) as (H1 & _).
    destruct (nan_compares_false m 100 Hnan) as (_ & H2 & _).
    rewrite H1, H2. split; auto.
  - rewrite (not_lt_iff_le 0 m eq_refl Hnan), (not_lt_iff_le m 100 Hnan eq_refl).
    destruct (0 <=? m)%float, (m <=? 100)%float; simpl; split; auto;
      intros [H|H]; discriminate.
Qed.

(** X12: the guard at the head of [enter_marks] lets a pair of marks
    through exactly when each of them is within [0, 100] or is NaN (every
    comparison with NaN is false, so NaN is not refused). *)
Theorem guard_accepts_range_or_nan (internal final : float) :
  marks_rejected internal final = false
  <-> (mark_in_range internal = true \/ PrimFloat.is_nan internal = true)
      /\ (mark_in_range final = true \/ PrimFloat.is_nan final = true).
Proof.
  rewrite <- !mark_passes_iff. unfold marks_rejected.
  destruct (internal <? 0)%float, (100 <? internal)%float,
    (final <? 0)%float, (100 <? final)%float; simpl; intuition discriminate.
Qed.

(* ------------------------------------------------------------------ *)
(** ** Marks stay within bounds *)

Lemma forallb_snoc {A : Type} (p : A -> bool) (l : list A) (x : A) :
  forallb p l = true -> p x = true -> forallb p (l ++ [x]) = true.
Proof. intros Hl Hx. rewrite forallb_app, Hl. simpl. rewrite Hx. reflexivity. Qed.

Lemma forallb_filter_kept {A : Type} (p q : A -> bool) (l : list A) :
  forallb p l = true -> forallb p (filter q l) = true.
Proof.
  rewrite !forallb_forall. intros H x Hx. apply filter_In in Hx. apply H. tauto.
Qed.

Lemma forallb_assign_at {A : Type} (p : A -> bool) (f : A -> A) (it : nat)
    (l : list A) :
  (forall x, p (f x) = true) ->
  forallb p l = true -> forallb p (assign_at it f l) = true.
Proof.
  intros Hf. revert it. induction l as [|x l IH]; intros it; simpl.
  - destruct it; reflexivity.
  - rewrite andb_true_iff. intros [Hx Hl].
    destruct it; simpl; [rewrite Hf, Hl | rewrite Hx, IH]; auto.
Qed.

Lemma accepted_marks_in_range (im fm : float) :
  marks_rejected im fm = false ->
  PrimFloat.is_nan im || PrimFloat.is_nan fm = false ->
  mark_in_range im = true /\ mark_in_range fm = true.
Proof.
  unfold marks_rejected. rewrite <- !orb_assoc.
  intros Hm Hnan. apply orb_false_iff in Hnan. destruct Hnan as [Hi Hf].
  assert (H1 : (im <? 0)%float || (100 <? im)%float = false)
    by (destruct (im <? 0)%float, (100 <? im)%float; try discriminate; reflexivity).
  assert (H2 : (fm <? 0)%float || (100 <? fm)%float = false)
    by (destruct (im <? 0)%float, (100 <? im)%float, (fm <? 0)%float,
          (100 <? fm)%float; try discriminate; reflexivity).
  apply mark_passes_iff in H1. apply mark_passes_iff in H2.
  destruct H1 as [H1|H1], H2 as [H2|H2]; split; congruence.
Qed.

Lemma db_enter_marks_true_not_nan (st : Database) (roll code : string)
    (im fm : float) :
  fst (db_enter_marks st roll code im fm) = true ->
  PrimFloat.is_nan im || PrimFloat.is_nan fm = false.
Proof.
  unfold db_enter_marks, run_change, sqlite3_prepare_v2, sqlite3_step.
  destruct (has_tables st); [|discriminate].
  destruct (Nat.eqb _ 0); [discriminate|].
  destruct (PrimFloat.is_nan im || PrimFloat.is_nan fm); [discriminate | reflexivity].
Qed.

Lemma db_enter_marks_in_range (st : Database) (roll code : string) (im fm : float) :
  persisted_marks_in_range st = true ->
  marks_rejected im fm = false ->
  persisted_marks_in_range (snd (db_enter_marks st roll code im fm)) = true.
Proof.
  intros Hst Hm.
  destruct (PrimFloat.is_nan im || PrimFloat.is_nan fm) eqn:Hnan.
  - unfold db_enter_marks, run_change, sqlite3_prepare_v2, sqlite3_step.
    destruct (has_tables st); [|exact Hst].
    destruct (Nat.eqb _ 0); [exact Hst|]. rewrite Hnan. exact Hst.
  - destruct (accepted_marks_in_range im fm Hm Hnan) as [Hi Hf].
    apply db_enter_marks_keeps_range; assumption.
Qed.

Ltac db_grades_kept :=
  unfold run_insert, run_change, sqlite3_prepare_v2, sqlite3_step;
  repeat match goal with
         | |- context [if ?b then _ else _] => destruct b
         | |- context [match ?x with Some _ => _ | None => _ end] => destruct x eqn:?
         end;
  cbn [snd grades]; try assumption.

Lemma insert_grades_in_range (s : list Student.t) (c : list Course.t)
    (rows tbl out : list Grade.t) :
  forallb grade_in_range rows = true ->
  forallb grade_in_range tbl = true ->
  insert_grades s c rows tbl = Some out ->
  forallb grade_in_range out = true.
Proof.
  revert tbl. induction rows as [|r rows IH]; intros tbl Hr Ht; simpl.
  - intros H. injection H as <-. exact Ht.
  - simpl in Hr. apply andb_true_iff in Hr. destruct Hr as [Hr0 Hr].
    destruct (existsb _ tbl); [discriminate|].
    destruct (negb _); [discriminate|]. destruct (negb _); [discriminate|].
    apply IH; [exact Hr | apply forallb_snoc; assumption].
Qed.

(** The grades table after each write function of [db.cpp], for a property
    of the rows that the rows written have. *)
Lemma db_writes_in_range (st : Database) :
  persisted_marks_in_range st = true ->
  (forall s, persisted_marks_in_range (snd (db_add_student st s)) = true)
  /\ (forall c, persisted_marks_in_range (snd (db_add_course st c)) = true)
  /\ (forall roll code, persisted_marks_in_range (snd (db_enroll st roll code)) = true)
  /\ (forall s, persisted_marks_in_range (snd (db_update_student st s)) = true)
  /\ (forall c, persisted_marks_in_range (snd (db_update_course st c)) = true)
  /\ (forall roll, persisted_marks_in_range (snd (db_delete_student st roll)) = true)
  /\ (forall code, persisted_marks_in_range (snd (db_delete_course st code)) = true)
  /\ (forall roll code,
         persisted_marks_in_range (snd (db_delete_enrollment st roll code)) = true).
Proof.
  intros Hst. unfold persisted_marks_in_range in *.
  repeat match goal with |- _ /\ _ => split end.
  - intros s. unfold db_add_student. db_grades_kept.
  - intros c. unfold db_add_course. db_grades_kept.
  - intros roll code. unfold db_enroll. db_grades_kept.
    eapply insert_grades_in_range; [| exact Hst | eassumption]. reflexivity.
  - intros s. unfold db_update_student. db_grades_kept.
  - intros c. unfold db_update_course. db_grades_kept.
  - intros roll. unfold db_delete_student. db_grades_kept.
    apply forallb_filter_kept. exact Hst.
  - intros code. unfold db_delete_course. db_grades_kept.
    apply forallb_filter_kept. exact Hst.
  - intros roll code. unfold db_delete_enrollment. db_grades_kept.
    apply forallb_filter_kept. exact Hst.
Qed.

Lemma cache_writes_in_range (d : DataStore) :
  cache_marks_in_range d = true ->
  (forall s, cache_marks_in_range (snd (add_student d s)) = true)
  /\ (forall c, cache_marks_in_range (snd (add_course d c)) = true)
  /\ (forall roll code, cache_marks_in_range (snd (enroll_student d roll code)) = true)
  /\ (forall roll code im fm,
         mark_in_range im = true -> mark_in_range fm = true ->
         cache_marks_in_range (snd (enter_marks d roll code im fm)) = true)
  /\ (forall s, cache_marks_in_range (snd (apply_student_update d s)) = true)
  /\ (forall c, cache_marks_in_range (snd (apply_course_update d c)) = true)
  /\ (forall roll, cache_marks_in_range (snd (remove_student d roll)) = true)
  /\ (forall code, cache_marks_in_range (snd (remove_course d code)) = true)
  /\ (forall roll code,
         cache_marks_in_range (snd (remove_enrollment d roll code)) = true).
Proof.
  intros Hd. unfold cache_marks_in_range in *.
  repeat match goal with |- _ /\ _ => split end.
  - intros s. unfold add_student. destruct (not_end _ _); exact Hd.
  - intros c. unfold add_course. destruct (not_end _ _); exact Hd.
  - intros roll code. unfold enroll_student.
    destruct (negb (not_end _ (all_students d))); [exact Hd|].
    destruct (negb (not_end _ (all_courses d))); [exact Hd|].
    destruct (not_end _ (all_grades d)); [exact Hd|].
    cbn [snd with_grades all_grades]. apply forallb_snoc; [exact Hd | reflexivity].
  - intros roll code im fm Hi Hf. unfold enter_marks.
    destruct (marks_rejected im fm); [exact Hd|].
    destruct (negb _); [exact Hd|].
    cbn [snd with_grades all_grades]. apply forallb_assign_at; [|exact Hd].
    intros g. unfold grade_in_range. cbn [Grade.internal_mark Grade.final_mark].
    rewrite Hi, Hf. reflexivity.
  - intros s. unfold apply_student_update.
    destruct (replace_first _ s (all_students d)). exact Hd.
  - intros c. unfold apply_course_update.
    destruct (replace_first _ c (all_courses d)). exact Hd.
  - intros roll. unfold remove_student. cbn [snd with_grades with_students all_grades].
    rewrite erase_remove_if_filter. apply forallb_filter_kept. exact Hd.
  - intros code. unfold remove_course. cbn [snd with_grades with_courses all_grades].
    rewrite erase_remove_if_filter. apply forallb_filter_kept. exact Hd.
  - intros roll code. unfold remove_enrollment. cbn [snd with_grades all_grades].
    rewrite erase_remove_if_filter. apply forallb_filter_kept. exact Hd.
Qed.

Ltac marks_protocol Hst Hd :=
  rewrite store_then_mirror;
  match goal with
  | |- context [if fst ?x then _ else _] => destruct (fst x) eqn:?
  end;
  cbn [snd fst db data calls];
  (split;
   [ first [ apply (db_writes_in_range _ Hst) | exact Hst ]
   | first [ apply (cache_writes_in_range _ Hd) | exact Hd ] ]).

Lemma marks_step (a : Action) (w : World) :
  persisted_marks_in_range (db w) = true ->
  cache_marks_in_range (data w) = true ->
  marks_from_prompt a = true ->
  persisted_marks_in_range (db (snd (run a w))) = true
  /\ cache_marks_in_range (data (snd (run a w))) = true.
Proof.
  intros Hst Hd Hmarks. destruct a; cbn [run].
  - unfold choice_1, bind, get_data, ret; cbv beta iota.
    destruct (exists_student _ _); [auto|]. marks_protocol Hst Hd.
  - unfold choice_3, bind, get_data, ret; cbv beta iota.
    destruct (exists_course _ _); [auto|]. marks_protocol Hst Hd.
  - unfold choice_5, bind, get_data, ret; cbv beta iota.
    destruct (negb (exists_student _ _)); [auto|].
    destruct (negb (exists_course _ _)); [auto|].
    destruct (already_enrolled _ _ _); [auto|]. marks_protocol Hst Hd.
  - unfold choice_6, save_marks, bind, get_data, ret; cbv beta iota.
    destruct (negb (already_enrolled _ _ _)); [auto|].
    cbn [marks_from_prompt] in Hmarks. apply negb_true_iff in Hmarks.
    rewrite store_then_mirror.
    destruct (fst (db_enter_marks (db w) r code im fm)) eqn:Hok;
      cbn [snd fst db data calls].
    + pose proof (db_enter_marks_true_not_nan _ _ _ _ _ Hok) as Hnan.
      destruct (accepted_marks_in_range im fm Hmarks Hnan) as [Hi Hf].
      split; [apply db_enter_marks_in_range; assumption|].
      apply (cache_writes_in_range _ Hd); assumption.
    + split; [apply db_enter_marks_in_range; assumption | exact Hd].
  - unfold choice_8, bind, get_data, ret; cbv beta iota.
    destruct (find _ _); [|auto]. marks_protocol Hst Hd.
  - unfold choice_9, bind, get_data, ret; cbv beta iota.
    destruct (find _ _); [|auto]. marks_protocol Hst Hd.
  - unfold choice_10, bind, get_data, ret; cbv beta iota.
    destruct (negb (exists_student _ _)); [auto|]. marks_protocol Hst Hd.
  - unfold choice_11, bind, get_data, ret; cbv beta iota.
    destruct (negb (exists_course _ _)); [auto|]. marks_protocol Hst Hd.
  - unfold choice_12, bind, get_data, ret; cbv beta iota.
    destruct (negb (already_enrolled _ _ _)); [auto|]. marks_protocol Hst Hd.
Qed.

(** X13: marks stay within bounds along every session.  When no mark in
    the database and none in the cache is outside [0, 100], the same is true
    after any sequence of writing menu entries whose marks pass the range
    test of the number prompt: marks in range are written as they are, and
    NaN, which the test lets through, is refused by the database before the
    cache is touched. *)
Theorem marks_stay_in_range (session : list Action) (w : World) :
  persisted_marks_in_range (db w) = true ->
  cache_marks_in_range (data w) = true ->
  forallb marks_from_prompt session = true ->
  persisted_marks_in_range (db (run_all session w)) = true
  /\ cache_marks_in_range (data (run_all session w)) = true.
Proof.
  unfold run_all. revert w.
  induction session as [|a session IH]; intros w Hst Hd Hmarks; [auto|].
  cbn [forallb] in Hmarks. apply andb_true_iff in Hmarks.
  destruct Hmarks as [Ha Hrest]. cbn [fold_left].
  destruct (marks_step a w Hst Hd Ha) as [Hst1 Hd1].
  apply IH; assumption.
Qed.

(** The theorem on a session from the seeded state: marks 0 and 100 are
    entered, and then NaN twice, which changes nothing. *)
Lemma marks_stay_in_range_witness :
  persisted_marks_in_range
    (db (run_all [ EnterMarks "S001" "MTH101" 0 100;
                   EnterMarks "S001" "SCI101" nan nan ] seeded_world)) = true
  /\ grades (db (run_all [ EnterMarks "S001" "MTH101" 0 100;
                           EnterMarks "S001" "SCI101" nan nan ] seeded_world))
     = [ Grade.mk "S001" "MTH101" 0 100; Grade.mk "S001" "SCI101" 62 70;
         Grade.mk "S002" "ENG101" 80 92; Grade.mk "S003" "MTH101" 55 60 ].
Proof.
  split; [|reflexivity].
  apply (marks_stay_in_range
           [ EnterMarks "S001" "MTH101" 0 100; EnterMarks "S001" "SCI101" nan nan ]
           seeded_world); reflexivity.
Defined.

(* ================================================================== *)
(** * The validators and the prompts of validation.hpp *)
(* ------------------------------------------------------------------ *)
(** ** The matcher against the strings a pattern denotes *)

Lemma nullable_iff (r : regex) : nullable r = true <-> Matches r [].
Proof.
  induction r; simpl.
  - split; [discriminate | intros H; inversion H].
  - split; [constructor | reflexivity].
  - split; [discriminate | intros H; inversion H].
  - rewrite andb_true_iff, IHr1, IHr2. split.
    + intros [H1 H2]. apply (MSeq _ _ [] [] H1 H2).
    + intros H. inversion H as [| |? ? x y H1 H2| | | |]; subst.
      match goal with E : _ ++ _ = [] |- _ => apply app_eq_nil in E; destruct E end.
      subst. auto.
  - rewrite orb_true_iff, IHr1, IHr2. split.
    + intros [H|H]; [apply MAltL | apply MAltR]; exact H.
    + intros H. inversion H; subst; auto.
  - split; [constructor | reflexivity].
Qed.

Lemma Matches_Seq_iff (r s : regex) (x : list ascii) :
  Matches (Seq r s) x
  <-> exists x1 x2, x = x1 ++ x2 /\ Matches r x1 /\ Matches s x2.
Proof.
  split.
  - intros H. inversion H as [| |? ? x1 x2 H1 H2| | | |]; subst.
    exists x1, x2. auto.
  - intros (x1 & x2 & -> & H1 & H2). apply MSeq; assumption.
Qed.

Lemma Matches_Alt_iff (r s : regex) (x : list ascii) :
  Matches (Alt r s) x <-> Matches r x \/ Matches s x.
Proof.
  split.
  - intros H. inversion H; subst; auto.
  - intros [H|H]; [apply MAltL | apply MAltR]; exact H.
Qed.

Lemma Matches_Empty_iff (x : list ascii) : Matches Empty x <-> x = [].
Proof.
  split; [intros H; inversion H; reflexivity | intros ->; constructor].
Qed.

Lemma Matches_Chars_iff (p : ascii -> bool) (x : list ascii) :
  Matches (Chars p) x <-> exists c, x = [c] /\ p c = true.
Proof.
  split.
  - intros H. inversion H as [|? c Hp| | | | |]; subst. exists c. auto.
  - intros (c & -> & Hp). apply MChars. exact Hp.
Qed.

(** A match of [r*] against a string that starts with [c] starts with a
    match of [r] against a string that starts with [c]. *)
Lemma star_cons_inv (r : regex) (c : ascii) (x : list ascii) :
  Matches (Star r) (c :: x) ->
  exists x1 x2, x = x1 ++ x2 /\ Matches r (c :: x1) /\ Matches (Star r) x2.
Proof.
  intros H. remember (Star r) as sr eqn:Er. remember (c :: x) as cx eqn:Ex.
  revert r c x Er Ex.
  induction H as [|p0 c0 Hp0|ra sa xa ya _ _ _ _|ra sa xa _ _|ra sa xa _ _|ra
                  |r0 x0 y0 H1 _ H2 IH2]; intros r c x Er Ex;
    try discriminate.
  injection Er as ->. destruct x0 as [|c0 x0].
  - simpl in Ex. apply (IH2 r c x eq_refl Ex).
  - simpl in Ex. injection Ex as -> <-. exists x0, y0. auto.
Qed.

Lemma deriv_iff (r : regex) (c : ascii) (x : list ascii) :
  Matches (deriv c r) x <-> Matches r (c :: x).
Proof.
  revert x. induction r; intros x; simpl.
  - split; intros H; inversion H.
  - split; intros H; inversion H.
  - destruct (p c) eqn:Hp.
    + split; intros H; inversion H; subst; [apply MChars; exact Hp | constructor].
    + split; intros H; inversion H; subst. congruence.
  - assert (Hseq : Matches (Seq (deriv c r1) r2) x <->
                   exists x1 x2, x = x1 ++ x2 /\ Matches r1 (c :: x1) /\ Matches r2 x2).
    { rewrite Matches_Seq_iff. split.
      - intros (x1 & x2 & -> & H1 & H2). exists x1, x2. rewrite <- IHr1. auto.
      - intros (x1 & x2 & -> & H1 & H2). exists x1, x2. rewrite IHr1. auto. }
    assert (Hinv : Matches (Seq r1 r2) (c :: x) <->
                   (exists x1 x2, x = x1 ++ x2 /\ Matches r1 (c :: x1) /\ Matches r2 x2)
                   \/ (Matches r1 [] /\ Matches r2 (c :: x))).
    { rewrite Matches_Seq_iff. split.
      - intros (x1 & x2 & E & H1 & H2). destruct x1 as [|c1 x1]; simpl in E.
        + subst. right. auto.
        + injection E as -> ->. left. exists x1, x2. auto.
      - intros [(x1 & x2 & -> & H1 & H2)|[H1 H2]].
        + exists (c :: x1), x2. auto.
        + exists [], (c :: x). auto. }
    rewrite Hinv. destruct (nullable r1) eqn:Hn.
    + rewrite Matches_Alt_iff, Hseq, IHr2. split.
      * intros [H|H]; [left; exact H | right].
        split; [apply nullable_iff; exact Hn | exact H].
      * intros [H|[_ H]]; auto.
    + rewrite Hseq. split; [auto|].
      intros [H|[H _]]; [exact H|]. apply nullable_iff in H. congruence.
  - rewrite !Matches_Alt_iff, IHr1, IHr2. reflexivity.
  - rewrite Matches_Seq_iff. split.
    + intros (x1 & x2 & -> & H1 & H2).
      apply (MStarCons r (c :: x1) x2); [apply IHr; exact H1 | exact H2].
    + intros H. destruct (star_cons_inv r c x H) as (x1 & x2 & -> & H1 & H2).
      exists x1, x2. rewrite IHr. auto.
Qed.

(** The matcher decides membership. *)
Lemma matches_iff (r : regex) (x : list ascii) :
  matches r x = true <-> Matches r x.
Proof.
  revert r. induction x as [|c x IH]; intros r; simpl.
  - apply nullable_iff.
  - rewrite IH. apply deriv_iff.
Qed.

Lemma Matches_anchored_iff (r : regex) (x : list ascii) :
  Matches (anchored r) x <-> Matches r x.
Proof.
  unfold anchored. rewrite Matches_Seq_iff. split.
  - intros (x1 & x2 & -> & H1 & H2). apply Matches_Empty_iff in H1. subst x1.
    apply Matches_Seq_iff in H2. destruct H2 as (y1 & y2 & -> & H2 & H3).
    apply Matches_Empty_iff in H3. subst y2. simpl. rewrite app_nil_r. exact H2.
  - intros H. exists [], x. split; [reflexivity|]. split; [constructor|].
    rewrite <- (app_nil_r x). apply MSeq; [exact H | constructor].
Qed.

Lemma Matches_chr_iff (a : ascii) (x : list ascii) :
  Matches (chr a) x <-> x = [a].
Proof.
  unfold chr. rewrite Matches_Chars_iff. split.
  - intros (c & -> & H). apply Ascii.eqb_eq in H. subst. reflexivity.
  - intros ->. exists a. split; [reflexivity | apply Ascii.eqb_refl].
Qed.

Lemma Matches_opt_chars_iff (p : ascii -> bool) (x : list ascii) :
  Matches (opt (Chars p)) x
  <-> (List.length x <= 1)%nat /\ forallb p x = true.
Proof.
  unfold opt. rewrite Matches_Alt_iff, Matches_Empty_iff, Matches_Chars_iff.
  split.
  - intros [->|(c & -> & H)]; simpl; [auto|]. rewrite H. auto.
  - intros [Hl Hp]. destruct x as [|c [|c' x]]; simpl in *; [auto| |lia].
    right. exists c. rewrite andb_true_r in Hp. auto.
Qed.

(** [p{n}]: exactly [n] characters of the class. *)
Lemma Matches_times_chars_iff (n : nat) (p : ascii -> bool) (x : list ascii) :
  Matches (times n (Chars p)) x
  <-> List.length x = n /\ forallb p x = true.
Proof.
  revert x. induction n as [|n IH]; intros x; cbn [times].
  - rewrite Matches_Empty_iff. split.
    + intros ->. auto.
    + intros [H _]. destruct x; [reflexivity | discriminate].
  - rewrite Matches_Seq_iff. split.
    + intros (x1 & x2 & -> & H1 & H2). apply Matches_Chars_iff in H1.
      destruct H1 as (c & -> & Hp). apply IH in H2. destruct H2 as [Hl Hall].
      simpl. rewrite Hl, Hp, Hall. auto.
    + intros [Hl Hall]. destruct x as [|c x]; [discriminate|].
      simpl in Hl, Hall. apply andb_true_iff in Hall. destruct Hall as [Hp Hall].
      exists [c], x. split; [reflexivity|]. split.
      * apply MChars. exact Hp.
      * apply IH. split; [lia | exact Hall].
Qed.

(** [(p?){k}]: at most [k] characters of the class. *)
Lemma Matches_times_opt_chars_iff (k : nat) (p : ascii -> bool) (x : list ascii) :
  Matches (times k (opt (Chars p))) x
  <-> (List.length x <= k)%nat /\ forallb p x = true.
Proof.
  revert x. induction k as [|k IH]; intros x; cbn [times].
  - rewrite Matches_Empty_iff. split.
    + intros ->. auto.
    + intros [H _]. destruct x; [reflexivity | simpl in H; lia].
  - rewrite Matches_Seq_iff. split.
    + intros (x1 & x2 & -> & H1 & H2). apply Matches_opt_chars_iff in H1.
      apply IH in H2. destruct H1 as [Hl1 Hp1]. destruct H2 as [Hl2 Hp2].
      rewrite length_app, forallb_app, Hp1, Hp2. split; [lia | reflexivity].
    + intros [Hl Hall]. destruct x as [|c x].
      * exists [], []. split; [reflexivity|]. split.
        -- apply Matches_opt_chars_iff. simpl. auto.
        -- apply IH. simpl. split; [lia | reflexivity].
      * simpl in Hl, Hall. apply andb_true_iff in Hall. destruct Hall as [Hp Hall].
        exists [c], x. split; [reflexivity|]. split.
        -- apply Matches_opt_chars_iff. simpl. rewrite Hp. auto.
        -- apply IH. split; [lia | exact Hall].
Qed.

(** [p{m,n}]: between [m] and [n] characters of the class. *)
Lemma Matches_between_chars_iff (m n : nat) (p : ascii -> bool) (x : list ascii) :
  (m <= n)%nat ->
  Matches (between m n (Chars p)) x
  <-> (m <= List.length x <= n)%nat /\ forallb p x = true.
Proof.
  intros Hmn. unfold between. rewrite Matches_Seq_iff. split.
  - intros (x1 & x2 & -> & H1 & H2). apply Matches_times_chars_iff in H1.
    apply Matches_times_opt_chars_iff in H2.
    destruct H1 as [Hl1 Hp1]. destruct H2 as [Hl2 Hp2].
    rewrite length_app, forallb_app, Hp1, Hp2. split; [lia | reflexivity].
  - intros [Hl Hall]. exists (firstn m x), (skipn m x).
    rewrite <- (firstn_skipn m x) in Hall. rewrite forallb_app in Hall.
    apply andb_true_iff in Hall. destruct Hall as [Hp1 Hp2].
    split; [symmetry; apply firstn_skipn|]. split.
    + apply Matches_times_chars_iff. split; [|exact Hp1].
      rewrite length_firstn. lia.
    + apply Matches_times_opt_chars_iff. split; [|exact Hp2].
      rewrite length_skipn. lia.
Qed.

(** [p*]: any number of characters of the class. *)
Lemma Matches_star_chars_iff (p : ascii -> bool) (x : list ascii) :
  Matches (Star (Chars p)) x <-> forallb p x = true.
Proof.
  split.
  - intros H. remember (Star (Chars p)) as sr eqn:Er.
    induction H as [|p0 c0 Hp0|ra sa xa ya _ _ _ _|ra sa xa _ _|ra sa xa _ _|ra
                    |r0 x0 y0 H1 _ H2 IH2]; try discriminate.
    + reflexivity.
    + injection Er as ->. apply Matches_Chars_iff in H1.
      destruct H1 as (c & -> & Hp). simpl. rewrite Hp. apply IH2. reflexivity.
  - induction x as [|c x IH]; intros H; [constructor|].
    simpl in H. apply andb_true_iff in H. destruct H as [Hp Hall].
    apply (MStarCons (Chars p) [c] x); [apply MChars; exact Hp | apply IH; exact Hall].
Qed.

(** [p+]: at least one character, all of the class. *)
Lemma Matches_plus_chars_iff (p : ascii -> bool) (x : list ascii) :
  Matches (plus (Chars p)) x <-> x <> [] /\ forallb p x = true.
Proof.
  unfold plus. rewrite Matches_Seq_iff. split.
  - intros (x1 & x2 & -> & H1 & H2). apply Matches_Chars_iff in H1.
    destruct H1 as (c & -> & Hp). apply Matches_star_chars_iff in H2.
    simpl. rewrite Hp, H2. split; [discriminate | reflexivity].
  - intros [Hne Hall]. destruct x as [|c x]; [congruence|].
    simpl in Hall. apply andb_true_iff in Hall. destruct Hall as [Hp Hall].
    exists [c], x. split; [reflexivity|]. split.
    + apply MChars. exact Hp.
    + apply Matches_star_chars_iff. exact Hall.
Qed.

(* ------------------------------------------------------------------ *)
(** ** Strings and their characters *)

Lemma chars_app (a b : string) :
  list_ascii_of_string (a ++ b)%string
  = list_ascii_of_string a ++ list_ascii_of_string b.
Proof.
  induction a as [|c a IH]; simpl; [reflexivity|]. rewrite IH. reflexivity.
Qed.

Lemma text_app (a b : list ascii) :
  string_of_list_ascii (a ++ b)
  = (string_of_list_ascii a ++ string_of_list_ascii b)%string.
Proof.
  induction a as [|c a IH]; simpl; [reflexivity|]. rewrite IH. reflexivity.
Qed.

Lemma chars_length (s : string) :
  List.length (list_ascii_of_string s) = String.length s.
Proof.
  induction s as [|c s IH]; simpl; [reflexivity|]. rewrite IH. reflexivity.
Qed.

Lemma text_length (l : list ascii) :
  String.length (string_of_list_ascii l) = List.length l.
Proof.
  rewrite <- chars_length, list_ascii_of_string_of_list_ascii. reflexivity.
Qed.

Lemma chars_inj (a b : string) :
  list_ascii_of_string a = list_ascii_of_string b -> a = b.
Proof.
  intros H. rewrite <- (string_of_list_ascii_of_string a),
    <- (string_of_list_ascii_of_string b), H. reflexivity.
Qed.

Lemma all_chars_text (p : ascii -> bool) (l : list ascii) :
  all_chars p (string_of_list_ascii l) = forallb p l.
Proof.
  unfold all_chars. rewrite list_ascii_of_string_of_list_ascii. reflexivity.
Qed.

(* ------------------------------------------------------------------ *)
(** ** [trim] *)

Lemma skip_space_split (l : list ascii) :
  exists ws, l = ws ++ skip_space l /\ forallb isspace ws = true.
Proof.
  induction l as [|c l (ws & E & H)]; [exists []; auto|].
  simpl. destruct (isspace c) eqn:Hc.
  - exists (c :: ws). simpl. rewrite Hc, H, <- E. auto.
  - exists []. auto.
Qed.

Lemma skip_space_head (l : list ascii) :
  space_at (hd_error (skip_space l)) = false.
Proof.
  induction l as [|c l IH]; [reflexivity|]. simpl.
  destruct (isspace c) eqn:Hc; [exact IH | simpl; exact Hc].
Qed.

Lemma skip_space_fixed (l : list ascii) :
  space_at (hd_error l) = false -> skip_space l = l.
Proof.
  destruct l as [|c l]; simpl; [reflexivity|]. intros ->. reflexivity.
Qed.

Lemma skip_space_nil_iff (l : list ascii) :
  skip_space l = [] <-> forallb isspace l = true.
Proof.
  induction l as [|c l IH]; simpl; [tauto|].
  destruct (isspace c); simpl; [exact IH|]. split; discriminate.
Qed.

Lemma forallb_rev {A : Type} (p : A -> bool) (l : list A) :
  forallb p (rev l) = forallb p l.
Proof.
  induction l as [|a l IH]; [reflexivity|].
  simpl. rewrite forallb_app, IH. simpl. rewrite andb_true_r. apply andb_comm.
Qed.

Lemma hd_error_app_cons {A : Type} (l l' : list A) :
  l <> [] -> hd_error (l ++ l') = hd_error l.
Proof.
  destruct l; [congruence | reflexivity].
Qed.

Lemma trim_empty_iff (s : string) :
  trim s = "" <-> forallb isspace (list_ascii_of_string s) = true.
Proof.
  unfold trim. split.
  - intros E. apply (f_equal list_ascii_of_string) in E.
    rewrite list_ascii_of_string_of_list_ascii in E. simpl in E.
    apply (f_equal (@rev ascii)) in E. rewrite rev_involutive in E. simpl in E.
    apply skip_space_nil_iff in E. rewrite forallb_rev in E.
    destruct (skip_space_split (list_ascii_of_string s)) as (ws & E1 & H1).
    rewrite E1, forallb_app, H1. exact E.
  - intros H. apply skip_space_nil_iff in H. rewrite H. reflexivity.
Qed.

Lemma trim_fixed (s : string) : trimmed s = true -> trim s = s.
Proof.
  intros Ht. unfold trimmed in Ht. apply andb_true_iff in Ht.
  destruct Ht as [H1 H2]. apply negb_true_iff in H1, H2. unfold trim.
  rewrite (skip_space_fixed _ H1), (skip_space_fixed _ H2), rev_involutive.
  apply string_of_list_ascii_of_string.
Qed.

Lemma trim_trimmed (s : string) : trimmed (trim s) = true.
Proof.
  unfold trimmed, trim. rewrite list_ascii_of_string_of_list_ascii.
  set (l1 := skip_space (list_ascii_of_string s)).
  assert (H1 : space_at (hd_error l1) = false) by apply skip_space_head.
  destruct (skip_space_split (rev l1)) as (ws & E & Hws).
  assert (H2 : space_at (hd_error (skip_space (rev l1))) = false)
    by apply skip_space_head.
  rewrite rev_involutive, H2, andb_true_r. apply negb_true_iff.
  destruct (skip_space (rev l1)) as [|c r2]; [reflexivity|].
  assert (El1 : l1 = rev (c :: r2) ++ rev ws).
  { rewrite <- rev_app_distr, <- E, rev_involutive. reflexivity. }
  rewrite El1 in H1. rewrite hd_error_app_cons in H1; [exact H1|].
  intros Hnil. apply (f_equal (@List.length ascii)) in Hnil.
  rewrite length_rev in Hnil. discriminate.
Qed.

(** X14: [trim] removes white space at the two ends and nothing else.  The
    argument is the result between two runs of white space; the result
    neither starts nor ends with white space; a string that neither starts
    nor ends with white space is returned as it is, and no other string is,
    so that trimming twice is trimming once; and the result is empty exactly
    when the argument holds nothing but white space. *)
Theorem trim_ends_only (s : string) :
  (exists before after,
      s = (before ++ trim s ++ after)%string
      /\ all_chars isspace before = true
      /\ all_chars isspace after = true)
  /\ trimmed (trim s) = true
  /\ (if trimmed s then trim s = s else trim s <> s)
  /\ trim (trim s) = trim s
  /\ (trim s = "" <-> all_chars isspace s = true).
Proof.
  pose proof (trim_trimmed s) as Htr.
  split; [|split; [exact Htr|split; [|split]]].
  - destruct (skip_space_split (list_ascii_of_string s)) as (ws1 & E1 & H1).
    destruct (skip_space_split (rev (skip_space (list_ascii_of_string s))))
      as (ws2 & E2 & H2).
    exists (string_of_list_ascii ws1), (string_of_list_ascii (rev ws2)).
    rewrite !all_chars_text, forallb_rev, H1, H2.
    split; [|auto]. apply chars_inj. unfold trim.
    rewrite !chars_app, !list_ascii_of_string_of_list_ascii.
    rewrite <- rev_app_distr, <- E2, rev_involutive. exact E1.
  - destruct (trimmed s) eqn:Hs; [apply trim_fixed; exact Hs|].
    intros E. rewrite E in Htr. congruence.
  - apply trim_fixed. exact Htr.
  - apply trim_empty_iff.
Qed.

(* ------------------------------------------------------------------ *)
(** ** What the validators accept *)

(** X15: [is_valid_roll] accepts exactly the strings made of the letter S
    followed by three to six digits. *)
Theorem is_valid_roll_iff (x : string) :
  is_valid_roll x = true
  <-> exists digits,
        x = String "S" digits
        /\ (3 <= String.length digits <= 6)%nat
        /\ all_chars is_digit digits = true.
Proof.
  unfold is_valid_roll, regex_match, roll_re.
  rewrite matches_iff, Matches_anchored_iff, Matches_Seq_iff. split.
  - intros (x1 & x2 & E & H1 & H2). apply Matches_chr_iff in H1. subst x1.
    apply Matches_between_chars_iff in H2; [|lia]. destruct H2 as [Hl Hd].
    exists (string_of_list_ascii x2).
    rewrite text_length, all_chars_text. split; [|auto].
    apply chars_inj. rewrite E. simpl.
    rewrite list_ascii_of_string_of_list_ascii. reflexivity.
  - intros (digits & -> & Hl & Hd).
    exists ["S"%char], (list_ascii_of_string digits).
    split; [reflexivity|]. split; [apply Matches_chr_iff; reflexivity|].
    apply Matches_between_chars_iff; [lia|]. rewrite chars_length. auto.
Qed.

(** X16: [is_valid_course_code] accepts exactly the strings made of three
    capital letters followed by three digits; small letters are refused. *)
Theorem is_valid_course_code_iff (x : string) :
  is_valid_course_code x = true
  <-> exists letters digits,
        x = (letters ++ digits)%string
        /\ String.length letters = 3%nat
        /\ all_chars is_upper letters = true
        /\ String.length digits = 3%nat
        /\ all_chars is_digit digits = true.
Proof.
  unfold is_valid_course_code, regex_match, course_code_re.
  rewrite matches_iff, Matches_anchored_iff, Matches_Seq_iff. split.
  - intros (x1 & x2 & E & H1 & H2).
    apply Matches_times_chars_iff in H1, H2.
    destruct H1 as [Hl1 Hp1]. destruct H2 as [Hl2 Hp2].
    exists (string_of_list_ascii x1), (string_of_list_ascii x2).
    rewrite !text_length, !all_chars_text. split; [|auto].
    apply chars_inj. rewrite chars_app, !list_ascii_of_string_of_list_ascii.
    exact E.
  - intros (letters & digits & -> & Hl1 & Hp1 & Hl2 & Hp2).
    exists (list_ascii_of_string letters), (list_ascii_of_string digits).
    split; [apply chars_app|].
    split; apply Matches_times_chars_iff; rewrite chars_length; auto.
Qed.

(** X17: [is_valid_name] accepts exactly the strings of 2 to 40 characters
    that are all letters, spaces, apostrophes or hyphens. *)
Theorem is_valid_name_iff (x : string) :
  is_valid_name x = true
  <-> (2 <= String.length x <= 40)%nat /\ all_chars name_char x = true.
Proof.
  unfold is_valid_name, regex_match, name_re, all_chars.
  destruct (String.length x <? 2)%nat eqn:H2;
    [apply Nat.ltb_lt in H2 | apply Nat.ltb_ge in H2]; cbn [orb].
  - split; [discriminate | lia].
  - destruct (40 <? String.length x)%nat eqn:H40;
      [apply Nat.ltb_lt in H40 | apply Nat.ltb_ge in H40].
    + split; [discriminate | lia].
    + rewrite matches_iff, Matches_anchored_iff, Matches_plus_chars_iff. split.
      * intros [_ H]. split; [lia | exact H].
      * intros [_ H]. split; [|exact H].
        intros E. apply (f_equal (@List.length ascii)) in E.
        rewrite chars_length in E. simpl in E. lia.
Qed.

Lemma area_digit (a : ascii) :
  char_in "2" "9" a = Ascii.eqb "2" a || char_in "3" "9" a.
Proof.
  destruct a as [[] [] [] [] [] [] [] []]; reflexivity.
Qed.

Lemma Matches_subscriber_iff (x : list ascii) :
  Matches subscriber x
  <-> exists s1 g1 s2 g2,
        x = s1 ++ g1 ++ s2 ++ g2
        /\ ((List.length s1 <= 1)%nat /\ forallb separator s1 = true)
        /\ (List.length g1 = 3%nat /\ forallb is_digit g1 = true)
        /\ ((List.length s2 <= 1)%nat /\ forallb separator s2 = true)
        /\ ((3 <= List.length g2 <= 4)%nat /\ forallb is_digit g2 = true).
Proof.
  unfold subscriber. rewrite Matches_Seq_iff. split.
  - intros (s1 & r1 & -> & H1 & H). apply Matches_Seq_iff in H.
    destruct H as (g1 & r2 & -> & H2 & H). apply Matches_Seq_iff in H.
    destruct H as (s2 & g2 & -> & H3 & H4).
    apply Matches_opt_chars_iff in H1, H3. apply Matches_times_chars_iff in H2.
    apply Matches_between_chars_iff in H4; [|lia].
    exists s1, g1, s2, g2. auto.
  - intros (s1 & g1 & s2 & g2 & -> & H1 & H2 & H3 & H4).
    exists s1, (g1 ++ s2 ++ g2). split; [reflexivity|].
    split; [apply Matches_opt_chars_iff; exact H1|].
    apply MSeq; [apply Matches_times_chars_iff; exact H2|].
    apply MSeq; [apply Matches_opt_chars_iff; exact H3|].
    apply Matches_between_chars_iff; [lia | exact H4].
Qed.

Lemma Matches_phone_first_iff (x : list ascii) :
  Matches phone_first x
  <-> exists a b rest,
        x = "0"%char :: a :: b :: rest
        /\ char_in "2" "9" a = true /\ is_digit b = true
        /\ Matches subscriber rest.
Proof.
  unfold phone_first. rewrite Matches_anchored_iff, Matches_Seq_iff. split.
  - intros (x1 & r1 & -> & H1 & H). apply Matches_chr_iff in H1. subst x1.
    apply Matches_Seq_iff in H. destruct H as (ab & rest & -> & H2 & H3).
    apply Matches_Alt_iff in H2.
    destruct H2 as [H2|H2]; apply Matches_Seq_iff in H2;
      destruct H2 as (a & b & -> & Ha & Hb);
      apply Matches_Chars_iff in Ha, Hb;
      destruct Ha as (ca & -> & Ha); destruct Hb as (cb & -> & Hb);
      exists ca, cb, rest; rewrite area_digit, Ha;
      (split; [reflexivity|]); (split; [|auto]);
      [reflexivity | apply orb_true_r].
  - intros (a & b & rest & -> & Ha & Hb & Hrest).
    exists ["0"%char], (a :: b :: rest). split; [reflexivity|].
    split; [apply Matches_chr_iff; reflexivity|].
    apply (MSeq _ _ [a; b] rest); [|exact Hrest].
    rewrite area_digit in Ha. apply orb_true_iff in Ha. destruct Ha as [Ha|Ha].
    + apply MAltL. apply (MSeq _ _ [a] [b]); apply MChars; assumption.
    + apply MAltR. apply (MSeq _ _ [a] [b]); apply MChars; assumption.
Qed.

Lemma phone_second_in_first (x : list ascii) :
  Matches phone_second x -> Matches phone_first x.
Proof.
  unfold phone_second. rewrite Matches_anchored_iff. intros H.
  apply Matches_Seq_iff in H. destruct H as (x0 & r0 & -> & H0 & H).
  apply Matches_Seq_iff in H. destruct H as (x2 & r2 & -> & H2 & H).
  apply Matches_Seq_iff in H. destruct H as (x1 & rest & -> & H1 & H).
  apply Matches_chr_iff in H0, H2, H1. subst.
  apply Matches_phone_first_iff. exists "2"%char, "1"%char, rest. auto.
Qed.

(** X18: [is_valid_phone] accepts exactly the strings made of a 0, a digit
    from 2 to 9, one more digit, then three digits and three or four digits,
    each of the two groups optionally preceded by one hyphen or space.  The
    second alternative of the pattern (the one for 021) accepts nothing that
    the first does not. *)
Theorem is_valid_phone_iff (x : string) :
  (is_valid_phone x = true
   <-> exists a b sep1 group1 sep2 group2,
         x = String "0" (String a (String b
               (sep1 ++ group1 ++ sep2 ++ group2)))%string
         /\ char_in "2" "9" a = true /\ is_digit b = true
         /\ optional_separator sep1 = true
         /\ String.length group1 = 3%nat /\ all_chars is_digit group1 = true
         /\ optional_separator sep2 = true
         /\ (3 <= String.length group2 <= 4)%nat
         /\ all_chars is_digit group2 = true)
  /\ is_valid_phone x = regex_match x phone_first.
Proof.
  assert (Hfirst : is_valid_phone x = regex_match x phone_first).
  { unfold is_valid_phone, regex_match, phone_re. apply eq_true_iff_eq.
    rewrite !matches_iff, Matches_Alt_iff. split; [|auto].
    intros [H|H]; [exact H | apply phone_second_in_first; exact H]. }
  split; [|exact Hfirst]. rewrite Hfirst. unfold regex_match.
  rewrite matches_iff, Matches_phone_first_iff. unfold optional_separator. split.
  - intros (a & b & rest & E & Ha & Hb & Hrest).
    apply Matches_subscriber_iff in Hrest.
    destruct Hrest as (s1 & g1 & s2 & g2 & -> & [L1 P1] & [L2 P2] & [L3 P3] & [L4 P4]).
    exists a, b, (string_of_list_ascii s1), (string_of_list_ascii g1),
      (string_of_list_ascii s2), (string_of_list_ascii g2).
    rewrite !text_length, !all_chars_text, P1, P2, P3, P4, L2.
    split; [|repeat split; try assumption; try lia;
             apply andb_true_iff; split; auto; apply Nat.leb_le; assumption].
    apply chars_inj. rewrite E. simpl.
    rewrite !chars_app, !list_ascii_of_string_of_list_ascii. reflexivity.
  - intros (a & b & s1 & g1 & s2 & g2 & -> & Ha & Hb & H1 & L2 & P2 & H3 & L4 & P4).
    apply andb_true_iff in H1, H3. destruct H1 as [L1 P1]. destruct H3 as [L3 P3].
    apply Nat.leb_le in L1, L3.
    exists a, b, (list_ascii_of_string (s1 ++ g1 ++ s2 ++ g2)%string).
    split; [reflexivity|]. split; [exact Ha|]. split; [exact Hb|].
    apply Matches_subscriber_iff.
    exists (list_ascii_of_string s1), (list_ascii_of_string g1),
      (list_ascii_of_string s2), (list_ascii_of_string g2).
    rewrite !chars_app, !chars_length. unfold all_chars in *. auto 10.
Qed.

(** X19: [is_non_empty_short] accepts exactly the strings of at most 60
    characters that hold a character other than white space. *)
Theorem is_non_empty_short_iff (x : string) :
  is_non_empty_short x = true
  <-> (String.length x <= 60)%nat
      /\ some_char (fun c => negb (isspace c)) x = true.
Proof.
  unfold is_non_empty_short, some_char.
  rewrite andb_true_iff, Nat.leb_le, negb_true_iff, String.eqb_neq, trim_empty_iff.
  assert (Hall : forall l, existsb (fun c => negb (isspace c)) l
                           = negb (forallb isspace l)).
  { induction l as [|c l IH]; [reflexivity|]. simpl. rewrite IH.
    destruct (isspace c); reflexivity. }
  rewrite Hall. destruct (forallb isspace _); simpl; split; intros [H1 H2];
    split; congruence || assumption.
Qed.

(* ------------------------------------------------------------------ *)
(** ** Reading lines *)

Lemma skip_space_length (cin : Stream) :
  (List.length (skip_space cin) <= List.length cin)%nat.
Proof.
  induction cin as [|c cin IH]; simpl; [lia|].
  destruct (isspace c); simpl; lia.
Qed.

Lemma getline_length (cin : Stream) :
  (List.length (snd (getline cin)) <= List.length cin)%nat.
Proof.
  induction cin as [|c cin IH]; simpl; [lia|].
  destruct (Ascii.eqb c "010"); simpl; [lia|].
  destruct (getline cin) as [v rest]. simpl in *. lia.
Qed.

(** A successful read of a line takes at least one character and yields a
    line that starts with a character other than white space. *)
Lemma getline_ws_some (cin : Stream) (v : string) (rest : Stream) :
  getline_ws cin = Some (v, rest) ->
  (List.length rest < List.length cin)%nat
  /\ exists c v', v = String c v' /\ isspace c = false.
Proof.
  unfold getline_ws. pose proof (skip_space_length cin) as Hl.
  pose proof (skip_space_head cin) as Hh.
  destruct (skip_space cin) as [|c r]; [discriminate|].
  simpl in Hh. pose proof (getline_length r) as Hr.
  cbn [getline]. destruct (Ascii.eqb c "010") eqn:Hc.
  - apply Ascii.eqb_eq in Hc. subst c. discriminate Hh.
  - destruct (getline r) as [v' rest'] eqn:Hg. intros E. injection E as <- <-.
    simpl in *. split; [lia|]. exists c, v'. auto.
Qed.

Lemma getline_ws_not_blank (cin : Stream) (v : string) (rest : Stream) :
  getline_ws cin = Some (v, rest) -> trim v <> "".
Proof.
  intros H. apply getline_ws_some in H. destruct H as (_ & c & v' & -> & Hc).
  rewrite trim_empty_iff. simpl. rewrite Hc. discriminate.
Qed.

Lemma getline_ws_skips (blank cin : Stream) :
  forallb isspace blank = true -> getline_ws (blank ++ cin) = getline_ws cin.
Proof.
  intros H. unfold getline_ws.
  assert (E : skip_space (blank ++ cin) = skip_space cin).
  { induction blank as [|c blank IH]; [reflexivity|].
    simpl in H. apply andb_true_iff in H. destruct H as [Hc H].
    simpl. rewrite Hc. apply IH. exact H. }
  rewrite E. reflexivity.
Qed.

(* ------------------------------------------------------------------ *)
(** ** The loop of the prompts *)

(** More rounds than there are characters change nothing. *)
Lemma prompt_loop_fuel {R : Type} (body : string -> option R) (n m : nat)
    (cin : Stream) :
  (List.length cin < n)%nat -> (List.length cin < m)%nat ->
  prompt_loop body n cin = prompt_loop body m cin.
Proof.
  revert m cin. induction n as [|n IH]; intros m cin Hn Hm; [lia|].
  destruct m as [|m]; [lia|]. cbn [prompt_loop].
  destruct (getline_ws cin) as [[v rest]|] eqn:Hg; [|reflexivity].
  apply getline_ws_some in Hg. destruct Hg as [Hl _].
  destruct (body (trim v)); [reflexivity|]. apply IH; lia.
Qed.

(** What a prompt returns is what the body of its loop returns on a line
    that was read, trimmed and is not empty; the input has become shorter. *)
Lemma prompt_loop_some {R : Type} (body : string -> option R) (n : nat)
    (cin : Stream) (r : R) (rest : Stream) :
  prompt_loop body n cin = Some (r, rest) ->
  (List.length rest < List.length cin)%nat
  /\ exists v, body (trim v) = Some r /\ trim v <> "".
Proof.
  revert cin. induction n as [|n IH]; intros cin H; [discriminate|].
  cbn [prompt_loop] in H.
  destruct (getline_ws cin) as [[v rest1]|] eqn:Hg; [|discriminate].
  pose proof (getline_ws_not_blank _ _ _ Hg) as Hv.
  apply getline_ws_some in Hg. destruct Hg as [Hl _].
  destruct (body (trim v)) as [r1|] eqn:Hb.
  - injection H as <- <-. split; [exact Hl|]. exists v. auto.
  - apply IH in H. destruct H as [Hl2 Hex]. split; [lia | exact Hex].
Qed.

Lemma prompting_some {R : Type} (body : string -> option R) (cin : Stream)
    (r : R) (rest : Stream) :
  prompting body cin = Some (r, rest) ->
  (List.length rest < List.length cin)%nat
  /\ exists v, body (trim v) = Some r /\ trim v <> "".
Proof. apply prompt_loop_some. Qed.

(** Two bodies that agree on every line but the empty one make the same
    prompt. *)
Lemma prompt_loop_ext {R : Type} (body1 body2 : string -> option R) (n : nat)
    (cin : Stream) :
  (forall v, v <> "" -> body1 v = body2 v) ->
  prompt_loop body1 n cin = prompt_loop body2 n cin.
Proof.
  intros Hext. revert cin. induction n as [|n IH]; intros cin; [reflexivity|].
  cbn [prompt_loop].
  destruct (getline_ws cin) as [[v rest]|] eqn:Hg; [|reflexivity].
  rewrite (Hext (trim v) (getline_ws_not_blank _ _ _ Hg)), IH. reflexivity.
Qed.

Lemma prompting_skips {R : Type} (body : string -> option R)
    (blank cin : Stream) :
  forallb isspace blank = true ->
  prompting body (blank ++ cin) = prompting body cin.
Proof.
  intros H. unfold prompting.
  rewrite (prompt_loop_fuel body (S (List.length cin))
             (S (List.length (blank ++ cin))) cin); [|lia|rewrite length_app; lia].
  cbn [prompt_loop]. rewrite (getline_ws_skips _ _ H). reflexivity.
Qed.

(** X20: a blank line is no answer.  White space before an answer, whole
    blank lines among it, changes the result of no prompt: Enter alone is
    skipped.  So [prompt_edit_string] never keeps the current value on an
    empty answer: it is [prompt_until_valid_or_back] for every input; and
    [confirm_or_back] never cancels on an empty answer. *)
Theorem blank_line_is_no_answer (blank cin : Stream) :
  forallb isspace blank = true ->
  (forall validator,
      prompt_until_valid validator (blank ++ cin)
      = prompt_until_valid validator cin)
  /\ (forall out validator,
         prompt_until_valid_or_back out validator (blank ++ cin)
         = prompt_until_valid_or_back out validator cin)
  /\ (forall stod out lo hi,
         prompt_number_or_back stod out lo hi (blank ++ cin)
         = prompt_number_or_back stod out lo hi cin)
  /\ (forall current out validator,
         prompt_edit_string current out validator (blank ++ cin)
         = prompt_until_valid_or_back out validator cin)
  /\ confirm_or_back (blank ++ cin) = confirm_or_back cin.
Proof.
  intros H. split; [|split; [|split; [|split]]]; intros.
  - apply prompting_skips. exact H.
  - apply prompting_skips. exact H.
  - apply prompting_skips. exact H.
  - unfold prompt_edit_string. rewrite (prompting_skips _ _ _ H).
    apply prompt_loop_ext. intros v Hv.
    apply String.eqb_neq in Hv. rewrite Hv. reflexivity.
  - apply prompting_skips. exact H.
Qed.

(** The theorem on an edit prompt that is answered with two blank lines and
    then a name: the name is taken, the current value is not kept. *)
Lemma blank_line_is_no_answer_witness :
  prompt_edit_string "Ava" "Ava" is_valid_name
    (list_ascii_of_string (String "010" (String " " (String "010" "Al"))))
  = Some (Ok, "Al", []).
Proof.
  destruct (blank_line_is_no_answer
              ["010"%char; " "%char; "010"%char] (list_ascii_of_string "Al")
              eq_refl) as (_ & _ & _ & H & _).
  exact (H "Ava" "Ava" is_valid_name).
Defined.

(* ------------------------------------------------------------------ *)
(** ** What the prompts deliver *)

Lemma is_back_not_empty (v : string) : is_back v = true -> v <> "".
Proof. intros H E. subst v. discriminate H. Qed.

(** X21: what [prompt_until_valid_or_back] returns.  It has read at least
    one character.  With [Ok], [out] is a line of the input, trimmed, not
    empty, that passed the validator and is none of the words for Back and
    Exit: a value equal to such a word cannot be entered, whatever the
    validator says.  With [Back] or [Exit], [out] is as it was. *)
Theorem prompt_delivers_validated (out : string) (validator : string -> bool)
    (cin : Stream) (ctl : InputCtl) (out' : string) (rest : Stream) :
  prompt_until_valid_or_back out validator cin = Some (ctl, out', rest) ->
  (List.length rest < List.length cin)%nat
  /\ match ctl with
     | Ok =>
         validator out' = true /\ trimmed out' = true /\ out' <> ""
         /\ is_back out' = false /\ is_exit out' = false
     | Back | Exit => out' = out
     end.
Proof.
  intros H. apply prompting_some in H. destruct H as (Hl & v & Hb & Hne).
  split; [exact Hl|].
  destruct (is_back (trim v)) eqn:Hback; [injection Hb as <- <-; reflexivity|].
  destruct (is_exit (trim v)) eqn:Hexit; [injection Hb as <- <-; reflexivity|].
  destruct (validator (trim v)) eqn:Hv; [|discriminate].
  injection Hb as <- <-. rewrite trim_trimmed. auto.
Qed.

(** The theorem on the roll prompt answered with a refused line and then
    a roll. *)
Lemma prompt_delivers_validated_witness :
  prompt_until_valid_or_back "" is_valid_roll
    (list_ascii_of_string (String "s" (String "1" (String "010" " S001 "))))
  = Some (Ok, "S001", [])
  /\ is_valid_roll "S001" = true.
Proof.
  split; [reflexivity|].
  apply (prompt_delivers_validated "" is_valid_roll
           (list_ascii_of_string (String "s" (String "1" (String "010" " S001 "))))
           Ok "S001" [] eq_refl).
Defined.

(** The part of it that the branches of [main] rely on. *)
Lemma asked_is_valid (out : string) (validator : string -> bool)
    (cin : Stream) (v : string) (rest : Stream) :
  prompt_until_valid_or_back out validator cin = Some (Ok, v, rest) ->
  validator v = true /\ (List.length rest < List.length cin)%nat.
Proof.
  intros H. apply prompting_some in H. destruct H as (Hl & l & Hb & _).
  split; [|exact Hl].
  destruct (is_back (trim l)); [discriminate|].
  destruct (is_exit (trim l)); [discriminate|].
  destruct (validator (trim l)) eqn:Hv; [|discriminate].
  injection Hb as <-. exact Hv.
Qed.

Lemma edited_is_valid (current out : string) (validator : string -> bool)
    (cin : Stream) (v : string) (rest : Stream) :
  prompt_edit_string current out validator cin = Some (Ok, v, rest) ->
  validator v = true /\ (List.length rest < List.length cin)%nat.
Proof.
  intros H. apply prompting_some in H. destruct H as (Hl & l & Hb & Hne).
  split; [|exact Hl]. apply String.eqb_neq in Hne. rewrite Hne in Hb.
  destruct (is_back (trim l)); [discriminate|].
  destruct (is_exit (trim l)); [discriminate|].
  destruct (validator (trim l)) eqn:Hv; [|discriminate].
  injection Hb as <-. exact Hv.
Qed.

Lemma number_in_bounds (stod : string -> option float) (out lo hi : float)
    (cin : Stream) (d : float) (rest : Stream) :
  prompt_number_or_back stod out lo hi cin = Some (Ok, d, rest) ->
  ((d <? lo)%float = false /\ (hi <? d)%float = false)
  /\ (List.length rest < List.length cin)%nat.
Proof.
  intros H. apply prompting_some in H. destruct H as (Hl & l & Hb & _).
  split; [|exact Hl].
  destruct (is_back (trim l)); [discriminate|].
  destruct (is_exit (trim l)); [discriminate|].
  destruct (stod (trim l)) as [x|]; [|discriminate].
  destruct ((x <? lo)%float || (hi <? x)%float) eqn:Hr; [discriminate|].
  injection Hb as <-. apply orb_false_iff in Hr. exact Hr.
Qed.

(** X22: what [prompt_number_or_back] returns, whatever [std::stod] does.
    With [Ok], [out] is a number that [std::stod] made of a line that is none
    of the words for Back and Exit, and it is neither below [lo] nor above
    [hi]; with the bounds 0 and 100 it is within [0, 100] or NaN, and two
    such marks pass the guard of [enter_marks].  With [Back] or [Exit],
    [out] is as it was.  The answer 0 is Back and is never read as the
    number 0. *)
Theorem number_prompt_delivers (stod : string -> option float)
    (out lo hi : float) (cin : Stream) :
  (forall ctl d rest,
      prompt_number_or_back stod out lo hi cin = Some (ctl, d, rest) ->
      match ctl with
      | Ok =>
          (d <? lo)%float = false /\ (hi <? d)%float = false
          /\ exists v, stod v = Some d /\ is_back v = false
                       /\ is_exit v = false
      | Back | Exit => d = out
      end)
  /\ (forall im rest out2 cin2 fm rest2,
         lo = 0%float -> hi = 100%float ->
         prompt_number_or_back stod out lo hi cin = Some (Ok, im, rest) ->
         prompt_number_or_back stod out2 lo hi cin2 = Some (Ok, fm, rest2) ->
         marks_rejected im fm = false
         /\ (mark_in_range im = true \/ PrimFloat.is_nan im = true)
         /\ (mark_in_range fm = true \/ PrimFloat.is_nan fm = true))
  /\ (forall v rest,
         getline_ws cin = Some (v, rest) -> trim v = "0" ->
         prompt_number_or_back stod out lo hi cin = Some (Back, out, rest)).
Proof.
  split; [|split].
  - intros ctl d rest H. apply prompting_some in H.
    destruct H as (_ & v & Hb & _).
    destruct (is_back (trim v)) eqn:Hback; [injection Hb as <- <-; reflexivity|].
    destruct (is_exit (trim v)) eqn:Hexit; [injection Hb as <- <-; reflexivity|].
    destruct (stod (trim v)) as [x|] eqn:Hx; [|discriminate].
    destruct ((x <? lo)%float || (hi <? x)%float) eqn:Hr; [discriminate|].
    injection Hb as <- <-. apply orb_false_iff in Hr. destruct Hr as [H1 H2].
    split; [exact H1|]. split; [exact H2|]. exists (trim v). auto.
  - intros im rest out2 cin2 fm rest2 -> -> H1 H2.
    apply number_in_bounds in H1, H2.
    destruct H1 as [[Hi1 Hi2] _]. destruct H2 as [[Hf1 Hf2] _].
    assert (Hrej : marks_rejected im fm = false).
    { unfold marks_rejected. rewrite Hi1, Hi2, Hf1, Hf2. reflexivity. }
    split; [exact Hrej|].
    split; apply mark_passes_iff; [rewrite Hi1, Hi2 | rewrite Hf1, Hf2];
      reflexivity.
  - intros v rest Hg Hv. unfold prompt_number_or_back, prompting.
    cbn [prompt_loop]. rewrite Hg, Hv. reflexivity.
Qed.

(** The theorem on two answers, 0 and then 70: the 0 is Back. *)
Lemma number_prompt_delivers_witness :
  prompt_number_or_back (fun v => if v =? "70" then Some 70%float else None)
    0 0 100 (list_ascii_of_string (String "0" (String "010" "70")))
  = Some (Back, 0%float, list_ascii_of_string "70").
Proof.
  destruct (number_prompt_delivers
              (fun v => if v =? "70" then Some 70%float else None) 0 0 100
              (list_ascii_of_string (String "0" (String "010" "70"))))
    as (_ & _ & H).
  apply (H "0" (list_ascii_of_string "70")); reflexivity.
Defined.

(* ------------------------------------------------------------------ *)
(** ** One turn of the menu loop *)

Lemma asked_shorter (out : string) (validator : string -> bool) (cin : Stream)
    (r : InputCtl * string) (rest : Stream) :
  prompt_until_valid_or_back out validator cin = Some (r, rest) ->
  (List.length rest < List.length cin)%nat.
Proof. intros H. apply prompting_some in H. apply H. Qed.

Lemma edited_shorter (current out : string) (validator : string -> bool)
    (cin : Stream) (r : InputCtl * string) (rest : Stream) :
  prompt_edit_string current out validator cin = Some (r, rest) ->
  (List.length rest < List.length cin)%nat.
Proof. intros H. apply prompting_some in H. apply H. Qed.

Lemma number_shorter (stod : string -> option float) (out lo hi : float)
    (cin : Stream) (r : InputCtl * float) (rest : Stream) :
  prompt_number_or_back stod out lo hi cin = Some (r, rest) ->
  (List.length rest < List.length cin)%nat.
Proof. intros H. apply prompting_some in H. apply H. Qed.

Lemma confirm_shorter (cin : Stream) (r : InputCtl) (rest : Stream) :
  confirm_or_back cin = Some (r, rest) ->
  (List.length rest < List.length cin)%nat.
Proof. intros H. apply prompting_some in H. apply H. Qed.

(** The state after [if (db_xxx(db, ...) && xxx(data, ...))] does not depend
    on the message that is printed. *)
Lemma message_apart {A : Type} (m : M bool) (f : bool -> A) (w : World) :
  snd ((ok <- m ;; ret (f ok)) w) = snd (m w).
Proof. unfold bind, ret. destruct (m w). reflexivity. Qed.

Ltac turn_unchanged H :=
  injection H as <- <- <-; split; [simpl in *; lia | left; reflexivity].

Ltac answer H :=
  cbv beta in H;
  match type of H with
  | context [prompt_until_valid_or_back ?o ?val ?c] =>
      let Hp := fresh "Hp" in
      let ctl := fresh "ctl" in
      let v := fresh "v" in
      let r := fresh "r" in
      destruct (prompt_until_valid_or_back o val c) as [[[ctl v] r]|] eqn:Hp;
      [|discriminate H];
      destruct ctl;
      [ apply asked_is_valid in Hp; destruct Hp as [? ?]
      | apply asked_shorter in Hp; turn_unchanged H
      | apply asked_shorter in Hp; turn_unchanged H ]
  | context [prompt_edit_string ?cur ?o ?val ?c] =>
      let Hp := fresh "Hp" in
      let ctl := fresh "ctl" in
      let v := fresh "v" in
      let r := fresh "r" in
      destruct (prompt_edit_string cur o val c) as [[[ctl v] r]|] eqn:Hp;
      [|discriminate H];
      destruct ctl;
      [ apply edited_is_valid in Hp; destruct Hp as [? ?]
      | apply edited_shorter in Hp; turn_unchanged H
      | apply edited_shorter in Hp; turn_unchanged H ]
  | context [prompt_number_or_back ?sd ?o ?lo ?hi ?c] =>
      let Hp := fresh "Hp" in
      let ctl := fresh "ctl" in
      let v := fresh "v" in
      let r := fresh "r" in
      destruct (prompt_number_or_back sd o lo hi c) as [[[ctl v] r]|] eqn:Hp;
      [|discriminate H];
      destruct ctl;
      [ apply number_in_bounds in Hp; destruct Hp as [[? ?] ?]
      | apply number_shorter in Hp; turn_unchanged H
      | apply number_shorter in Hp; turn_unchanged H ]
  | context [confirm_or_back ?c] =>
      let Hp := fresh "Hp" in
      let ctl := fresh "ctl" in
      let r := fresh "r" in
      destruct (confirm_or_back c) as [[ctl r]|] eqn:Hp;
      [|discriminate H];
      apply confirm_shorter in Hp;
      destruct ctl; [ | turn_unchanged H | turn_unchanged H ]
  end.

Ltac turn_written H a :=
  unfold store_then_cache in H; injection H as <- <- <-;
  split; [simpl in *; lia|]; right; split; [reflexivity|]; exists a;
  split; [reflexivity|];
  split;
  [ cbn [validated answered Student.roll_no Student.name Student.address
           Student.contact Course.code Course.title Course.description
           Course.teacher];
    repeat match goal with Hv : _ = true |- _ => rewrite Hv end;
    try reflexivity
  | cbn [run] ].

Lemma branch_1_turn (cin : Stream) (w : World) (flow : Flow) (rest : Stream)
    (w' : World) :
  branch_1 cin w = Some (flow, rest, w') ->
  turn_of (Some OpAddStudent) cin w flow rest w'.
Proof.
  intros H. unfold branch_1, ask, unless in H.
  answer H.
  destruct (exists_student (data w) v) eqn:He; [turn_unchanged H|].
  answer H. answer H. answer H.
  turn_written H (AddStudent (Student.mk v v0 v1 v2)).
  unfold choice_1, bind at 1, get_data. cbn [Student.roll_no].
  rewrite He, message_apart. reflexivity.
Qed.

Lemma branch_3_turn (cin : Stream) (w : World) (flow : Flow) (rest : Stream)
    (w' : World) :
  branch_3 cin w = Some (flow, rest, w') ->
  turn_of (Some OpAddCourse) cin w flow rest w'.
Proof.
  intros H. unfold branch_3, ask, unless in H.
  answer H.
  destruct (exists_course (data w) v) eqn:He; [turn_unchanged H|].
  answer H. answer H. answer H.
  turn_written H (AddCourse (Course.mk v v0 v1 v2)).
  unfold choice_3, bind at 1, get_data. cbn [Course.code].
  rewrite He, message_apart. reflexivity.
Qed.

Lemma branch_5_turn (cin : Stream) (w : World) (flow : Flow) (rest : Stream)
    (w' : World) :
  branch_5 cin w = Some (flow, rest, w') ->
  turn_of (Some OpEnroll) cin w flow rest w'.
Proof.
  intros H. unfold branch_5, ask, unless in H.
  answer H. answer H.
  destruct (negb (exists_student (data w) v)) eqn:Hs; [turn_unchanged H|].
  destruct (negb (exists_course (data w) v0)) eqn:Hc; [turn_unchanged H|].
  destruct (already_enrolled (data w) v v0) eqn:He; [turn_unchanged H|].
  turn_written H (Enroll v v0).
  unfold choice_5, bind at 1, get_data.
  rewrite Hs, Hc, He, message_apart. reflexivity.
Qed.

Lemma branch_6_turn (stod : string -> option float) (cin : Stream) (w : World)
    (flow : Flow) (rest : Stream) (w' : World) :
  branch_6 stod cin w = Some (flow, rest, w') ->
  turn_of (Some OpEnterMarks) cin w flow rest w'.
Proof.
  intros H. unfold branch_6, ask, unless in H.
  answer H. answer H.
  destruct (negb (already_enrolled (data w) v v0)) eqn:He; [turn_unchanged H|].
  answer H. answer H.
  assert (Hm : marks_rejected v1 v2 = false).
  { unfold marks_rejected.
    repeat match goal with Hv : (_ <? _)%float = false |- _ => rewrite Hv end.
    reflexivity. }
  turn_written H (EnterMarks v v0 v1 v2).
  - rewrite Hm. reflexivity.
  - unfold choice_6, bind at 1, get_data.
    rewrite He, message_apart. reflexivity.
Qed.

Lemma branch_7_turn (entry : option Op) (cin : Stream) (w : World)
    (flow : Flow) (rest : Stream) (w' : World) :
  branch_7 cin w = Some (flow, rest, w') -> turn_of entry cin w flow rest w'.
Proof.
  intros H. unfold branch_7 in H. pose proof (getline_length cin) as Hl.
  destruct (getline cin) as [r left]. injection H as <- <- <-.
  split; [exact Hl | left; reflexivity].
Qed.

Lemma branch_8_turn (cin : Stream) (w : World) (flow : Flow) (rest : Stream)
    (w' : World) :
  branch_8 cin w = Some (flow, rest, w') ->
  turn_of (Some OpUpdateStudent) cin w flow rest w'.
Proof.
  intros H. unfold branch_8, ask in H.
  answer H.
  destruct (find (student_is v) (all_students (data w))) as [cur|] eqn:Hf;
    [|turn_unchanged H].
  answer H. answer H. answer H.
  turn_written H (EditStudent v (Some v0) (Some v1) (Some v2)).
  unfold choice_8, bind at 1, get_data.
  rewrite Hf, message_apart. reflexivity.
Qed.

Lemma branch_9_turn (cin : Stream) (w : World) (flow : Flow) (rest : Stream)
    (w' : World) :
  branch_9 cin w = Some (flow, rest, w') ->
  turn_of (Some OpUpdateCourse) cin w flow rest w'.
Proof.
  intros H. unfold branch_9, ask in H.
  answer H.
  destruct (find (course_is v) (all_courses (data w))) as [cur|] eqn:Hf;
    [|turn_unchanged H].
  answer H. answer H. answer H.
  turn_written H (EditCourse v (Some v0) (Some v1) (Some v2)).
  unfold choice_9, bind at 1, get_data.
  rewrite Hf, message_apart. reflexivity.
Qed.

Lemma branch_10_turn (cin : Stream) (w : World) (flow : Flow) (rest : Stream)
    (w' : World) :
  branch_10 cin w = Some (flow, rest, w') ->
  turn_of (Some OpDeleteStudent) cin w flow rest w'.
Proof.
  intros H. unfold branch_10, ask, unless, confirm in H.
  answer H.
  destruct (negb (exists_student (data w) v)) eqn:He; [turn_unchanged H|].
  answer H.
  turn_written H (RemoveStudent v).
  unfold choice_10, bind at 1, get_data.
  rewrite He, message_apart. reflexivity.
Qed.

Lemma branch_11_turn (cin : Stream) (w : World) (flow : Flow) (rest : Stream)
    (w' : World) :
  branch_11 cin w = Some (flow, rest, w') ->
  turn_of (Some OpDeleteCourse) cin w flow rest w'.
Proof.
  intros H. unfold branch_11, ask, unless, confirm in H.
  answer H.
  destruct (negb (exists_course (data w) v)) eqn:He; [turn_unchanged H|].
  answer H.
  turn_written H (RemoveCourse v).
  unfold choice_11, bind at 1, get_data.
  rewrite He, message_apart. reflexivity.
Qed.

Lemma branch_12_turn (cin : Stream) (w : World) (flow : Flow) (rest : Stream)
    (w' : World) :
  branch_12 cin w = Some (flow, rest, w') ->
  turn_of (Some OpDeleteEnrollment) cin w flow rest w'.
Proof.
  intros H. unfold branch_12, ask, unless, confirm in H.
  answer H. answer H.
  destruct (negb (already_enrolled (data w) v v0)) eqn:He; [turn_unchanged H|].
  answer H.
  turn_written H (RemoveEnrollment v v0).
  unfold choice_12, bind at 1, get_data.
  rewrite He, message_apart. reflexivity.
Qed.

(** The chain of [main] goes by the numbers of the menu. *)
Lemma dispatch_table (stod : string -> option float) (n : Z) :
  match menu_entry n with
  | Some OpAddStudent => dispatch stod n = branch_1
  | Some OpAddCourse => dispatch stod n = branch_3
  | Some OpEnroll => dispatch stod n = branch_5
  | Some OpEnterMarks => dispatch stod n = branch_6 stod
  | Some OpUpdateStudent => dispatch stod n = branch_8
  | Some OpUpdateCourse => dispatch stod n = branch_9
  | Some OpDeleteStudent => dispatch stod n = branch_10
  | Some OpDeleteCourse => dispatch stod n = branch_11
  | Some OpDeleteEnrollment => dispatch stod n = branch_12
  | None => dispatch stod n = prints \/ dispatch stod n = branch_7
  end.
Proof.
  unfold dispatch, menu_entry.
  destruct (Z.eqb_spec n 1) as [->|_]; [reflexivity|].
  destruct (Z.eqb_spec n 2) as [->|_]; [left; reflexivity|].
  destruct (Z.eqb_spec n 3) as [->|_]; [reflexivity|].
  destruct (Z.eqb_spec n 4) as [->|_]; [left; reflexivity|].
  destruct (Z.eqb_spec n 5) as [->|_]; [reflexivity|].
  destruct (Z.eqb_spec n 6) as [->|_]; [reflexivity|].
  destruct (Z.eqb_spec n 7) as [->|_]; [right; reflexivity|].
  destruct (Z.eqb_spec n 8) as [->|_]; [reflexivity|].
  destruct (Z.eqb_spec n 9) as [->|_]; [reflexivity|].
  destruct (Z.eqb_spec n 10) as [->|_]; [reflexivity|].
  destruct (Z.eqb_spec n 11) as [->|_]; [reflexivity|].
  destruct (Z.eqb_spec n 12) as [->|_]; [reflexivity|].
  left; reflexivity.
Qed.

Lemma dispatch_turn (stod : string -> option float) (choice : Z)
    (cin : Stream) (w : World) (flow : Flow) (rest : Stream) (w' : World) :
  dispatch stod choice cin w = Some (flow, rest, w') ->
  turn_of (menu_entry choice) cin w flow rest w'.
Proof.
  pose proof (dispatch_table stod choice) as T.
  destruct (menu_entry choice) as [[]|]; [rewrite T ..|destruct T as [T|T]; rewrite T].
  - apply branch_1_turn.
  - apply branch_3_turn.
  - apply branch_5_turn.
  - apply branch_6_turn.
  - apply branch_8_turn.
  - apply branch_9_turn.
  - apply branch_10_turn.
  - apply branch_11_turn.
  - apply branch_12_turn.
  - intros H; unfold prints in H; injection H as <- <- <-.
    split; [lia | left; reflexivity].
  - apply branch_7_turn.
Qed.

(** One round of a prompt: the line that is read decides, or it is refused
    and the prompt goes on with the rest of the input. *)
Lemma prompt_round {R : Type} (body : string -> option R) (cin : Stream)
    (v : string) (rest : Stream) :
  getline_ws cin = Some (v, rest) ->
  prompting body cin
  = match body (trim v) with
    | Some r => Some (r, rest)
    | None => prompting body rest
    end.
Proof.
  intros Hg. unfold prompting at 1. cbn [prompt_loop]. rewrite Hg.
  destruct (body (trim v)); [reflexivity|].
  apply getline_ws_some in Hg. destruct Hg as [Hl _].
  apply prompt_loop_fuel; lia.
Qed.

(** The first answer of a writing entry. *)
Lemma first_answer (stod : string -> option float) (n : Z) (o : Op)
    (cin : Stream) (w : World) (v : string) (rest : Stream) :
  menu_entry n = Some o ->
  getline_ws cin = Some (v, rest) ->
  dispatch stod n cin w
  = if is_back (trim v) then Some (Again, rest, w)
    else if is_exit (trim v) then Some (Leave, rest, w)
    else if first_validator o (trim v) then dispatch stod n cin w
    else dispatch stod n rest w.
Proof.
  intros He Hg. pose proof (dispatch_table stod n) as T. rewrite He in T.
  destruct (is_back (trim v)) eqn:Hb;
    [|destruct (is_exit (trim v)) eqn:Hx;
      [|destruct (first_validator o (trim v)) eqn:Hv; [reflexivity|]]];
    destruct o; rewrite T;
    unfold branch_1, branch_3, branch_5, branch_6, branch_8, branch_9,
      branch_10, branch_11, branch_12, ask, prompt_until_valid_or_back;
    rewrite (prompt_round _ _ _ _ Hg), Hb; try rewrite Hx;
    try (cbn [first_validator] in Hv; rewrite Hv); reflexivity.
Qed.

(* ------------------------------------------------------------------ *)
(** ** The menu loop and [main] *)

Lemma clear_input_shorter (cin : Stream) :
  cin <> [] -> (List.length (clear_input cin) < List.length cin)%nat.
Proof.
  unfold clear_input. destruct cin as [|c cin]; [congruence|]. intros _.
  cbn [getline]. destruct (Ascii.eqb c "010"); cbn [snd List.length]; [lia|].
  pose proof (getline_length cin) as Hl.
  destruct (getline cin) as [v rest]. cbn [snd] in *. lia.
Qed.

Lemma span_digits_length (cin : Stream) :
  (List.length (snd (span_digits cin)) <= List.length cin)%nat.
Proof.
  induction cin as [|c cin IH]; simpl; [lia|].
  destruct (is_digit c); [|simpl; lia].
  destruct (span_digits cin) as [ds rest]. simpl in *. lia.
Qed.

(** [std::cin >> choice; clear_input();] reads at least one character. *)
Lemma extract_int_some (cin : Stream) (ok : bool) (n : Z) (left : Stream) :
  extract_int cin = Some (ok, n, left) ->
  (List.length (clear_input left) < List.length cin)%nat.
Proof.
  unfold extract_int. pose proof (skip_space_length cin) as Hs.
  destruct (skip_space cin) as [|c rest]; [discriminate|].
  cbv zeta.
  set (after_sign := if Ascii.eqb c "-" || Ascii.eqb c "+" then rest else c :: rest).
  assert (Ha : (List.length after_sign <= S (List.length rest))%nat)
    by (unfold after_sign; destruct (_ || _); simpl; lia).
  pose proof (span_digits_length after_sign) as Hd.
  destruct (span_digits after_sign) as [ds left0]. cbn [snd] in Hd.
  assert (Hleft : (List.length (clear_input left0) < List.length cin)%nat).
  { destruct left0 as [|c0 left0]; [simpl in *; lia|].
    assert (Hne : c0 :: left0 <> []) by discriminate.
    apply clear_input_shorter in Hne. simpl in *. lia. }
  intros H. destruct ds as [|d ds].
  - injection H as <- <- <-. exact Hleft.
  - destruct (_ <? INT_MIN)%Z; [injection H as <- <- <-; exact Hleft|].
    destruct (INT_MAX <? _)%Z; injection H as <- <- <-; exact Hleft.
Qed.

(** More turns than there are characters change nothing. *)
Lemma menu_loop_fuel (stod : string -> option float) (n m : nat) (choice : Z)
    (cin : Stream) (w : World) :
  (List.length cin < n)%nat -> (List.length cin < m)%nat ->
  menu_loop stod n choice cin w = menu_loop stod m choice cin w.
Proof.
  revert m choice cin w. induction n as [|n IH]; intros m choice cin w Hn Hm;
    [lia|].
  destruct m as [|m]; [lia|]. cbn [menu_loop].
  destruct (choice =? 0)%Z; [reflexivity|].
  destruct (extract_int cin) as [[[ok k] left]|] eqn:He; [|reflexivity].
  apply extract_int_some in He. destruct ok; [|apply IH; lia].
  destruct (dispatch stod k (clear_input left) w) as [[[flow rest] w']|] eqn:Hd;
    [|reflexivity].
  apply dispatch_turn in Hd. destruct Hd as [Hl _].
  destruct flow; [apply IH; lia | reflexivity].
Qed.

(** With one turn more than there are characters, the loop has a result. *)
Lemma menu_loop_total (stod : string -> option float) (n : nat) (choice : Z)
    (cin : Stream) (w : World) :
  (List.length cin < n)%nat ->
  exists r, menu_loop stod n choice cin w = Some r.
Proof.
  revert choice cin w. induction n as [|n IH]; intros choice cin w Hn; [lia|].
  cbn [menu_loop]. destruct (choice =? 0)%Z; [eexists; reflexivity|].
  destruct (extract_int cin) as [[[ok k] left]|] eqn:He; [|eexists; reflexivity].
  apply extract_int_some in He. destruct ok; [|apply IH; lia].
  destruct (dispatch stod k (clear_input left) w) as [[[flow rest] w']|] eqn:Hd;
    [|eexists; reflexivity].
  apply dispatch_turn in Hd. destruct Hd as [Hl _].
  destruct flow; [apply IH; lia | eexists; reflexivity].
Qed.

Lemma run_all_cons (a : Action) (session : list Action) (w : World) :
  run_all (a :: session) w = run_all session (snd (run a w)).
Proof. reflexivity. Qed.

(** The menu loop has done what a session of validated writing entries
    does. *)
Lemma menu_loop_session (stod : string -> option float) (n : nat) (choice : Z)
    (cin : Stream) (w : World) (r : Run) :
  menu_loop stod n choice cin w = Some r ->
  exists session,
    forallb validated session = true /\ reached r = run_all session w.
Proof.
  revert choice cin w. induction n as [|n IH]; intros choice cin w H.
  - cbn [menu_loop] in H. destruct (choice =? 0)%Z; [|discriminate].
    injection H as <-. exists []. auto.
  - cbn [menu_loop] in H. destruct (choice =? 0)%Z.
    { injection H as <-. exists []. auto. }
    destruct (extract_int cin) as [[[ok k] left]|];
      [|injection H as <-; exists []; auto].
    destruct ok; [|apply IH in H; exact H].
    destruct (dispatch stod k (clear_input left) w) as [[[flow rest1] w1]|] eqn:Hd;
      [|injection H as <-; exists []; auto].
    apply dispatch_turn in Hd. destruct Hd as [_ Hw].
    assert (Hone : exists s1, forallb validated s1 = true /\ w1 = run_all s1 w).
    { destruct Hw as [->|(_ & a & _ & Ha & ->)].
      - exists []. auto.
      - exists [a]. cbn [forallb]. rewrite Ha. auto. }
    destruct Hone as (s1 & Hs1 & ->).
    destruct flow.
    + apply IH in H. destruct H as (s2 & Hs2 & ->).
      exists (s1 ++ s2). rewrite forallb_app, Hs1, Hs2.
      split; [reflexivity|]. unfold run_all. rewrite fold_left_app. reflexivity.
    + injection H as <-. exists s1. auto.
Qed.

(** [main] after a start that succeeded. *)
Lemma main_after_startup (stod : string -> option float) (file : Database)
    (cin : Stream) (w : World) :
  startup file = Some w ->
  exists r,
    menu_loop stod (S (List.length cin)) (-1) cin w = Some r
    /\ main stod file cin
       = Some (match r with
               | Ended w' => Returned 0 (db w')
               | Starved w' => Hanging (db w')
               end).
Proof.
  intros Hs. unfold main. rewrite Hs.
  destruct (menu_loop_total stod (S (List.length cin)) (-1) cin w) as (r & Hr);
    [lia|].
  exists r. rewrite Hr. split; [reflexivity|]. destruct r; reflexivity.
Qed.

Ltac db_protocol Hdb :=
  rewrite store_then_mirror;
  match goal with
  | |- context [if fst ?x then _ else _] => destruct (fst x)
  end;
  cbn [snd db]; apply (db_writes_keep_ok _ Hdb).

(** A menu entry leaves the database as it was, or as one write function of
    [db.cpp] leaves it: the invariants of the schema are kept. *)
Lemma run_keeps_db_ok (a : Action) (w : World) :
  db_ok (db w) = true -> db_ok (db (snd (run a w))) = true.
Proof.
  intros Hdb. destruct a; cbn [run].
  - unfold choice_1, bind, get_data, ret; cbv beta iota.
    destruct (exists_student _ _); [exact Hdb|]. db_protocol Hdb.
  - unfold choice_3, bind, get_data, ret; cbv beta iota.
    destruct (exists_course _ _); [exact Hdb|]. db_protocol Hdb.
  - unfold choice_5, bind, get_data, ret; cbv beta iota.
    destruct (negb (exists_student _ _)); [exact Hdb|].
    destruct (negb (exists_course _ _)); [exact Hdb|].
    destruct (already_enrolled _ _ _); [exact Hdb|]. db_protocol Hdb.
  - unfold choice_6, save_marks, bind, get_data, ret; cbv beta iota.
    destruct (negb (already_enrolled _ _ _)); [exact Hdb|]. db_protocol Hdb.
  - unfold choice_8, bind, get_data, ret; cbv beta iota.
    destruct (find _ _); [|exact Hdb]. db_protocol Hdb.
  - unfold choice_9, bind, get_data, ret; cbv beta iota.
    destruct (find _ _); [|exact Hdb]. db_protocol Hdb.
  - unfold choice_10, bind, get_data, ret; cbv beta iota.
    destruct (negb (exists_student _ _)); [exact Hdb|]. db_protocol Hdb.
  - unfold choice_11, bind, get_data, ret; cbv beta iota.
    destruct (negb (exists_course _ _)); [exact Hdb|]. db_protocol Hdb.
  - unfold choice_12, bind, get_data, ret; cbv beta iota.
    destruct (negb (already_enrolled _ _ _)); [exact Hdb|]. db_protocol Hdb.
Qed.

(** A session of validated entries keeps the invariants of the schema in the
    database and the marks within bounds. *)
Lemma validated_session_sound (session : list Action) (w : World) :
  db_ok (db w) = true ->
  persisted_marks_in_range (db w) = true ->
  cache_marks_in_range (data w) = true ->
  forallb validated session = true ->
  db_ok (db (run_all session w)) = true
  /\ persisted_marks_in_range (db (run_all session w)) = true
  /\ cache_marks_in_range (data (run_all session w)) = true.
Proof.
  revert w. induction session as [|a session IH]; intros w Hc Hst Hd Hv;
    [auto|].
  cbn [forallb] in Hv. apply andb_true_iff in Hv. destruct Hv as [Ha Hv].
  apply validated_marks in Ha. rewrite run_all_cons.
  pose proof (run_keeps_db_ok a w Hc) as Hc1.
  destruct (marks_step a w Hst Hd Ha) as [Hst1 Hd1].
  apply IH; assumption.
Qed.

Lemma init_and_seed_marks (file : Database) :
  persisted_marks_in_range file = true ->
  persisted_marks_in_range (snd (db_init_and_seed file)) = true.
Proof.
  unfold persisted_marks_in_range. rewrite db_init_and_seed_unfold.
  destruct (grades file) as [|g gs].
  - intros _. destruct (seed_parents_present _ _); reflexivity.
  - intros H. exact H.
Qed.

Lemma startup_state (file : Database) (w : World) :
  startup file = Some w ->
  w = mkWorld (snd (db_init_and_seed file))
        (cache_of (snd (db_init_and_seed file))) [].
Proof.
  unfold startup. rewrite db_init_and_seed_unfold.
  destruct (grades file) as [|g gs].
  - destruct (seed_parents_present _ _); cbn [negb]; [|discriminate].
    rewrite db_load_all_reads. cbn [has_tables]. intros H. injection H as <-.
    reflexivity.
  - cbn [negb]. rewrite db_load_all_reads. cbn [has_tables].
    intros H. injection H as <-. reflexivity.
Qed.

(** X23: what a turn of the menu does, and what [main] comes to, whatever
    is typed.  A turn leaves the state as it was, or the loop goes on and the
    state is what one writing entry leaves whose operation is the one that the
    menu shows for the number that was chosen, and every value of which passed
    the validator or the range test of its prompt.  So a turn that ends the
    loop (Exit at a prompt) has changed nothing.  The numbers for which the
    menu shows no writing entry (the tables 2, 4 and 13, the report 7, an
    unknown number) change nothing.  In a writing entry, Back as the first
    answer returns to the menu and Exit as the first answer ends the loop, both
    with the state as it was, and a first answer that is refused is as if it
    had not been typed.  [main] returns 1 when the database cannot be
    initialised; otherwise it returns 0, or it hangs at the end of the input,
    and the database file it has written is the one that a sequence of such
    entries leaves from the state after the start. *)
Theorem main_is_a_validated_session (stod : string -> option float) :
  (forall n cin w flow rest w',
      dispatch stod n cin w = Some (flow, rest, w') ->
      w' = w
      \/ (flow = Again
          /\ exists a,
               menu_entry n = Some (op_of a) /\ validated a = true
               /\ w' = snd (run a w)))
  /\ (forall n cin w rest w',
         dispatch stod n cin w = Some (Leave, rest, w') -> w' = w)
  /\ (forall n cin w,
         menu_entry n = None ->
         exists rest, dispatch stod n cin w = Some (Again, rest, w))
  /\ (forall n o cin w v rest,
         menu_entry n = Some o ->
         getline_ws cin = Some (v, rest) ->
         (is_back (trim v) = true ->
          dispatch stod n cin w = Some (Again, rest, w))
         /\ (is_back (trim v) = false -> is_exit (trim v) = true ->
             dispatch stod n cin w = Some (Leave, rest, w))
         /\ (is_back (trim v) = false -> is_exit (trim v) = false ->
             first_validator o (trim v) = false ->
             dispatch stod n cin w = dispatch stod n rest w))
  /\ (forall file cin,
         exists o,
           main stod file cin = Some o
           /\ match startup file with
              | None => o = Returned 1 (snd (db_init_and_seed file))
              | Some w =>
                  exists session,
                    forallb validated session = true
                    /\ (o = Returned 0 (db (run_all session w))
                        \/ o = Hanging (db (run_all session w)))
              end).
Proof.
  split; [|split; [|split; [|split]]].
  - intros n cin w flow rest w' H. apply dispatch_turn in H. apply H.
  - intros n cin w rest w' H. apply dispatch_turn in H.
    destruct H as [_ [H|[H _]]]; [exact H | discriminate H].
  - intros n cin w He. pose proof (dispatch_table stod n) as T.
    rewrite He in T. destruct T as [T|T]; rewrite T.
    + exists cin. reflexivity.
    + unfold branch_7. destruct (getline cin) as [r rest]. exists rest.
      reflexivity.
  - intros n o cin w v rest He Hg.
    pose proof (first_answer stod n o cin w v rest He Hg) as H.
    split; [|split].
    + intros Hb. rewrite Hb in H. exact H.
    + intros Hb Hx. rewrite Hb, Hx in H. exact H.
    + intros Hb Hx Hv. rewrite Hb, Hx, Hv in H. exact H.
  - intros file cin. destruct (startup file) as [w|] eqn:Hs.
    + destruct (main_after_startup stod file cin w Hs) as (r & Hloop & Hmain).
      eexists. split; [exact Hmain|].
      apply menu_loop_session in Hloop. destruct Hloop as (session & Hv & Hr).
      exists session. split; [exact Hv|].
      destruct r; cbn [reached] in Hr; subst; auto.
    + unfold main. rewrite Hs. eexists. split; reflexivity.
Qed.

(** The theorem on a first run.  The table of students is shown; at the
    entry that deletes a student, b is answered; at the same entry, the line
    zzz is refused, S001 is taken and the question is answered with n; then
    S001 is taken and the question is answered with y; 0 leaves.  [main]
    returns 0 with the database that the one deletion leaves.  And b as the
    first answer of the entry returns to the menu with the rest of the
    input. *)
Lemma main_is_a_validated_session_witness :
  main stod_whole empty_db
    (typed ["2"; "10"; "b"; "10"; "zzz"; "S001"; "n"; "10"; "S001"; "y"; "0"])
  = Some (Returned 0 (db (run_all [RemoveStudent "S001"] seeded_world)))
  /\ dispatch stod_whole 10 (typed ["b"; "10"]) seeded_world
     = Some (Again, typed ["10"], seeded_world).
Proof.
  split; [reflexivity|].
  destruct (main_is_a_validated_session stod_whole) as (_ & _ & _ & H & _).
  destruct (H 10%Z OpDeleteStudent (typed ["b"; "10"]) seeded_world "b"
              (typed ["10"]) eq_refl eq_refl) as [Hback _].
  apply Hback. reflexivity.
Defined.

Lemma written_after_startup (stod : string -> option float) (file : Database)
    (cin : Stream) (w : World) (o : Outcome) :
  startup file = Some w ->
  main stod file cin = Some o ->
  exists session,
    forallb validated session = true /\ written o = db (run_all session w).
Proof.
  intros Hs Hm.
  destruct (main_after_startup stod file cin w Hs) as (r & Hloop & Hmain).
  rewrite Hmain in Hm. injection Hm as <-.
  apply menu_loop_session in Hloop. destruct Hloop as (session & Hv & Hr).
  exists session. split; [exact Hv|].
  destruct r; cbn [reached written] in *; subst; reflexivity.
Qed.

Lemma written_without_startup (stod : string -> option float)
    (file : Database) (cin : Stream) (o : Outcome) :
  startup file = None ->
  main stod file cin = Some o ->
  written o = snd (db_init_and_seed file).
Proof.
  intros Hs. unfold main. rewrite Hs. intros H. injection H as <-. reflexivity.
Qed.

Lemma startup_sound (file : Database) (w : World) :
  tables_ok (students file) (courses file) (grades file) = true ->
  startup file = Some w ->
  consistent w.
Proof.
  intros Hok Hs. pose proof (init_and_seed_keeps_ok file Hok) as Hdb.
  apply startup_state in Hs. apply consistent_iff. subst w. cbn [db data].
  apply db_ok_iff in Hdb. exact Hdb.
Qed.

(** X24: whatever is typed, [main] leaves a sound database.  If the rows of
    the file satisfy the invariants of the schema and no mark in it is outside
    [0, 100], then this is true of the file that [main] has written when it
    returns or hangs, and its tables exist. *)
Theorem main_keeps_the_database_sound (stod : string -> option float)
    (file : Database) (cin : Stream) (o : Outcome) :
  tables_ok (students file) (courses file) (grades file) = true ->
  persisted_marks_in_range file = true ->
  main stod file cin = Some o ->
  db_ok (written o) = true /\ persisted_marks_in_range (written o) = true.
Proof.
  intros Hok Hmarks Hmain. pose proof (init_and_seed_keeps_ok file Hok) as Hdb.
  pose proof (init_and_seed_marks file Hmarks) as Hm.
  destruct (startup file) as [w|] eqn:Hs.
  - destruct (written_after_startup stod file cin w o Hs Hmain)
      as (session & Hv & ->).
    pose proof (startup_sound file w Hok Hs) as Hc.
    apply startup_state in Hs.
    assert (Hst : persisted_marks_in_range (db w) = true)
      by (subst w; exact Hm).
    assert (Hd : cache_marks_in_range (data w) = true)
      by (subst w; exact Hm).
    destruct (validated_session_sound session w (proj1 Hc) Hst Hd Hv)
      as (H1 & H2 & _).
    auto.
  - rewrite (written_without_startup stod file cin o Hs Hmain). auto.
Qed.

(** The theorem on a first run in which marks are entered: 101 is refused
    by the prompt, 55 and 70 are stored. *)
Lemma main_keeps_the_database_sound_witness :
  main stod_whole empty_db
    (typed ["6"; "S001"; "MTH101"; "101"; "55"; "70"; "0"])
  = Some (Returned 0
            (db (run_all [EnterMarks "S001" "MTH101" 55 70] seeded_world)))
  /\ persisted_marks_in_range
       (db (run_all [EnterMarks "S001" "MTH101" 55 70] seeded_world)) = true.
Proof.
  split; [reflexivity|].
  apply (main_keeps_the_database_sound stod_whole empty_db
           (typed ["6"; "S001"; "MTH101"; "101"; "55"; "70"; "0"])
           (Returned 0
              (db (run_all [EnterMarks "S001" "MTH101" 55 70] seeded_world))));
    reflexivity.
Defined.

Lemma span_digits_none (cin : Stream) :
  match cin with
  | [] => true
  | d :: _ => negb (is_digit d)
  end = true ->
  span_digits cin = ([], cin).
Proof.
  destruct cin as [|d cin]; [reflexivity|]. simpl.
  intros H. apply negb_true_iff in H. rewrite H. reflexivity.
Qed.

(** X25: what is typed at the menu and is not a number ends the program.
    [std::cin >> choice] then fails and stores 0 in [choice], so that the
    [continue] that follows leaves the loop as the choice 0 does; nothing is
    written, and [main] returns 0.  Only at the end of the input, where
    [choice] is left as it was, does the loop go round. *)
Theorem not_a_number_ends_the_program (stod : string -> option float)
    (cin : Stream) :
  not_a_number cin = true ->
  (forall fuel choice w,
      menu_loop stod (S fuel) choice cin w = Some (Ended w))
  /\ (forall file w,
         startup file = Some w ->
         main stod file cin = Some (Returned 0 (db w))).
Proof.
  intros Hn.
  assert (He : exists left, extract_int cin = Some (false, 0%Z, left)).
  { unfold not_a_number in Hn. unfold extract_int.
    destruct (skip_space cin) as [|c rest]; [discriminate|]. cbv zeta.
    rewrite (span_digits_none _ Hn). eexists. reflexivity. }
  destruct He as (left & He).
  assert (Hloop : forall fuel choice w,
             menu_loop stod (S fuel) choice cin w = Some (Ended w)).
  { intros fuel choice w. cbn [menu_loop].
    destruct (choice =? 0)%Z; [reflexivity|].
    rewrite He. destruct fuel; reflexivity. }
  split; [exact Hloop|].
  intros file w Hs. unfold main. rewrite Hs, Hloop. reflexivity.
Qed.

(** The theorem on a first run in which a letter is typed at the menu: the
    choice 1 that follows is never read. *)
Lemma not_a_number_ends_the_program_witness :
  main stod_whole empty_db (typed ["a"; "1"; "S100"])
  = Some (Returned 0 seeded_db).
Proof.
  destruct (not_a_number_ends_the_program stod_whole
              (typed ["a"; "1"; "S100"]) eq_refl) as [_ H].
  exact (H empty_db seeded_world eq_refl).
Defined.

(* ------------------------------------------------------------------ *)
(** ** The form of the keys *)

Lemma forallb_map_filter {A K : Type} (p : K -> bool) (key : A -> K)
    (q : A -> bool) (l : list A) :
  forallb p (map key l) = true -> forallb p (map key (filter q l)) = true.
Proof.
  rewrite !forallb_forall. intros H k Hk. apply in_map_iff in Hk.
  destruct Hk as (x & <- & Hx). apply filter_In in Hx.
  apply H, in_map. tauto.
Qed.

Lemma keys_valid_iff (s : list Student.t) (c : list Course.t)
    (g : list Grade.t) :
  keys_valid s c g = true
  <-> forallb is_valid_roll (map Student.roll_no s) = true
      /\ forallb is_valid_course_code (map Course.code c) = true
      /\ forallb (fun k => is_valid_roll (fst k) && is_valid_course_code (snd k))
           (map grade_key g) = true.
Proof. unfold keys_valid. rewrite !andb_true_iff. tauto. Qed.

(** The cache helpers keep the form of the keys, when what is inserted has
    keys of that form. *)
Lemma cache_keys_kept (d : DataStore) :
  keys_valid (all_students d) (all_courses d) (all_grades d) = true ->
  let kept (d' : DataStore) :=
    keys_valid (all_students d') (all_courses d') (all_grades d') = true in
  (forall s, is_valid_roll (Student.roll_no s) = true ->
             kept (snd (add_student d s)))
  /\ (forall c, is_valid_course_code (Course.code c) = true ->
                kept (snd (add_course d c)))
  /\ (forall roll code,
         is_valid_roll roll = true -> is_valid_course_code code = true ->
         kept (snd (enroll_student d roll code)))
  /\ (forall roll code im fm, kept (snd (enter_marks d roll code im fm)))
  /\ (forall s, kept (snd (apply_student_update d s)))
  /\ (forall c, kept (snd (apply_course_update d c)))
  /\ (forall roll, kept (snd (remove_student d roll)))
  /\ (forall code, kept (snd (remove_course d code)))
  /\ (forall roll code, kept (snd (remove_enrollment d roll code))).
Proof.
  intros Hd kept. unfold kept. pose proof Hd as Hd0.
  apply keys_valid_iff in Hd0. destruct Hd0 as (Hs & Hc & Hg).
  repeat match goal with |- _ /\ _ => split end.
  - intros s Hv. unfold add_student. destruct (not_end _ _); [exact Hd|].
    cbn [snd with_students all_students all_courses all_grades].
    apply keys_valid_iff. unfold push_back. rewrite map_app.
    split; [apply forallb_snoc; assumption | auto].
  - intros c Hv. unfold add_course. destruct (not_end _ _); [exact Hd|].
    cbn [snd with_courses all_students all_courses all_grades].
    apply keys_valid_iff. unfold push_back. rewrite map_app.
    split; [exact Hs|]. split; [apply forallb_snoc; assumption | exact Hg].
  - intros roll code Hr Hco. unfold enroll_student.
    destruct (negb (not_end _ (all_students d))); [exact Hd|].
    destruct (negb (not_end _ (all_courses d))); [exact Hd|].
    destruct (not_end _ (all_grades d)); [exact Hd|].
    cbn [snd with_grades all_students all_courses all_grades].
    apply keys_valid_iff. unfold push_back. rewrite map_app.
    split; [exact Hs|]. split; [exact Hc|].
    apply forallb_snoc; [exact Hg|].
    cbn [map grade_key Grade.roll_no Grade.course_code fst snd].
    rewrite Hr, Hco. reflexivity.
  - intros roll code im fm. unfold enter_marks.
    destruct (marks_rejected im fm); [exact Hd|].
    destruct (negb _); [exact Hd|].
    cbn [snd with_grades all_students all_courses all_grades].
    apply keys_valid_iff. rewrite assign_at_keys; [auto|]. reflexivity.
  - intros s. unfold apply_student_update.
    pose proof (replace_first_keys Student.roll_no
                  (student_is (Student.roll_no s)) s (all_students d)) as Hk.
    destruct (replace_first _ s (all_students d)) as [ok v].
    cbn [snd with_students all_students all_courses all_grades] in *.
    apply keys_valid_iff. rewrite Hk; [auto|].
    intros x Hx. apply student_is_key in Hx. congruence.
  - intros c. unfold apply_course_update.
    pose proof (replace_first_keys Course.code
                  (course_is (Course.code c)) c (all_courses d)) as Hk.
    destruct (replace_first _ c (all_courses d)) as [ok v].
    cbn [snd with_courses all_students all_courses all_grades] in *.
    apply keys_valid_iff. rewrite Hk; [auto|].
    intros x Hx. apply course_is_key in Hx. congruence.
  - intros roll. unfold remove_student.
    cbn [snd with_grades with_students all_students all_courses all_grades].
    rewrite !erase_remove_if_filter. apply keys_valid_iff.
    split; [apply forallb_map_filter; exact Hs|].
    split; [exact Hc | apply forallb_map_filter; exact Hg].
  - intros code. unfold remove_course.
    cbn [snd with_grades with_courses all_students all_courses all_grades].
    rewrite !erase_remove_if_filter. apply keys_valid_iff.
    split; [exact Hs|].
    split; apply forallb_map_filter; assumption.
  - intros roll code. unfold remove_enrollment.
    cbn [snd with_grades all_students all_courses all_grades].
    rewrite !erase_remove_if_filter. apply keys_valid_iff.
    split; [exact Hs|]. split; [exact Hc | apply forallb_map_filter; exact Hg].
Qed.

(** [db_enter_marks] writes marks only. *)
Lemma db_enter_marks_keeps_keys (st : Database) (roll code : string)
    (im fm : float) :
  students (snd (db_enter_marks st roll code im fm)) = students st
  /\ courses (snd (db_enter_marks st roll code im fm)) = courses st
  /\ map grade_key (grades (snd (db_enter_marks st roll code im fm)))
     = map grade_key (grades st).
Proof.
  unfold db_enter_marks, run_change, sqlite3_prepare_v2, sqlite3_step.
  destruct (has_tables st); [|auto].
  destruct (Nat.eqb _ 0); [auto|].
  destruct (PrimFloat.is_nan im || PrimFloat.is_nan fm); [auto|].
  cbn [snd students courses grades]. split; [reflexivity|]. split; [reflexivity|].
  rewrite map_map. apply map_ext.
  intros g. destruct (grade_is roll code g); reflexivity.
Qed.

Ltac db_keys_via_cache Hok layer Hkeys :=
  apply db_ok_iff in Hok; destruct Hok as [Hc Hst];
  rewrite Hst, layer; try exact Hc; cbn [snd db_of students courses grades];
  apply (cache_keys_kept _ Hkeys); assumption.

(** The write functions of [db.cpp] keep the form of the keys, when what is
    inserted has keys of that form. *)
Lemma db_keys_kept (st : Database) :
  db_ok st = true ->
  keys_valid (students st) (courses st) (grades st) = true ->
  let kept (st' : Database) :=
    keys_valid (students st') (courses st') (grades st') = true in
  (forall s, is_valid_roll (Student.roll_no s) = true ->
             kept (snd (db_add_student st s)))
  /\ (forall c, is_valid_course_code (Course.code c) = true ->
                kept (snd (db_add_course st c)))
  /\ (forall roll code,
         is_valid_roll roll = true -> is_valid_course_code code = true ->
         kept (snd (db_enroll st roll code)))
  /\ (forall roll code im fm, kept (snd (db_enter_marks st roll code im fm)))
  /\ (forall s, kept (snd (db_update_student st s)))
  /\ (forall c, kept (snd (db_update_course st c)))
  /\ (forall roll, kept (snd (db_delete_student st roll)))
  /\ (forall code, kept (snd (db_delete_course st code)))
  /\ (forall roll code, kept (snd (db_delete_enrollment st roll code))).
Proof.
  intros Hok Hkeys kept. unfold kept.
  change (keys_valid (all_students (cache_of st)) (all_courses (cache_of st))
            (all_grades (cache_of st)) = true) in Hkeys.
  split; [intros s Hv; db_keys_via_cache Hok layers_add_student Hkeys|].
  split; [intros c Hv; db_keys_via_cache Hok layers_add_course Hkeys|].
  split; [intros roll code Hr Hco; db_keys_via_cache Hok layers_enroll Hkeys|].
  split.
  { intros roll code im fm.
    destruct (db_enter_marks_keeps_keys st roll code im fm) as (Hs & Hc & Hg).
    apply keys_valid_iff in Hkeys. apply keys_valid_iff.
    rewrite Hs, Hc, Hg. exact Hkeys. }
  split; [intros s; db_keys_via_cache Hok layers_update_student Hkeys|].
  split; [intros c; db_keys_via_cache Hok layers_update_course Hkeys|].
  split; [intros roll; db_keys_via_cache Hok layers_delete_student Hkeys|].
  split; [intros code; db_keys_via_cache Hok layers_delete_course Hkeys|].
  intros roll code. db_keys_via_cache Hok layers_delete_enrollment Hkeys.
Qed.

Ltac keys_protocol Hok Hd :=
  rewrite store_then_mirror;
  match goal with
  | |- context [if fst ?x then _ else _] => destruct (fst x)
  end;
  cbn [snd db]; apply (db_keys_kept _ Hok Hd).

(** One validated menu entry keeps the form of the keys in the database. *)
Lemma keys_step (a : Action) (w : World) :
  db_ok (db w) = true ->
  keys_valid (students (db w)) (courses (db w)) (grades (db w)) = true ->
  validated a = true ->
  keys_valid (students (db (snd (run a w)))) (courses (db (snd (run a w))))
    (grades (db (snd (run a w)))) = true.
Proof.
  intros Hok Hd Hv. destruct a; cbn [run validated] in *;
    repeat match goal with
           | H : _ && _ = true |- _ =>
               apply andb_true_iff in H; destruct H
           end.
  - unfold choice_1, bind, get_data, ret; cbv beta iota.
    destruct (exists_student _ _); [exact Hd|]. keys_protocol Hok Hd; assumption.
  - unfold choice_3, bind, get_data, ret; cbv beta iota.
    destruct (exists_course _ _); [exact Hd|]. keys_protocol Hok Hd; assumption.
  - unfold choice_5, bind, get_data, ret; cbv beta iota.
    destruct (negb (exists_student _ _)); [exact Hd|].
    destruct (negb (exists_course _ _)); [exact Hd|].
    destruct (already_enrolled _ _ _); [exact Hd|].
    keys_protocol Hok Hd; assumption.
  - unfold choice_6, save_marks, bind, get_data, ret; cbv beta iota.
    destruct (negb (already_enrolled _ _ _)); [exact Hd|]. keys_protocol Hok Hd.
  - unfold choice_8, bind, get_data, ret; cbv beta iota.
    destruct (find _ _); [|exact Hd]. keys_protocol Hok Hd.
  - unfold choice_9, bind, get_data, ret; cbv beta iota.
    destruct (find _ _); [|exact Hd]. keys_protocol Hok Hd.
  - unfold choice_10, bind, get_data, ret; cbv beta iota.
    destruct (negb (exists_student _ _)); [exact Hd|]. keys_protocol Hok Hd.
  - unfold choice_11, bind, get_data, ret; cbv beta iota.
    destruct (negb (exists_course _ _)); [exact Hd|]. keys_protocol Hok Hd.
  - unfold choice_12, bind, get_data, ret; cbv beta iota.
    destruct (negb (already_enrolled _ _ _)); [exact Hd|]. keys_protocol Hok Hd.
Qed.

Lemma keys_session (session : list Action) (w : World) :
  db_ok (db w) = true ->
  keys_valid (students (db w)) (courses (db w)) (grades (db w)) = true ->
  forallb validated session = true ->
  keys_valid (students (db (run_all session w)))
    (courses (db (run_all session w)))
    (grades (db (run_all session w))) = true.
Proof.
  revert w. induction session as [|a session IH]; intros w Hok Hd Hv;
    [exact Hd|].
  cbn [forallb] in Hv. apply andb_true_iff in Hv. destruct Hv as [Ha Hv].
  rewrite run_all_cons.
  apply IH; [apply run_keeps_db_ok; exact Hok | apply keys_step; assumption
            | exact Hv].
Qed.

Lemma init_and_seed_keys (file : Database) :
  keys_valid (students file) (courses file) (grades file) = true ->
  keys_valid (students (snd (db_init_and_seed file)))
    (courses (snd (db_init_and_seed file)))
    (grades (snd (db_init_and_seed file))) = true.
Proof.
  intros H. apply keys_valid_iff in H. destruct H as (Hs & Hc & Hg).
  assert (Hs1 : forallb is_valid_roll
                  (map Student.roll_no (seeded_if_empty seed_students (students file)))
                = true) by (destruct (students file); [reflexivity | exact Hs]).
  assert (Hc1 : forallb is_valid_course_code
                  (map Course.code (seeded_if_empty seed_courses (courses file)))
                = true) by (destruct (courses file); [reflexivity | exact Hc]).
  rewrite db_init_and_seed_unfold. destruct (grades file) as [|g gs].
  - destruct (seed_parents_present _ _); cbn [snd students courses grades];
      apply keys_valid_iff; auto.
  - cbn [snd students courses grades]. apply keys_valid_iff. auto.
Qed.

(** X26: whatever is typed, the keys keep their form.  If the rows of the
    file satisfy the invariants of the schema and every roll number in it is
    an S followed by three to six digits and every course code three capital
    letters followed by three digits, then this is true of the file that
    [main] has written when it returns or hangs. *)
Theorem main_keeps_the_keys_valid (stod : string -> option float)
    (file : Database) (cin : Stream) (o : Outcome) :
  tables_ok (students file) (courses file) (grades file) = true ->
  keys_valid (students file) (courses file) (grades file) = true ->
  main stod file cin = Some o ->
  keys_valid (students (written o)) (courses (written o)) (grades (written o))
  = true.
Proof.
  intros Hok Hkeys Hmain. pose proof (init_and_seed_keys file Hkeys) as Hk.
  destruct (startup file) as [w|] eqn:Hs.
  - destruct (written_after_startup stod file cin w o Hs Hmain)
      as (session & Hv & ->).
    pose proof (startup_sound file w Hok Hs) as Hc.
    apply startup_state in Hs.
    assert (Hd : keys_valid (students (db w)) (courses (db w)) (grades (db w))
                 = true) by (subst w; exact Hk).
    apply (keys_session session w (proj1 Hc) Hd Hv).
  - rewrite (written_without_startup stod file cin o Hs Hmain). exact Hk.
Qed.

(** The theorem on a first run in which a course is added: a code in small
    letters is refused, the same code in capitals is stored; the input ends
    there, and [main] hangs. *)
Lemma main_keeps_the_keys_valid_witness :
  main stod_whole empty_db
    (typed ["3"; "art101"; "ART101"; "Art"; "Drawing"; "Ann Lee"])
  = Some (Hanging
            (db (run_all [AddCourse (Course.mk "ART101" "Art" "Drawing" "Ann Lee")]
                   seeded_world)))
  /\ forallb is_valid_course_code
       (map Course.code
          (courses
             (db (run_all [AddCourse (Course.mk "ART101" "Art" "Drawing" "Ann Lee")]
                    seeded_world)))) = true.
Proof.
  split; [reflexivity|].
  pose proof (main_keeps_the_keys_valid stod_whole empty_db
                (typed ["3"; "art101"; "ART101"; "Art"; "Drawing"; "Ann Lee"])
                (Hanging
                   (db (run_all
                          [AddCourse (Course.mk "ART101" "Art" "Drawing" "Ann Lee")]
                          seeded_world)))
                eq_refl eq_refl eq_refl) as H.
  apply keys_valid_iff in H. apply H.
Defined.

(* ------------------------------------------------------------------ *)
(** ** The line of the report *)





(* ------------------------------------------------------------------ *)
(** ** The database against the cache *)

Lemma digit_is_no_nul (c : ascii) :
  is_digit c = true -> Ascii.eqb c "000" = false.
Proof.
  destruct c as [[] [] [] [] [] [] [] []]; intros H; try discriminate H;
    reflexivity.
Qed.

Lemma upper_is_no_nul (c : ascii) :
  is_upper c = true -> Ascii.eqb c "000" = false.
Proof.
  destruct c as [[] [] [] [] [] [] [] []]; intros H; try discriminate H;
    reflexivity.
Qed.

Lemma nul_free_chars (x : string) :
  forallb (fun c => negb (Ascii.eqb c "000")) (list_ascii_of_string x) = true ->
  nul_free x = true.
Proof.
  intros H. unfold nul_free. apply String.eqb_eq.
  induction x as [|c x IH]; [reflexivity|].
  cbn [list_ascii_of_string forallb] in H. apply andb_true_iff in H.
  destruct H as [Hc Hx]. apply negb_true_iff in Hc.
  cbn [bind_text]. rewrite Hc, (IH Hx). reflexivity.
Qed.

Lemma forallb_weaken {A : Type} (p q : A -> bool) (l : list A) :
  (forall x, p x = true -> q x = true) ->
  forallb p l = true -> forallb q l = true.
Proof.
  intros Hpq. rewrite !forallb_forall. intros H x Hx. apply Hpq, H, Hx.
Qed.

(** A roll number and a course code hold no NUL byte. *)
Lemma valid_roll_nul_free (x : string) :
  is_valid_roll x = true -> nul_free x = true.
Proof.
  unfold is_valid_roll, regex_match, roll_re.
  rewrite matches_iff, Matches_anchored_iff, Matches_Seq_iff.
  intros (x1 & x2 & E & H1 & H2). apply Matches_chr_iff in H1. subst x1.
  apply Matches_between_chars_iff in H2; [|lia]. destruct H2 as [_ Hd].
  apply nul_free_chars. rewrite E. cbn [app forallb].
  apply (forallb_weaken is_digit); [|exact Hd].
  intros c Hc. rewrite (digit_is_no_nul c Hc). reflexivity.
Qed.

Lemma valid_course_code_nul_free (x : string) :
  is_valid_course_code x = true -> nul_free x = true.
Proof.
  unfold is_valid_course_code, regex_match, course_code_re.
  rewrite matches_iff, Matches_anchored_iff, Matches_Seq_iff.
  intros (x1 & x2 & E & H1 & H2).
  apply Matches_times_chars_iff in H1, H2.
  destruct H1 as [_ Hp1]. destruct H2 as [_ Hp2].
  apply nul_free_chars. rewrite E, forallb_app. apply andb_true_iff. split.
  - apply (forallb_weaken is_upper); [|exact Hp1].
    intros c Hc. rewrite (upper_is_no_nul c Hc). reflexivity.
  - apply (forallb_weaken is_digit); [|exact Hp2].
    intros c Hc. rewrite (digit_is_no_nul c Hc). reflexivity.
Qed.

(** X2: each database function and its cache helper decide alike, and the
    database then holds what it stores of the rows of the cache.  The
    database starts with what it stores of the rows of a cache that satisfies
    the invariants: every text that is not a key ends before its first NUL
    byte, and -0.0 is 0.0.  Then each database function returns the boolean
    that its cache helper returns on the cache, and leaves what the database
    stores of the rows that the helper leaves.  The keys that are passed
    hold no NUL byte, as every key does that passed [is_valid_roll] or
    [is_valid_course_code]; for the mark update, the marks pass the range
    test and are not NaN. *)
Theorem database_and_cache_agree (d : DataStore) :
  cache_ok d = true ->
  (forall s,
      nul_free (Student.roll_no s) = true ->
      db_add_student (db_of (stored d)) s
      = (fst (add_student d s), db_of (stored (snd (add_student d s)))))
  /\ (forall c,
         nul_free (Course.code c) = true ->
         db_add_course (db_of (stored d)) c
         = (fst (add_course d c), db_of (stored (snd (add_course d c)))))
  /\ (forall roll code,
         nul_free roll = true -> nul_free code = true ->
         db_enroll (db_of (stored d)) roll code
         = (fst (enroll_student d roll code),
            db_of (stored (snd (enroll_student d roll code)))))
  /\ (forall roll code im fm,
         nul_free roll = true -> nul_free code = true ->
         marks_rejected im fm = false ->
         PrimFloat.is_nan im || PrimFloat.is_nan fm = false ->
         db_enter_marks (db_of (stored d)) roll code im fm
         = (fst (enter_marks d roll code im fm),
            db_of (stored (snd (enter_marks d roll code im fm)))))
  /\ (forall s,
         nul_free (Student.roll_no s) = true ->
         db_update_student (db_of (stored d)) s
         = (fst (apply_student_update d s),
            db_of (stored (snd (apply_student_update d s)))))
  /\ (forall c,
         nul_free (Course.code c) = true ->
         db_update_course (db_of (stored d)) c
         = (fst (apply_course_update d c),
            db_of (stored (snd (apply_course_update d c)))))
  /\ (forall roll,
         nul_free roll = true ->
         db_delete_student (db_of (stored d)) roll
         = (fst (remove_student d roll), db_of (stored (snd (remove_student d roll)))))
  /\ (forall code,
         nul_free code = true ->
         db_delete_course (db_of (stored d)) code
         = (fst (remove_course d code), db_of (stored (snd (remove_course d code)))))
  /\ (forall roll code,
         nul_free roll = true -> nul_free code = true ->
         db_delete_enrollment (db_of (stored d)) roll code
         = (fst (remove_enrollment d roll code),
            db_of (stored (snd (remove_enrollment d roll code)))))
  /\ (forall x,
         is_valid_roll x = true \/ is_valid_course_code x = true ->
         nul_free x = true).
Proof.
  intros Hok.
  split; [intros s _; apply follows_add_student|].
  split; [intros c _; apply follows_add_course|].
  split; [intros roll code _ _; apply follows_enroll|].
  split; [intros roll code im fm _ _ Hm Hnan;
          apply follows_enter_marks; assumption|].
  split; [intros s _; apply follows_update_student; exact Hok|].
  split; [intros c _; apply follows_update_course; exact Hok|].
  split; [intros roll _; apply follows_delete_student; exact Hok|].
  split; [intros code _; apply follows_delete_course; exact Hok|].
  split; [intros roll code _ _; apply follows_delete_enrollment|].
  intros x [Hx|Hx]; [apply valid_roll_nul_free | apply valid_course_code_nul_free];
    exact Hx.
Qed.

(** The theorem at the seeded rows.  Student S010 is added with a NUL byte
    in the address: the database keeps the address up to that byte and the
    cache keeps it whole.  The marks -0.0 and 90 are entered for
    (S003, MTH101): the database keeps 0.0.  Deleting the unknown student
    S009 fails on both sides. *)
Lemma database_and_cache_agree_witness :
  cache_ok seeded_store = true
  /\ db_add_student seeded_db
       (Student.mk "S010" "Ava Lee" ("1 Test Rd" ++ String "000" "x") "021-000")
     = (true,
        mkDatabase true
          (seed_students ++ [Student.mk "S010" "Ava Lee" "1 Test Rd" "021-000"])
          seed_courses seed_grades)
  /\ all_students
       (snd (add_student seeded_store
               (Student.mk "S010" "Ava Lee" ("1 Test Rd" ++ String "000" "x")
                  "021-000")))
     = seed_students
       ++ [Student.mk "S010" "Ava Lee" ("1 Test Rd" ++ String "000" "x") "021-000"]
  /\ db_enter_marks seeded_db "S003" "MTH101" (-0) 90
     = (true,
        db_of (stored (snd (enter_marks seeded_store "S003" "MTH101" (-0) 90))))
  /\ db_delete_student seeded_db "S009" = (false, seeded_db)
  /\ remove_student seeded_store "S009" = (false, seeded_store).
Proof.
  split; [reflexivity|].
  destruct (database_and_cache_agree seeded_store eq_refl)
    as (Hadd & _ & _ & Hmarks & _ & _ & Hdelete & _).
  split; [|split; [reflexivity|split; [|split; [|reflexivity]]]].
  - exact (Hadd (Student.mk "S010" "Ava Lee" ("1 Test Rd" ++ String "000" "x")
                   "021-000") eq_refl).
  - exact (Hmarks "S003" "MTH101" (-0)%float 90%float eq_refl eq_refl eq_refl
             eq_refl).
  - exact (Hdelete "S009" eq_refl).
Defined.
